(** * MySQL initial-handshake decoder (cmd/rajath_go_assessment/mysql_decode.go)

    A shallow embedding of [InitialHandshakePacket.Decode] and of the
    [CapabilityFlag] helpers, together with the properties of the decoder
    that follow from the code.

    Conventions.
    - A byte is [Byte.byte]; [u8 b] is its value as an integer.
    - Go's fixed-width unsigned integers are [Z] with the wrap-around written
      out ([wrap w]).
    - A Go slice is a window ([s_off], [s_len], [s_cap]) on a backing array:
      [payload := data[4 : header.Length+4]] shares the array of [data], and
      re-slicing [payload] is checked against its capacity, not its length.
    - A run-time panic (index or slice bounds out of range) is the outcome
      [Panic]; a returned [error] is [Err]; [return nil] is [Val tt].
    - [Decode] mutates its receiver in place and keeps the local cursor
      [position]; both are threaded through the state monad [M]. *)

From Stdlib Require Import ZArith Lia List.
From Stdlib Require Import Init.Byte Strings.Byte Strings.String Strings.Ascii.
From stdpp Require Import base tactics option list gmap.

Local Open Scope Z_scope.

(** ** Bytes and fixed-width integers *)

Definition u8 (b : byte) : Z := Z.of_N (Byte.to_N b).

Definition wrap (w : Z) (x : Z) : Z := x mod 2 ^ w.

(** [encoding/binary]: [LittleEndian.Uint16] and [LittleEndian.Uint32] index
    their argument, so a slice that is too short panics ([None]). *)
Definition Uint16 (b : list byte) : option Z :=
  match b with
  | b0 :: b1 :: _ => Some (wrap 16 (Z.lor (u8 b0) (wrap 16 (Z.shiftl (u8 b1) 8))))
  | _ => None
  end.

Definition Uint32 (b : list byte) : option Z :=
  match b with
  | b0 :: b1 :: b2 :: b3 :: _ =>
      Some (wrap 32 (Z.lor (Z.lor (Z.lor (u8 b0)
                                         (wrap 32 (Z.shiftl (u8 b1) 8)))
                                  (wrap 32 (Z.shiftl (u8 b2) 16)))
                           (wrap 32 (Z.shiftl (u8 b3) 24))))
  | _ => None
  end.

(** ** Go slices *)

Record slice : Type := Slice {
  s_arr : list byte;   (* backing array *)
  s_off : Z;           (* first element of the window *)
  s_len : Z;           (* len(s) *)
  s_cap : Z            (* cap(s) *)
}.

(** [make([]byte, n)] *)
Definition make (n : Z) : slice :=
  Slice (replicate (Z.to_nat n) x00) 0 n n.

(** The elements [s[0] .. s[len(s)-1]]. *)
Definition elems (s : slice) : list byte :=
  take (Z.to_nat (s_len s)) (drop (Z.to_nat (s_off s)) (s_arr s)).

(** [s[i]]: checked against the length. *)
Definition index (s : slice) (i : Z) : option byte :=
  if bool_decide (0 <= i < s_len s)
  then s_arr s !! Z.to_nat (s_off s + i)
  else None.

(** [s[lo:hi]]: checked against the capacity. *)
Definition reslice (s : slice) (lo hi : Z) : option slice :=
  if bool_decide (0 <= lo /\ lo <= hi /\ hi <= s_cap s)
  then Some (Slice (s_arr s) (s_off s + lo) (hi - lo) (s_cap s - lo))
  else None.

(** The elements of [s[lo:hi]], for a slice expression that is only read. *)
Definition sub (s : slice) (lo hi : Z) : option (list byte) :=
  elems <$> reslice s lo hi.

(** The elements of [s[lo:]], that is of [s[lo:len(s)]]. *)
Definition sub_from (s : slice) (lo : Z) : option (list byte) :=
  sub s lo (s_len s).

(** [copy(dst, src)]: the new elements of [dst]. *)
Definition copy (dst src : list byte) : list byte :=
  take (length dst) src ++ drop (length src) dst.

(** [bytes.IndexByte]: index of the first [c], or -1. *)
Fixpoint find_byte (c : byte) (l : list byte) : option nat :=
  match l with
  | [] => None
  | x :: l' => if Byte.eqb x c then Some O else S <$> find_byte c l'
  end.

Definition IndexByte (b : list byte) (c : byte) : Z :=
  match find_byte c b with
  | Some i => Z.of_nat i
  | None => -1
  end.

(** [strings.Contains] *)
Fixpoint Contains (s substr : string) : bool :=
  String.prefix substr s
  || match s with
     | EmptyString => false
     | String _ s' => Contains s' substr
     end.

(** ** The connection

    [conn.Read(data)] either fails or copies the bytes that this one read
    delivers (at most [len(data)] of them) to the front of [data]. *)
Inductive Conn : Type :=
| ConnFail (err : string)
| ConnData (received : list byte).

Definition Read (conn : Conn) (b : slice) : slice * option string :=
  match conn with
  | ConnFail err => (b, Some err)
  | ConnData received =>
      let n := Nat.min (length received) (Z.to_nat (s_len b)) in
      let o := Z.to_nat (s_off b) in
      (Slice (take o (s_arr b) ++ take n received ++ drop (o + n) (s_arr b))
             (s_off b) (s_len b) (s_cap b),
       None)
  end.

(** ** Packet types *)

Record PacketHeader : Type := mkPacketHeader {
  Length : Z;          (* uint32 *)
  SequenceId : byte    (* uint8 *)
}.

Record InitialHandshakePacket : Type := mkPacket {
  ProtocolVersion : byte;
  ServerVersion : list byte;
  ConnectionId : Z;              (* uint32 *)
  AuthPluginData : list byte;
  Filler : byte;
  CapabilitiesFlags : Z;         (* CapabilityFlag, uint32 *)
  CharacterSet : byte;
  StatusFlags : Z;               (* uint16 *)
  AuthPluginDataLen : byte;
  AuthPluginName : list byte;
  header : option PacketHeader   (* *PacketHeader, nil at first *)
}.

(** [&InitialHandshakePacket{}] *)
Definition zeroPacket : InitialHandshakePacket :=
  mkPacket x00 [] 0 [] x00 0 x00 0 x00 [] None.

Definition set_ProtocolVersion (v : byte) (p : InitialHandshakePacket) :=
  mkPacket v (ServerVersion p) (ConnectionId p) (AuthPluginData p) (Filler p)
    (CapabilitiesFlags p) (CharacterSet p) (StatusFlags p)
    (AuthPluginDataLen p) (AuthPluginName p) (header p).
Definition set_ServerVersion (v : list byte) (p : InitialHandshakePacket) :=
  mkPacket (ProtocolVersion p) v (ConnectionId p) (AuthPluginData p) (Filler p)
    (CapabilitiesFlags p) (CharacterSet p) (StatusFlags p)
    (AuthPluginDataLen p) (AuthPluginName p) (header p).
Definition set_ConnectionId (v : Z) (p : InitialHandshakePacket) :=
  mkPacket (ProtocolVersion p) (ServerVersion p) v (AuthPluginData p) (Filler p)
    (CapabilitiesFlags p) (CharacterSet p) (StatusFlags p)
    (AuthPluginDataLen p) (AuthPluginName p) (header p).
Definition set_AuthPluginData (v : list byte) (p : InitialHandshakePacket) :=
  mkPacket (ProtocolVersion p) (ServerVersion p) (ConnectionId p) v (Filler p)
    (CapabilitiesFlags p) (CharacterSet p) (StatusFlags p)
    (AuthPluginDataLen p) (AuthPluginName p) (header p).
Definition set_Filler (v : byte) (p : InitialHandshakePacket) :=
  mkPacket (ProtocolVersion p) (ServerVersion p) (ConnectionId p)
    (AuthPluginData p) v
    (CapabilitiesFlags p) (CharacterSet p) (StatusFlags p)
    (AuthPluginDataLen p) (AuthPluginName p) (header p).
Definition set_CapabilitiesFlags (v : Z) (p : InitialHandshakePacket) :=
  mkPacket (ProtocolVersion p) (ServerVersion p) (ConnectionId p)
    (AuthPluginData p) (Filler p)
    v (CharacterSet p) (StatusFlags p)
    (AuthPluginDataLen p) (AuthPluginName p) (header p).
Definition set_CharacterSet (v : byte) (p : InitialHandshakePacket) :=
  mkPacket (ProtocolVersion p) (ServerVersion p) (ConnectionId p)
    (AuthPluginData p) (Filler p)
    (CapabilitiesFlags p) v (StatusFlags p)
    (AuthPluginDataLen p) (AuthPluginName p) (header p).
Definition set_StatusFlags (v : Z) (p : InitialHandshakePacket) :=
  mkPacket (ProtocolVersion p) (ServerVersion p) (ConnectionId p)
    (AuthPluginData p) (Filler p)
    (CapabilitiesFlags p) (CharacterSet p) v
    (AuthPluginDataLen p) (AuthPluginName p) (header p).
Definition set_AuthPluginDataLen (v : byte) (p : InitialHandshakePacket) :=
  mkPacket (ProtocolVersion p) (ServerVersion p) (ConnectionId p)
    (AuthPluginData p) (Filler p)
    (CapabilitiesFlags p) (CharacterSet p) (StatusFlags p)
    v (AuthPluginName p) (header p).
Definition set_AuthPluginName (v : list byte) (p : InitialHandshakePacket) :=
  mkPacket (ProtocolVersion p) (ServerVersion p) (ConnectionId p)
    (AuthPluginData p) (Filler p)
    (CapabilitiesFlags p) (CharacterSet p) (StatusFlags p)
    (AuthPluginDataLen p) v (header p).
Definition set_header (v : option PacketHeader) (p : InitialHandshakePacket) :=
  mkPacket (ProtocolVersion p) (ServerVersion p) (ConnectionId p)
    (AuthPluginData p) (Filler p)
    (CapabilitiesFlags p) (CharacterSet p) (StatusFlags p)
    (AuthPluginDataLen p) (AuthPluginName p) v.

(** ** Capability flags: [1 << iota] *)

Definition clientLongPassword : Z := Z.shiftl 1 0.
Definition clientFoundRows : Z := Z.shiftl 1 1.
Definition clientLongFlag : Z := Z.shiftl 1 2.
Definition clientConnectWithDB : Z := Z.shiftl 1 3.
Definition clientNoSchema : Z := Z.shiftl 1 4.
Definition clientCompress : Z := Z.shiftl 1 5.
Definition clientODBC : Z := Z.shiftl 1 6.
Definition clientLocalFiles : Z := Z.shiftl 1 7.
Definition clientIgnoreSpace : Z := Z.shiftl 1 8.
Definition clientProtocol41 : Z := Z.shiftl 1 9.
Definition clientInteractive : Z := Z.shiftl 1 10.
Definition clientSSL : Z := Z.shiftl 1 11.
Definition clientIgnoreSIGPIPE : Z := Z.shiftl 1 12.
Definition clientTransactions : Z := Z.shiftl 1 13.
Definition clientReserved : Z := Z.shiftl 1 14.
Definition clientSecureConn : Z := Z.shiftl 1 15.
Definition clientMultiStatements : Z := Z.shiftl 1 16.
Definition clientMultiResults : Z := Z.shiftl 1 17.
Definition clientPSMultiResults : Z := Z.shiftl 1 18.
Definition clientPluginAuth : Z := Z.shiftl 1 19.
Definition clientConnectAttrs : Z := Z.shiftl 1 20.
Definition clientPluginAuthLenEncClientData : Z := Z.shiftl 1 21.
Definition clientCanHandleExpiredPasswords : Z := Z.shiftl 1 22.
Definition clientSessionTrack : Z := Z.shiftl 1 23.
Definition clientDeprecateEOF : Z := Z.shiftl 1 24.

Definition Max (x y : Z) : Z := if x >? y then x else y.

(** [var flags = map[CapabilityFlag]string{...}] *)
Definition flags : gmap Z string :=
  list_to_map
    [ (clientLongPassword, "clientLongPassword"%string);
      (clientFoundRows, "clientFoundRows"%string);
      (clientLongFlag, "clientLongFlag"%string);
      (clientConnectWithDB, "clientConnectWithDB"%string);
      (clientNoSchema, "clientNoSchema"%string);
      (clientCompress, "clientCompress"%string);
      (clientODBC, "clientODBC"%string);
      (clientLocalFiles, "clientLocalFiles"%string);
      (clientIgnoreSpace, "clientIgnoreSpace"%string);
      (clientProtocol41, "clientProtocol41"%string);
      (clientInteractive, "clientInteractive"%string);
      (clientSSL, "clientSSL"%string);
      (clientIgnoreSIGPIPE, "clientIgnoreSIGPIPE"%string);
      (clientTransactions, "clientTransactions"%string);
      (clientReserved, "clientReserved"%string);
      (clientSecureConn, "clientSecureConn"%string);
      (clientMultiStatements, "clientMultiStatements"%string);
      (clientMultiResults, "clientMultiResults"%string);
      (clientPSMultiResults, "clientPSMultiResults"%string);
      (clientPluginAuth, "clientPluginAuth"%string);
      (clientConnectAttrs, "clientConnectAttrs"%string);
      (clientPluginAuthLenEncClientData,
       "clientPluginAuthLenEncClientData"%string);
      (clientCanHandleExpiredPasswords,
       "clientCanHandleExpiredPasswords"%string);
      (clientSessionTrack, "clientSessionTrack"%string);
      (clientDeprecateEOF, "clientDeprecateEOF"%string) ].

(** ** [fmt] verbs used by [String]: [%08x] and [%032b] of a [uint64] *)

Definition digitChar (d : Z) : ascii :=
  nth (Z.to_nat d) (list_ascii_of_string "0123456789abcdef") "0"%char.

(** The digits of [x] in [base], most significant first; a [uint64] has at
    most 64 of them. *)
Fixpoint formatBase (fuel : nat) (base x : Z) (acc : string) : string :=
  match fuel with
  | O => acc
  | S fuel' =>
      let acc' := String (digitChar (x mod base)) acc in
      if x / base =? 0 then acc' else formatBase fuel' base (x / base) acc'
  end.

Definition padZero (width : nat) (s : string) : string :=
  (string_of_list_ascii (replicate (width - String.length s) "0"%char)
   ++ s)%string.

Definition fmt_08x (i : Z) : string := padZero 8 (formatBase 64 16 i "").
Definition fmt_032b (i : Z) : string := padZero 32 (formatBase 64 2 i "").

(** [strings.Join] *)
Fixpoint Join (elts : list string) (sep : string) : string :=
  match elts with
  | [] => ""
  | [x] => x
  | x :: rest => (x ++ sep ++ Join rest sep)%string
  end.

Definition newline : string := String (ascii_of_nat 10) "".

Module CapabilityFlag.

(** [r.Has(flag)] *)
Definition Has (r flag : Z) : bool := negb (Z.land r flag =? 0).

(** The loop of [String]: [i] runs over a [uint64], and the loop ends when
    [i] exceeds [1<<31]; [None] only if [fuel] iterations did not reach the
    end. *)
Fixpoint String_loop (fuel : nat) (i : Z) (names : list string)
  : option (list string) :=
  match fuel with
  | O => None
  | S fuel' =>
      if i <=? wrap 64 (Z.shiftl 1 31) then
        let names :=
          match flags !! wrap 32 i with
          | Some name =>
              names ++ [("0x" ++ fmt_08x i ++ " - " ++ fmt_032b i ++ " - "
                         ++ name)%string]
          | None => names
          end in
        String_loop fuel' (wrap 64 (Z.shiftl i 1)) names
      else Some names
  end.

(** [r.String()]; the receiver [r] is not used by the body. *)
Definition String (r : Z) : option string :=
  match String_loop 64 1 [] with
  | Some names => Some (Join names newline)
  | None => None
  end.

End CapabilityFlag.

(** ** The state monad of [Decode] *)

Record frame : Type := mkFrame {
  r : InitialHandshakePacket;   (* the receiver, mutated in place *)
  position : Z                  (* the local cursor *)
}.

Inductive outcome (A : Type) : Type :=
| Val (a : A)        (* the step completed *)
| Err (e : string)   (* return errors.New(e) *)
| Panic.             (* run-time panic *)
Arguments Val {A} a.
Arguments Err {A} e.
Arguments Panic {A}.

Definition M (A : Type) : Type := frame -> outcome A * frame.

Definition ret {A} (a : A) : M A := fun s => (Val a, s).

Definition bind {A B} (c : M A) (k : A -> M B) : M B :=
  fun s =>
    match c s with
    | (Val a, s') => k a s'
    | (Err e, s') => (Err e, s')
    | (Panic, s') => (Panic, s')
    end.

Definition throw {A} (e : string) : M A := fun s => (Err e, s).

(** A bounds-checked operation: [None] is a panic. *)
Definition checked {A} (o : option A) : M A :=
  fun s => match o with Some a => (Val a, s) | None => (Panic, s) end.

Definition assign (f : InitialHandshakePacket -> InitialHandshakePacket)
  : M unit :=
  fun s => (Val tt, mkFrame (f (r s)) (position s)).

Definition receiver : M InitialHandshakePacket := fun s => (Val (r s), s).

Definition cursor : M Z := fun s => (Val (position s), s).

Definition seek (p : Z) : M unit := fun s => (Val tt, mkFrame (r s) p).

Declare Scope go_scope.
Delimit Scope go_scope with go.
Notation "x <- c ; k" := (bind c (fun x => k))
  (at level 100, c at next level, right associativity) : go_scope.
Notation "c ;; k" := (bind c (fun _ => k))
  (at level 100, right associativity) : go_scope.
Local Open Scope go_scope.

(** [position += n] *)
Definition advance (n : Z) : M unit := (p <- cursor; seek (p + n)).

(** [payload[position : position+n]] *)
Definition window (payload : slice) (n : Z) : M (list byte) :=
  (p <- cursor; checked (sub payload p (p + n))).

(** ** [Decode] *)

Definition accessDeniedText : string :=
  "is not allowed to connect to this MySQL server".

(** Lines 42-64: read, header, payload slice. *)
Definition decodeHeader (conn : Conn) : M (slice * slice * PacketHeader) :=
  let data := make 1024 in
  match Read conn data with
  | (_, Some err) => throw err
  | (data, None) =>
      d0 <- checked (index data 0);
      d1 <- checked (index data 1);
      d2 <- checked (index data 2);
      ln <- checked (Uint32 [d0; d1; d2; x00]);
      d3 <- checked (index data 3);
      let header := mkPacketHeader ln d3 in
      if 1024 <=? Length header then throw "Header sanity check failed!"
      else
        assign (set_header (Some header));;
        payload <- checked (reslice data 4 (wrap 32 (Length header + 4)));
        seek 0;;
        ret (data, payload, header)
  end.

(** Lines 69-88: protocol version and the error classifier. *)
Definition decodeProtocolVersion (data payload : slice) (header : PacketHeader)
  : M unit :=
  v <- checked (index payload 0);
  assign (set_ProtocolVersion v);;
  if negb (Byte.eqb v x0a) then
    let termIndex := IndexByte (elems data) x00 + 1 in
    s <- checked (sub payload termIndex (Length header));
    let s := string_of_list_byte s in
    if Contains s accessDeniedText then throw s
    else if Byte.eqb v x09 then throw "Version 9 is not yet supported!"
    else throw "Only version 10 is supported. Unknown procotcol version!"
  else advance 1.

(** Line 138: [uint32(capLow) | uint32(capHi)<<16] *)
Definition capabilities (capLow capHi : Z) : Z :=
  Z.lor (wrap 32 capLow) (wrap 32 (Z.shiftl (wrap 32 capHi) 16)).

(** Lines 95-147: server version, connection id, auth-plugin-data part 1,
    filler, capability flags, character set, status flags,
    auth-plugin-data length. *)
Definition decodeFields (payload : slice) : M unit :=
  let index_ := IndexByte (elems payload) x00 in
  p <- cursor;
  sv <- checked (sub payload p index_);
  assign (set_ServerVersion sv);;
  seek (index_ + 1);;
  connectionId <- window payload 4;
  id <- checked (Uint32 connectionId);
  assign (set_ConnectionId id);;
  advance 4;;
  assign (set_AuthPluginData (elems (make 8)));;
  part1 <- window payload 8;
  rcv <- receiver;
  assign (set_AuthPluginData (copy (AuthPluginData rcv) part1));;
  advance 8;;
  p <- cursor;
  f <- checked (index payload p);
  assign (set_Filler f);;
  if negb (Byte.eqb f x00) then throw "Unable to decode filler value"
  else
    advance 1;;
    capabilitiesFlags1 <- window payload 2;
    advance 2;;
    p <- cursor;
    cs <- checked (index payload p);
    assign (set_CharacterSet cs);;
    advance 1;;
    sf <- window payload 2;
    sf <- checked (Uint16 sf);
    assign (set_StatusFlags sf);;
    advance 2;;
    capabilityFlags2 <- window payload 2;
    advance 2;;
    capLow <- checked (Uint16 capabilitiesFlags1);
    capHi <- checked (Uint16 capabilityFlags2);
    let cap := capabilities capLow capHi in
    assign (set_CapabilitiesFlags cap);;
    if negb (Z.land cap clientPluginAuth =? 0) then
      p <- cursor;
      l <- checked (index payload p);
      assign (set_AuthPluginDataLen l);;
      if Byte.eqb l x00 then throw "Wrong auth plugin data len"
      else ret tt
    else ret tt.

(** Lines 153-166: reserved bytes and auth-plugin-data part 2. *)
Definition decodeAuthPluginData (payload : slice) : M unit :=
  advance (1 + 10);;
  rcv <- receiver;
  if negb (Z.land (CapabilitiesFlags rcv) clientSecureConn =? 0) then
    p <- cursor;
    let end_ := p + Max 13 (u8 (AuthPluginDataLen rcv) - 8) in
    part2 <- checked (sub payload p end_);
    assign (set_AuthPluginData (AuthPluginData rcv ++ part2));;
    seek end_
  else ret tt.

(** Lines 168-180: auth plugin name. *)
Definition decodeAuthPluginName (payload : slice) : M unit :=
  p <- cursor;
  rest <- checked (sub_from payload p);
  let index_ := IndexByte rest x00 in
  if negb (index_ =? -1) then
    name <- checked (sub payload p (p + index_));
    assign (set_AuthPluginName name)
  else
    name <- checked (sub_from payload p);
    assign (set_AuthPluginName name).

Definition Decode (conn : Conn) : M unit :=
  hdr <- decodeHeader conn;
  let '(data, payload, header) := hdr in
  decodeProtocolVersion data payload header;;
  decodeFields payload;;
  decodeAuthPluginData payload;;
  decodeAuthPluginName payload.

(** The call in [scanHostPort]: a fresh receiver, cursor at 0. *)
Definition freshFrame : frame := mkFrame zeroPacket 0.

(** The buffer [data] after [conn.Read]. *)
Definition buffer (conn : Conn) : slice := fst (Read conn (make 1024)).

(** The elements of [payload], the [header.Length] bytes after the header
    (empty when [Decode] returns before it slices [payload]). *)
Definition declaredPayload (conn : Conn) : list byte :=
  match decodeHeader conn freshFrame with
  | (Val (_, payload, _), _) => elems payload
  | _ => []
  end.

(** What [bytes.IndexByte] leaves of a name: the bytes before the first NUL,
    or all of them. *)
Definition untilNul (rest : list byte) : list byte :=
  match find_byte x00 rest with
  | Some i => take i rest
  | None => rest
  end.

(** The value of two bytes read little-endian. *)
Definition le16 (b0 b1 : byte) : Z := Z.lor (u8 b0) (Z.shiftl (u8 b1) 8).

(** The receiver with the sequence id of its stored header blanked. *)
Definition eraseSequenceId (p : InitialHandshakePacket)
  : InitialHandshakePacket :=
  set_header ((fun h => mkPacketHeader (Length h) x00) <$> header p) p.

(** Two runs agree when they end alike, with the same cursor and with
    receivers that differ in the stored sequence id at most. *)
Definition agree_runs {A} (x x' : outcome A * frame) : Prop :=
  fst x = fst x' /\
  position (snd x) = position (snd x') /\
  eraseSequenceId (r (snd x)) = eraseSequenceId (r (snd x')).

(** ** The read and the layout of a version-10 payload *)

(** The buffer of one read: the bytes delivered, cut or zero-padded to 1024. *)
Definition padded (received : list byte) : list byte :=
  take 1024 (received ++ replicate 1024 x00).

(** The first three bytes of the buffer read as a little-endian number. *)
Definition headerLength (received : list byte) : Z :=
  match padded received with
  | d0 :: d1 :: d2 :: _ => u8 d0 + 256 * u8 d1 + 65536 * u8 d2
  | _ => 0
  end.

(** The fourth byte of the buffer, stored as [header.SequenceId]. *)
Definition headerSequenceId (received : list byte) : byte :=
  default x00 (padded received !! 3%nat).

(** A version-10 payload laid out field by field, in the order in which
    [Decode] moves its cursor over it. *)
Definition handshakePayload (serverVersion connectionId part1 : list byte)
    (c0 c1 characterSet s0 s1 c2 c3 authLen : byte)
    (reserved rest : list byte) : list byte :=
  [x0a] ++ serverVersion ++ [x00] ++ connectionId ++ part1 ++
  [x00; c0; c1; characterSet; s0; s1; c2; c3; authLen] ++ reserved ++ rest.

(** ** [GetPacketInfo] *)

(** [%d] of an unsigned integer. *)
Definition fmt_d (x : Z) : string := formatBase 64 10 x "".

(** [packet.GetPacketInfo()]; [%s] of a byte slice prints its bytes. *)
Definition GetPacketInfo (packet : InitialHandshakePacket) : string :=
  Join
    [ ("Protocol version: " ++ fmt_d (u8 (ProtocolVersion packet)))%string;
      ("Server version: "
       ++ string_of_list_byte (ServerVersion packet))%string;
      ("Connection ID: " ++ fmt_d (ConnectionId packet))%string;
      ("Auth Plugin Data Len: "
       ++ fmt_d (u8 (AuthPluginDataLen packet)))%string;
      ("Authentication plugin name: "
       ++ string_of_list_byte (AuthPluginName packet))%string;
      ("Status flags: " ++ fmt_d (StatusFlags packet))%string;
      ("Capability flag: " ++ fmt_d (CapabilitiesFlags packet))%string;
      ("Character set: " ++ fmt_d (u8 (CharacterSet packet)))%string ]
    newline.

(** The number of line breaks in a text. *)
Fixpoint lineBreaks (s : string) : nat :=
  match s with
  | EmptyString => 0
  | String c s' =>
      (if Ascii.eqb c (ascii_of_nat 10) then 1 else 0) + lineBreaks s'
  end.

(** * Concrete packets *)

(** The handshake of the README: MySQL 8.0.32, connection id 25, capability
    flags 3758096383, character set 255, status flags 2, auth-plugin-data
    length 21, plugin caching_sha2_password. *)
Definition sampleHandshake : list byte :=
  [x4a; x00; x00; x00; x0a] ++ list_byte_of_string "8.0.32" ++
  [x00; x19; x00; x00; x00] ++ list_byte_of_string "abcdefgh" ++
  [x00; xff; xff; xff; x02; x00; xff; xdf; x15] ++ replicate 10 x00 ++
  list_byte_of_string "ijklmnopqrst" ++ [x00] ++
  list_byte_of_string "caching_sha2_password" ++ [x00].

(** The same handshake sent with sequence id 7. *)
Definition sampleResequenced : list byte := <[3%nat := x07]> sampleHandshake.

(** An older server: SECURE_CONNECTION without PLUGIN_AUTH, and a plugin name
    that is not NUL-terminated. *)
Definition sampleLegacy : list byte :=
  [x48; x00; x00; x00; x0a] ++ list_byte_of_string "5.1.0" ++
  [x00; x07; x00; x00; x00] ++ list_byte_of_string "abcdefgh" ++
  [x00; xff; xff; x08; x02; x00; x00; x00; x00] ++ replicate 10 x00 ++
  list_byte_of_string "ijklmnopqrst" ++ [x00] ++
  list_byte_of_string "mysql_native_password".

(** A payload of three bytes, cut after the server version. *)
Definition truncatedHandshake : list byte :=
  [x03; x00; x00; x00; x0a; x35; x00].

(** A header that declares an empty payload. *)
Definition emptyPayload : list byte := [x00; x00; x00; x00].

(** A version-10 payload whose filler byte is 1. *)
Definition badFiller : list byte :=
  [x10; x00; x00; x00; x0a; x35; x00; x19; x00; x00; x00] ++
  list_byte_of_string "abcdefgh" ++ [x01].

(** A version-9 payload with a NUL byte after the access-denied text. *)
Definition version9Probe : list byte :=
  [x33; x00; x00; x00; x09; x78; x78] ++
  list_byte_of_string accessDeniedText ++ [x00; x7a].

(** A version-9 payload of one byte. *)
Definition version9Only : list byte := [x01; x00; x00; x00; x09].

(** A handshake with auth-plugin-data length 30: part 2 has 22 bytes. *)
Definition sampleLongAuth : list byte :=
  [x53; x00; x00; x00; x0a] ++ list_byte_of_string "8.0.32" ++
  [x00; x19; x00; x00; x00] ++ list_byte_of_string "abcdefgh" ++
  [x00; xff; xff; xff; x02; x00; xff; xdf; x1e] ++ replicate 10 x00 ++
  list_byte_of_string "ijklmnopqrstuvwxyz012" ++ [x00] ++
  list_byte_of_string "caching_sha2_password" ++ [x00].

(** A header that declares 1021 bytes. *)
Definition longHeader : list byte := [xfd; x03; x00; x00].

(** A read that delivers two of the five bytes its header declares. *)
Definition shortRead : list byte := [x05; x00; x00; x00; x0a; x35].

(** A receiver left over from an earlier decode, cursor included. *)
Definition usedFrame : frame :=
  mkFrame (mkPacket x09 [x41] 7 [x42] x01 5 x21 3 x00 [x43]
             (Some (mkPacketHeader 9 x02))) 12.

(** * Properties *)

(** ** Bytes and integers *)

Lemma u8_range b : 0 <= u8 b <= 255.
Proof.
  unfold u8. pose proof (Byte.to_N_bounded b). lia.
Qed.

Lemma u8_zero b : u8 b = 0 -> b = x00.
Proof.
  unfold u8. intros H.
  assert (Hn : Byte.to_N b = 0%N) by lia.
  pose proof (Byte.of_to_N b) as Hb. rewrite Hn in Hb. cbn in Hb. congruence.
Qed.

Lemma byte_eqb_true a b : Byte.eqb a b = true <-> a = b.
Proof.
  split; [apply Byte.byte_dec_bl | apply Byte.byte_dec_lb].
Qed.

Lemma byte_eqb_false a b : Byte.eqb a b = false <-> a <> b.
Proof.
  split; [apply Byte.eqb_false |].
  intros Hne. destruct (Byte.eqb a b) eqn:E; [| done].
  apply byte_eqb_true in E. done.
Qed.

Lemma wrap_small w x : 0 <= x < 2 ^ w -> wrap w x = x.
Proof. intros H. unfold wrap. by apply Z.mod_small. Qed.

Lemma lor_bound a b n : 0 <= n -> 0 <= a < 2 ^ n -> 0 <= b < 2 ^ n ->
  0 <= Z.lor a b < 2 ^ n.
Proof.
  intros Hn Ha Hb. split; [apply Z.lor_nonneg; lia |].
  destruct (Z.eq_dec (Z.lor a b) 0) as [-> | Hz]; [lia |].
  apply Z.log2_lt_pow2; [pose proof (proj2 (Z.lor_nonneg a b)); lia |].
  rewrite Z.log2_lor by lia.
  destruct (Z.eq_dec a 0) as [-> | Ha0], (Z.eq_dec b 0) as [-> | Hb0];
    cbn [Z.log2]; try (rewrite Z.lor_0_r in Hz); try (rewrite Z.lor_0_l in Hz);
    try done.
  - rewrite Z.max_r by apply Z.log2_nonneg. apply Z.log2_lt_pow2; lia.
  - rewrite Z.max_l by apply Z.log2_nonneg. apply Z.log2_lt_pow2; lia.
  - apply Z.max_lub_lt; apply Z.log2_lt_pow2; lia.
Qed.

Lemma shiftl_bound a k n : 0 <= k -> 0 <= n -> 0 <= a < 2 ^ n ->
  0 <= Z.shiftl a k < 2 ^ (n + k).
Proof.
  intros Hk Hn Ha. rewrite Z.shiftl_mul_pow2 by done.
  rewrite Z.pow_add_r by done. nia.
Qed.

Lemma le16_range b0 b1 : 0 <= le16 b0 b1 < 2 ^ 16.
Proof.
  unfold le16. pose proof (u8_range b0). pose proof (u8_range b1).
  apply lor_bound; [lia | lia |].
  pose proof (shiftl_bound (u8 b1) 8 8). lia.
Qed.

Lemma Uint16_le16 b0 b1 l : Uint16 (b0 :: b1 :: l) = Some (le16 b0 b1).
Proof.
  cbn [Uint16]. f_equal. pose proof (u8_range b1).
  pose proof (shiftl_bound (u8 b1) 8 8).
  rewrite (wrap_small 16 (Z.shiftl _ _)) by lia.
  apply wrap_small, le16_range.
Qed.

Lemma capabilities_halves lo hi :
  0 <= lo < 2 ^ 16 -> 0 <= hi < 2 ^ 16 ->
  capabilities lo hi = Z.lor lo (Z.shiftl hi 16).
Proof.
  intros Hlo Hhi. unfold capabilities.
  pose proof (shiftl_bound hi 16 16).
  rewrite (wrap_small 32 lo) by lia.
  rewrite (wrap_small 32 hi) by lia.
  rewrite (wrap_small 32 (Z.shiftl _ _)) by lia. done.
Qed.

(** ** The monad *)

Lemma bind_val {A B} (c : M A) (k : A -> M B) s b s' :
  bind c k s = (Val b, s') ->
  exists a s1, c s = (Val a, s1) /\ k a s1 = (Val b, s').
Proof.
  unfold bind. destruct (c s) as [[a | e |] s1]; [eauto | done | done].
Qed.

Lemma bind_err {A B} (c : M A) (k : A -> M B) s e s' :
  bind c k s = (Err e, s') ->
  c s = (Err e, s') \/ exists a s1, c s = (Val a, s1) /\ k a s1 = (Err e, s').
Proof.
  unfold bind. destruct (c s) as [[a | e1 |] s1]; [eauto | | done].
  intros [= -> ->]. by left.
Qed.

(** Symbolic execution of a run in hypothesis [H]: reduce the monad, and split
    on each bounds check and each test as it is reached. *)
Ltac exec_red H :=
  cbv beta iota delta [bind checked assign cursor seek advance ret receiver
                         throw window r position] in H.

(** The test or bounds check on which a stuck run waits. *)
Ltac head_scrutinee t :=
  lazymatch t with
  | match ?x with pair _ _ => _ end => head_scrutinee x
  | match ?x with Val _ => _ | Err _ => _ | Panic => _ end => head_scrutinee x
  | match ?x with Some _ => _ | None => _ end => head_scrutinee x
  | if ?x then _ else _ => head_scrutinee x
  | (if ?x then _ else _) _ => head_scrutinee x
  | (match ?x with Some _ => _ | None => _ end) _ => head_scrutinee x
  | _ => t
  end.

Ltac exec_step H :=
  exec_red H;
  lazymatch type of H with
  | ?lhs = _ =>
      let x := head_scrutinee lhs in
      lazymatch x with
      | lhs => fail
      | _ => destruct x eqn:?; try discriminate H
      end
  end.

Ltac exec H := repeat exec_step H; exec_red H.

(** ** Slices *)

Lemma index_Some s i b :
  index s i = Some b ->
  0 <= i < s_len s /\ s_arr s !! Z.to_nat (s_off s + i) = Some b.
Proof.
  unfold index. case_bool_decide; [done | discriminate].
Qed.

Lemma sub_Some s lo hi l :
  sub s lo hi = Some l ->
  0 <= lo /\ lo <= hi /\ hi <= s_cap s /\
  l = take (Z.to_nat (hi - lo)) (drop (Z.to_nat (s_off s + lo)) (s_arr s)).
Proof.
  unfold sub, reslice. case_bool_decide; [| discriminate].
  cbn. intros [= <-]. unfold elems. cbn. repeat split; lia.
Qed.

Lemma sub_is_Some s lo hi :
  0 <= lo -> lo <= hi -> hi <= s_cap s ->
  sub s lo hi =
    Some (take (Z.to_nat (hi - lo)) (drop (Z.to_nat (s_off s + lo)) (s_arr s))).
Proof.
  intros. unfold sub, reslice. rewrite bool_decide_eq_true_2 by done. done.
Qed.

(** A read that stays inside the length sees the elements of the slice. *)
Lemma within_elems s lo hi :
  0 <= s_off s -> 0 <= lo -> lo <= hi -> hi <= s_len s ->
  take (Z.to_nat (hi - lo)) (drop (Z.to_nat (s_off s + lo)) (s_arr s))
  = take (Z.to_nat (hi - lo)) (drop (Z.to_nat lo) (elems s)).
Proof.
  intros Ho Hlo Hhi Hlen. unfold elems.
  rewrite skipn_firstn_comm, take_take, drop_drop.
  f_equal; [lia | f_equal; lia].
Qed.

Lemma index_elems s i :
  0 <= s_off s -> 0 <= i < s_len s ->
  s_arr s !! Z.to_nat (s_off s + i) = elems s !! Z.to_nat i.
Proof.
  intros Ho Hi. unfold elems.
  rewrite lookup_take_lt by lia. rewrite lookup_drop. f_equal. lia.
Qed.

Lemma index_Some_elems s i b :
  0 <= s_off s -> index s i = Some b ->
  0 <= i < s_len s /\ elems s !! Z.to_nat i = Some b.
Proof.
  intros Ho [Hi Hb]%index_Some. split; [done |]. by rewrite <- index_elems.
Qed.

(** ** [bytes.IndexByte] *)

Lemma find_byte_Some c l i :
  find_byte c l = Some i ->
  l !! i = Some c /\ (forall j, (j < i)%nat -> l !! j <> Some c).
Proof.
  revert i. induction l as [| x l IH]; intros i; cbn; [done |].
  destruct (Byte.eqb x c) eqn:E.
  - intros [= <-]. apply byte_eqb_true in E as ->. split; [done | lia].
  - destruct (find_byte c l) as [i' |]; [| done]. cbn. intros [= <-].
    destruct (IH i' eq_refl) as [H1 H2]. split; [done |].
    intros [| j] Hj; cbn.
    + apply byte_eqb_false in E. congruence.
    + apply H2. lia.
Qed.

Lemma find_byte_None c l : find_byte c l = None -> c ∉ l.
Proof.
  induction l as [| x l IH]; cbn; [intros _; apply not_elem_of_nil |].
  destruct (Byte.eqb x c) eqn:E; [done |].
  destruct (find_byte c l); [done |]. intros _.
  apply byte_eqb_false in E. rewrite not_elem_of_cons. split; [congruence | auto].
Qed.

Lemma find_byte_lt c l i : find_byte c l = Some i -> (i < length l)%nat.
Proof.
  intros [H _]%find_byte_Some. by eapply lookup_lt_Some.
Qed.

Lemma IndexByte_Some l c i : find_byte c l = Some i -> IndexByte l c = Z.of_nat i.
Proof. unfold IndexByte. by intros ->. Qed.

Lemma IndexByte_None l c : find_byte c l = None -> IndexByte l c = -1.
Proof. unfold IndexByte. by intros ->. Qed.

Lemma IndexByte_cases l c :
  (IndexByte l c = -1 /\ find_byte c l = None) \/
  (exists i, IndexByte l c = Z.of_nat i /\ find_byte c l = Some i).
Proof.
  unfold IndexByte. destruct (find_byte c l); [right; eauto | by left].
Qed.

(** ** The blocks of [Decode] *)

Lemma buffer_ConnData rx :
  exists arr, buffer (ConnData rx) = Slice arr 0 1024 1024 /\
              length arr = 1024%nat.
Proof.
  eexists. split; [reflexivity |].
  cbn [make s_arr s_off s_len].
  rewrite !length_app, !length_take, length_drop, length_replicate. lia.
Qed.

Lemma decodeHeader_val conn s data payload hdr s1 :
  decodeHeader conn s = (Val (data, payload, hdr), s1) ->
  (exists rx, conn = ConnData rx) /\
  data = buffer conn /\
  payload = Slice (s_arr data) 4 (Length hdr) 1020 /\
  0 <= Length hdr <= 1020 /\
  index data 3 = Some (SequenceId hdr) /\
  s1 = mkFrame (set_header (Some hdr) (r s)) 0.
Proof.
  unfold decodeHeader. destruct conn as [err | rx]; [discriminate |].
  destruct (buffer_ConnData rx) as (arr & Hbuf & Harr).
  unfold buffer in Hbuf.
  destruct (Read (ConnData rx) (make 1024)) as [d o] eqn:HR.
  assert (o = None) as -> by (cbn in HR; congruence).
  cbn [fst] in Hbuf. subst d.
  destruct s as [r0 p0].
  intros H. cbn [Uint32] in H. exec H.
  cbn [Length] in *.
  match goal with
  | Hc : (1024 <=? ?x) = false, Hs : reslice _ _ _ = Some _ |- _ =>
      set (L := x) in *;
      assert (0 <= L < 2 ^ 32) by (apply Z.mod_pos_bound; lia);
      apply Z.leb_gt in Hc;
      rewrite (wrap_small 32 (L + 4)) in Hs by lia;
      unfold reslice in Hs
  end.
  case_bool_decide; [| done].
  cbn [s_arr s_off s_len s_cap] in *. simplify_eq.
  cbn [Length SequenceId s_arr r].
  split; [eauto |]. split; [unfold buffer; by rewrite HR |].
  split; [f_equal; lia |]. split; [lia | done].
Qed.

Lemma decodeHeader_err conn s e s1 :
  decodeHeader conn s = (Err e, s1) ->
  s1 = s /\ (conn = ConnFail e \/ e = "Header sanity check failed!"%string).
Proof.
  unfold decodeHeader. destruct conn as [err | rx].
  - cbn. intros [= -> ->]. split; [done | by left].
  - destruct (buffer_ConnData rx) as (arr & Hbuf & Harr).
    unfold buffer in Hbuf.
    destruct (Read (ConnData rx) (make 1024)) as [d o] eqn:HR.
    assert (o = None) as -> by (cbn in HR; congruence).
    destruct s as [r0 p0]. intros H. cbn [Uint32] in H. exec H.
    simplify_eq. split; [done | by right].
Qed.

(** The header step as a function of the buffer. *)
Lemma decodeHeader_run rx arr s :
  Read (ConnData rx) (make 1024) = (Slice arr 0 1024 1024, None) ->
  length arr = 1024%nat ->
  exists d0 d1 d2 q L,
    arr !! 0%nat = Some d0 /\ arr !! 1%nat = Some d1 /\
    arr !! 2%nat = Some d2 /\ arr !! 3%nat = Some q /\
    Uint32 [d0; d1; d2; x00] = Some L /\ 0 <= L /\
    let hdr := mkPacketHeader L q in
    decodeHeader (ConnData rx) s
    = if 1024 <=? L then (Err "Header sanity check failed!", s)
      else if bool_decide (L <= 1020)
           then (Val (Slice arr 0 1024 1024, Slice arr 4 L 1020, hdr),
                 mkFrame (set_header (Some hdr) (r s)) 0)
           else (Panic, mkFrame (set_header (Some hdr) (r s)) (position s)).
Proof.
  intros HR Harr.
  destruct (lookup_lt_is_Some_2 arr 0) as [d0 H0]; [lia |].
  destruct (lookup_lt_is_Some_2 arr 1) as [d1 H1]; [lia |].
  destruct (lookup_lt_is_Some_2 arr 2) as [d2 H2]; [lia |].
  destruct (lookup_lt_is_Some_2 arr 3) as [q H3]; [lia |].
  exists d0, d1, d2, q. eexists.
  do 4 (split; [done |]). split; [reflexivity |].
  match goal with |- 0 <= ?x /\ _ => set (L := x) end.
  assert (HL : 0 <= L < 2 ^ 32) by (apply Z.mod_pos_bound; lia).
  split; [lia |]. cbv zeta.
  unfold decodeHeader. rewrite HR. destruct s as [r0 p0].
  assert (Hi : forall i d, (0 <= i < 1024) -> arr !! Z.to_nat i = Some d ->
                index (Slice arr 0 1024 1024) i = Some d).
  { intros i d Hi Hd. unfold index. cbn [s_arr s_off s_len].
    by rewrite bool_decide_eq_true_2 by done. }
  rewrite (Hi 0 d0), (Hi 1 d1), (Hi 2 d2), (Hi 3 q) by (done || lia).
  cbv beta iota delta [bind checked assign seek ret throw r position].
  cbn [Uint32]. cbv beta iota. cbn [Length]. fold L.
  destruct (1024 <=? L) eqn:Hc; [done |]. apply Z.leb_gt in Hc.
  rewrite (wrap_small 32 (L + 4)) by lia.
  unfold reslice. cbn [s_arr s_off s_len s_cap].
  case_bool_decide; case_bool_decide; try lia; [| done].
  replace (L + 4 - 4) with L by lia. reflexivity.
Qed.

Lemma decodeProtocolVersion_val data payload hdr s s1 :
  decodeProtocolVersion data payload hdr s = (Val tt, s1) ->
  index payload 0 = Some x0a /\
  s1 = mkFrame (set_ProtocolVersion x0a (r s)) (position s + 1).
Proof.
  unfold decodeProtocolVersion. destruct s as [r0 p0]. intros H. exec H.
  match goal with
  | Hc : negb (Byte.eqb _ _) = false |- _ =>
      apply negb_false_iff, byte_eqb_true in Hc as ->
  end.
  by simplify_eq.
Qed.

Lemma decodeProtocolVersion_err data payload hdr s e s1 :
  decodeProtocolVersion data payload hdr s = (Err e, s1) ->
  exists v txt,
    index payload 0 = Some v /\ v <> x0a /\
    s1 = mkFrame (set_ProtocolVersion v (r s)) (position s) /\
    sub payload (IndexByte (elems data) x00 + 1) (Length hdr) = Some txt /\
    if Contains (string_of_list_byte txt) accessDeniedText
    then e = string_of_list_byte txt
    else if Byte.eqb v x09 then e = "Version 9 is not yet supported!"%string
    else e = "Only version 10 is supported. Unknown procotcol version!"%string.
Proof.
  unfold decodeProtocolVersion. destruct s as [r0 p0]. intros H. exec H.
  all: match goal with
       | Hc : negb (Byte.eqb _ _) = true |- _ =>
           apply negb_true_iff, byte_eqb_false in Hc
       end.
  all: eexists _, _; split; [done |]; split; [done |].
  all: simplify_eq; split; [done |]; split; [done |].
  all: repeat match goal with Hc : _ = _ |- _ => rewrite Hc end; done.
Qed.

(** Close a goal about a read by the hypothesis on the same read, the
    offsets being equal up to arithmetic. *)
Ltac by_read :=
  match goal with
  | Hs : sub ?p ?a' ?b' = Some _ |- sub ?p ?a ?b = Some _ =>
      replace a with a' by lia; replace b with b' by lia; exact Hs
  | Hs : index ?p ?a' = Some _ |- index ?p ?a = Some _ =>
      replace a with a' by lia; exact Hs
  end.

Lemma decodeFields_val payload s s1 :
  decodeFields payload s = (Val tt, s1) ->
  let i := IndexByte (elems payload) x00 in
  exists cid part1 lo sfb hi zl zh,
    sub payload (position s) i = Some (ServerVersion (r s1)) /\
    sub payload (i + 1) (i + 5) = Some cid /\
    Uint32 cid = Some (ConnectionId (r s1)) /\
    sub payload (i + 5) (i + 13) = Some part1 /\
    AuthPluginData (r s1) = copy (elems (make 8)) part1 /\
    index payload (i + 13) = Some x00 /\
    Filler (r s1) = x00 /\
    sub payload (i + 14) (i + 16) = Some lo /\
    index payload (i + 16) = Some (CharacterSet (r s1)) /\
    sub payload (i + 17) (i + 19) = Some sfb /\
    Uint16 sfb = Some (StatusFlags (r s1)) /\
    sub payload (i + 19) (i + 21) = Some hi /\
    Uint16 lo = Some zl /\ Uint16 hi = Some zh /\
    CapabilitiesFlags (r s1) = capabilities zl zh /\
    (if negb (Z.land (CapabilitiesFlags (r s1)) clientPluginAuth =? 0)
     then index payload (i + 21) = Some (AuthPluginDataLen (r s1)) /\
          AuthPluginDataLen (r s1) <> x00
     else AuthPluginDataLen (r s1) = AuthPluginDataLen (r s)) /\
    ProtocolVersion (r s1) = ProtocolVersion (r s) /\
    AuthPluginName (r s1) = AuthPluginName (r s) /\
    header (r s1) = header (r s) /\
    position s1 = i + 21.
Proof.
  unfold decodeFields. destruct s as [r0 p0]. intros H. exec H.
  all: match goal with
       | Hc : negb (Byte.eqb _ x00) = false |- _ =>
           apply negb_false_iff, byte_eqb_true in Hc as ->
       end.
  all: injection H as <-.
  all: cbn [r position ServerVersion ConnectionId AuthPluginData Filler
              CapabilitiesFlags CharacterSet StatusFlags AuthPluginDataLen
              AuthPluginName ProtocolVersion header
              set_ServerVersion set_ConnectionId set_AuthPluginData
              set_Filler set_CapabilitiesFlags set_CharacterSet
              set_StatusFlags set_AuthPluginDataLen].
  all: do 7 eexists.
  all: repeat match goal with
         | |- _ /\ _ => split
         | |- sub _ _ _ = Some _ => by_read
         | |- index _ _ = Some _ => by_read
         | |- Uint32 _ = Some _ => eassumption
         | |- Uint16 _ = Some _ => eassumption
         | |- @eq (list byte) _ _ => reflexivity
         | |- @eq byte _ _ => reflexivity
         | |- @eq Z _ _ => first [reflexivity | lia]
         | |- @eq (option PacketHeader) _ _ => reflexivity
         end.
  all: match goal with Hc : negb (_ =? 0) = _ |- _ => rewrite Hc end.
  - split; [by_read |]. by apply byte_eqb_false.
  - done.
Qed.

Lemma decodeFields_err payload s e s1 :
  decodeFields payload s = (Err e, s1) ->
  let i := IndexByte (elems payload) x00 in
  exists sv cid id part1,
    sub payload (position s) i = Some sv /\
    sub payload (i + 1) (i + 5) = Some cid /\ Uint32 cid = Some id /\
    sub payload (i + 5) (i + 13) = Some part1 /\
    let r1 := set_AuthPluginData (copy (elems (make 8)) part1)
                (set_ConnectionId id (set_ServerVersion sv (r s))) in
    (exists f,
        index payload (i + 13) = Some f /\ f <> x00 /\
        e = "Unable to decode filler value"%string /\
        s1 = mkFrame (set_Filler f r1) (i + 13))
    \/
    (exists cap cs sf,
        index payload (i + 13) = Some x00 /\
        index payload (i + 21) = Some x00 /\
        e = "Wrong auth plugin data len"%string /\
        s1 = mkFrame (set_AuthPluginDataLen x00
                        (set_CapabilitiesFlags cap
                           (set_StatusFlags sf
                              (set_CharacterSet cs (set_Filler x00 r1)))))
               (i + 21)).
Proof.
  unfold decodeFields. destruct s as [r0 p0]. intros H. exec H.
  all: injection H as <- <-.
  all: cbn [r position]; do 4 eexists.
  all: do 4 (split; [first [by_read | eassumption] |]).
  - left. eexists. split; [by_read |].
    match goal with
    | Hc : negb (Byte.eqb _ x00) = true |- _ =>
        apply negb_true_iff, byte_eqb_false in Hc
    end.
    repeat split; [done | f_equal; lia].
  - right.
    repeat match goal with
    | Hc : negb (Byte.eqb _ x00) = false |- _ =>
        apply negb_false_iff, byte_eqb_true in Hc as ->
    | Hc : Byte.eqb _ x00 = true |- _ => apply byte_eqb_true in Hc as ->
    end.
    do 3 eexists. split; [by_read |]. split; [by_read |].
    split; [done |]. f_equal. lia.
Qed.

Lemma decodeAuthPluginData_val payload s s1 :
  decodeAuthPluginData payload s = (Val tt, s1) ->
  let p := position s + 11 in
  if negb (Z.land (CapabilitiesFlags (r s)) clientSecureConn =? 0)
  then
    let n := Max 13 (u8 (AuthPluginDataLen (r s)) - 8) in
    exists part2,
      sub payload p (p + n) = Some part2 /\
      s1 = mkFrame (set_AuthPluginData (AuthPluginData (r s) ++ part2) (r s))
             (p + n)
  else s1 = mkFrame (r s) p.
Proof.
  unfold decodeAuthPluginData. destruct s as [r0 p0]. intros H. exec H.
  all: injection H as <-; cbn [r position].
  all: match goal with Hc : negb _ = _ |- _ => rewrite Hc end.
  - eexists. split; [by_read | f_equal; lia].
  - f_equal; lia.
Qed.

Lemma decodeAuthPluginData_not_err payload s e s1 :
  decodeAuthPluginData payload s <> (Err e, s1).
Proof.
  unfold decodeAuthPluginData. destruct s as [r0 p0]. intros H. exec H.
Qed.

Lemma Max_13_pos x : 13 <= Max 13 x.
Proof. unfold Max. destruct (13 >? x) eqn:E; lia. Qed.

(** [Max] returns the larger of its arguments. *)
Lemma Max_max x y : Max x y = Z.max x y.
Proof. unfold Max. destruct (x >? y) eqn:E; lia. Qed.

Lemma length_elems_le s : (length (elems s) <= Z.to_nat (s_len s))%nat.
Proof. unfold elems. rewrite length_take. lia. Qed.

Lemma sub_from_elems s p :
  0 <= s_off s -> s_len s <= s_cap s -> 0 <= p <= s_len s ->
  sub_from s p = Some (drop (Z.to_nat p) (elems s)).
Proof.
  intros Ho Hc Hp. unfold sub_from. rewrite sub_is_Some by lia.
  rewrite within_elems by lia. f_equal.
  apply take_ge. rewrite length_drop. pose proof (length_elems_le s). lia.
Qed.

Lemma sub_elems s lo hi l :
  0 <= s_off s -> sub s lo hi = Some l -> hi <= s_len s ->
  l = take (Z.to_nat (hi - lo)) (drop (Z.to_nat lo) (elems s)).
Proof.
  intros Ho (Hlo & Hhi & _ & ->)%sub_Some Hlen. by apply within_elems.
Qed.

Lemma decodeAuthPluginName_run payload s :
  0 <= s_off payload -> s_len payload <= s_cap payload ->
  0 <= position s <= s_len payload ->
  decodeAuthPluginName payload s
  = (Val tt,
     mkFrame (set_AuthPluginName
                (untilNul (drop (Z.to_nat (position s)) (elems payload)))
                (r s))
             (position s)).
Proof.
  intros Ho Hc Hp. unfold decodeAuthPluginName. destruct s as [r0 p0].
  cbn [position r] in *.
  cbv beta iota delta [bind checked cursor position r].
  rewrite sub_from_elems by done. cbv beta iota.
  set (rest := drop (Z.to_nat p0) (elems payload)).
  unfold untilNul.
  destruct (IndexByte_cases rest x00) as [[Hi Hf] | (i & Hi & Hf)];
    rewrite Hi, Hf.
  - cbn [Z.eqb negb Pos.eqb]. cbv beta iota. done.
  - replace (Z.of_nat i =? -1) with false by (symmetry; apply Z.eqb_neq; lia).
    cbn [negb]. cbv beta iota.
    pose proof (find_byte_lt _ _ _ Hf) as Hlt. unfold rest in Hlt.
    rewrite length_drop in Hlt. pose proof (length_elems_le payload).
    rewrite sub_is_Some by lia. rewrite within_elems by lia.
    cbv beta iota delta [assign r position]. do 3 f_equal.
    unfold rest. f_equal. lia.
Qed.

Lemma decodeAuthPluginName_val payload s s1 :
  decodeAuthPluginName payload s = (Val tt, s1) ->
  0 <= position s <= s_len payload.
Proof.
  unfold decodeAuthPluginName. destruct s as [r0 p0]. intros H.
  exec_step H. cbn [position].
  match goal with
  | Hs : sub_from _ _ = Some _ |- _ =>
      unfold sub_from in Hs; apply sub_Some in Hs; lia
  end.
Qed.

Lemma decodeAuthPluginName_not_err payload s e s1 :
  decodeAuthPluginName payload s <> (Err e, s1).
Proof.
  unfold decodeAuthPluginName. destruct s as [r0 p0]. intros H. exec H.
Qed.

(** ** A successful [Decode], field by field *)

Lemma lookup_take_drop (P : list byte) (a n k : nat) :
  (k < n)%nat -> take n (drop a P) !! k = P !! (a + k)%nat.
Proof.
  intros Hk. rewrite lookup_take_lt by done. apply lookup_drop.
Qed.

Lemma length_take_drop (P : list byte) (a n : nat) :
  (a + n <= length P)%nat -> length (take n (drop a P)) = n.
Proof.
  intros H. rewrite length_take, length_drop. lia.
Qed.

Lemma Uint16_take_drop (P : list byte) (a : nat) z :
  Uint16 (take 2 (drop a P)) = Some z ->
  exists b0 b1, P !! a = Some b0 /\ P !! (a + 1)%nat = Some b1 /\
                z = le16 b0 b1.
Proof.
  intros H.
  pose proof (lookup_take_drop P a 2 0 ltac:(lia)) as H0.
  pose proof (lookup_take_drop P a 2 1 ltac:(lia)) as H1.
  destruct (take 2 (drop a P)) as [| b0 [| b1 l]]; [done | done |].
  rewrite Uint16_le16 in H. injection H as <-.
  cbn in H0, H1. rewrite Nat.add_0_r in H0. eauto.
Qed.

Lemma copy_make8 (src : list byte) :
  length src = 8%nat -> copy (elems (make 8)) src = src.
Proof.
  intros H. unfold copy. rewrite H.
  change (length (elems (make 8))) with 8%nat.
  rewrite <- H at 1. rewrite firstn_all. apply app_nil_r.
Qed.

Lemma Decode_val conn s s' :
  Decode conn s = (Val tt, s') ->
  exists payload hdr (idx : nat),
    decodeHeader conn s
    = (Val (buffer conn, payload, hdr),
       mkFrame (set_header (Some hdr) (r s)) 0) /\
    payload = Slice (s_arr (buffer conn)) 4 (Length hdr) 1020 /\
    0 <= Length hdr <= 1020 /\
    length (elems payload) = Z.to_nat (Length hdr) /\
    let P := elems payload in
    let rcv := r s' in
    let n := if negb (Z.land (CapabilitiesFlags rcv) clientSecureConn =? 0)
             then Max 13 (u8 (AuthPluginDataLen rcv) - 8) else 0 in
    P !! 0%nat = Some x0a /\
    find_byte x00 P = Some idx /\
    ProtocolVersion rcv = x0a /\
    ServerVersion rcv = take (idx - 1) (drop 1 P) /\
    Uint32 (take 4 (drop (idx + 1) P)) = Some (ConnectionId rcv) /\
    Filler rcv = x00 /\ P !! (idx + 13)%nat = Some x00 /\
    (exists b0 b1 b2 b3,
        P !! (idx + 14)%nat = Some b0 /\ P !! (idx + 15)%nat = Some b1 /\
        P !! (idx + 19)%nat = Some b2 /\ P !! (idx + 20)%nat = Some b3 /\
        CapabilitiesFlags rcv
        = Z.lor (le16 b0 b1) (Z.shiftl (le16 b2 b3) 16)) /\
    P !! (idx + 16)%nat = Some (CharacterSet rcv) /\
    Uint16 (take 2 (drop (idx + 17) P)) = Some (StatusFlags rcv) /\
    (if negb (Z.land (CapabilitiesFlags rcv) clientPluginAuth =? 0)
     then P !! (idx + 21)%nat = Some (AuthPluginDataLen rcv) /\
          AuthPluginDataLen rcv <> x00
     else AuthPluginDataLen rcv = AuthPluginDataLen (r s)) /\
    AuthPluginData rcv
    = take 8 (drop (idx + 5) P) ++ take (Z.to_nat n) (drop (idx + 32) P) /\
    length (take 8 (drop (idx + 5) P)) = 8%nat /\
    length (take (Z.to_nat n) (drop (idx + 32) P)) = Z.to_nat n /\
    position s' = Z.of_nat idx + 32 + n /\
    position s' <= Length hdr /\
    AuthPluginName rcv = untilNul (drop (Z.to_nat (position s')) P) /\
    header rcv = Some hdr.
Proof.
  intros H. unfold Decode in H.
  apply bind_val in H as ([[data payload] hdr] & s0 & Hh & H).
  pose proof Hh as Hh'.
  apply decodeHeader_val in Hh' as ([rx ->] & -> & Hpl & HL & Hseq & ->).
  apply bind_val in H as ([] & s1 & Hv & H).
  apply decodeProtocolVersion_val in Hv as [Hv ->].
  apply bind_val in H as ([] & s2 & Hf & H).
  apply decodeFields_val in Hf.
  apply bind_val in H as ([] & s3 & Ha & H).
  apply decodeAuthPluginData_val in Ha.
  pose proof (decodeAuthPluginName_val _ _ _ H) as Hp.
  assert (Ho : 0 <= s_off payload) by (subst payload; cbn; lia).
  assert (Hlen : s_len payload = Length hdr) by (by subst payload).
  assert (Hlc : s_len payload <= s_cap payload)
    by (subst payload; cbn; lia).
  rewrite decodeAuthPluginName_run in H by done. injection H as <-.
  destruct s2 as [r2 p2], s3 as [r3 p3].
  cbn [r position ProtocolVersion AuthPluginName AuthPluginDataLen header
         set_ProtocolVersion set_header] in Hf, Ha, Hp.
  destruct Hf as (cid & part1 & lo & sfb & hi & zl & zh & Hsv & Hcid & Hid
                  & Hp1 & Hapd & Hfil & Hfil' & Hlo & Hcs & Hsfb & Hsf & Hhi
                  & Hzl & Hzh & Hcap & Hpa & Hpv & Hname & Hhdr & Hpos2).
  destruct (IndexByte_cases (elems payload) x00)
    as [[Hi Hfind] | (idx & Hi & Hfind)]; rewrite Hi in *;
    [apply sub_Some in Hsv; lia |].
  exists payload, hdr, idx.
  assert (Hlenp : length (elems payload) = Z.to_nat (Length hdr)).
  { destruct (buffer_ConnData rx) as (arr & Hbuf & Harr).
    rewrite Hpl, Hbuf. unfold elems. cbn [s_arr s_off s_len].
    rewrite length_take, length_drop. lia. }
  do 4 (split; [done |]).
  cbn [r position ProtocolVersion ServerVersion ConnectionId AuthPluginData
         Filler CapabilitiesFlags CharacterSet StatusFlags AuthPluginDataLen
         AuthPluginName header set_AuthPluginName].
  set (n := if negb (Z.land (CapabilitiesFlags r3) clientSecureConn =? 0)
            then Max 13 (u8 (AuthPluginDataLen r3) - 8) else 0).
  assert (Hr3 :
    0 <= n /\ p3 = Z.of_nat idx + 32 + n /\
    CapabilitiesFlags r3 = CapabilitiesFlags r2 /\
    AuthPluginDataLen r3 = AuthPluginDataLen r2 /\
    ProtocolVersion r3 = ProtocolVersion r2 /\
    ServerVersion r3 = ServerVersion r2 /\
    ConnectionId r3 = ConnectionId r2 /\
    Filler r3 = Filler r2 /\ CharacterSet r3 = CharacterSet r2 /\
    StatusFlags r3 = StatusFlags r2 /\ header r3 = header r2 /\
    exists part2,
      sub payload (Z.of_nat idx + 32) (Z.of_nat idx + 32 + n) = Some part2 /\
      AuthPluginData r3 = AuthPluginData r2 ++ part2).
  { subst n. destruct (negb (Z.land (CapabilitiesFlags r2) clientSecureConn =? 0))
      eqn:Hsec.
    - destruct Ha as (part2 & Hp2 & [= -> ->]).
      cbn [CapabilitiesFlags AuthPluginDataLen set_AuthPluginData
             ProtocolVersion ServerVersion ConnectionId Filler CharacterSet
             StatusFlags header AuthPluginData].
      rewrite Hsec.
      pose proof (Max_13_pos (u8 (AuthPluginDataLen r2) - 8)).
      split; [lia |]. split; [lia |]. do 9 (split; [done |]).
      exists part2. split; [by_read | done].
    - injection Ha as -> ->. rewrite Hsec.
      split; [lia |]. split; [lia |]. do 9 (split; [done |]).
      exists []. rewrite app_nil_r. split; [| done].
      rewrite sub_is_Some by (subst payload; cbn; lia).
      replace (Z.of_nat idx + 32 + 0 - (Z.of_nat idx + 32)) with 0 by lia.
      done. }
  destruct Hr3 as (Hn & -> & Hc3 & Hl3 & Hv3 & Hs3 & Hi3 & Hf3 & Hcs3 & Hsf3
                   & Hh3 & part2 & Hp2 & Hapd3).
  cbn [position] in Hp.
  apply sub_elems in Hsv, Hcid, Hp1, Hlo, Hsfb, Hhi, Hp2; try done; try lia.
  apply index_Some_elems in Hv as [_ Hv]; [| done].
  apply index_Some_elems in Hfil as [Hfb Hfil]; [| done].
  apply index_Some_elems in Hcs as [_ Hcs]; [| done].
  replace (Z.to_nat 0) with 0%nat in * by lia.
  replace (Z.to_nat (0 + 1)) with 1%nat in * by lia.
  replace (Z.to_nat (Z.of_nat idx - (0 + 1))) with (idx - 1)%nat in * by lia.
  replace (Z.to_nat (Z.of_nat idx + 5 - (Z.of_nat idx + 1))) with 4%nat in *
    by lia.
  replace (Z.to_nat (Z.of_nat idx + 1)) with (idx + 1)%nat in * by lia.
  replace (Z.to_nat (Z.of_nat idx + 13 - (Z.of_nat idx + 5))) with 8%nat in *
    by lia.
  replace (Z.to_nat (Z.of_nat idx + 5)) with (idx + 5)%nat in * by lia.
  replace (Z.to_nat (Z.of_nat idx + 13)) with (idx + 13)%nat in * by lia.
  replace (Z.to_nat (Z.of_nat idx + 16 - (Z.of_nat idx + 14))) with 2%nat in *
    by lia.
  replace (Z.to_nat (Z.of_nat idx + 14)) with (idx + 14)%nat in * by lia.
  replace (Z.to_nat (Z.of_nat idx + 16)) with (idx + 16)%nat in * by lia.
  replace (Z.to_nat (Z.of_nat idx + 19 - (Z.of_nat idx + 17))) with 2%nat in *
    by lia.
  replace (Z.to_nat (Z.of_nat idx + 17)) with (idx + 17)%nat in * by lia.
  replace (Z.to_nat (Z.of_nat idx + 21 - (Z.of_nat idx + 19))) with 2%nat in *
    by lia.
  replace (Z.to_nat (Z.of_nat idx + 19)) with (idx + 19)%nat in * by lia.
  replace (Z.to_nat (Z.of_nat idx + 32 + n - (Z.of_nat idx + 32)))
    with (Z.to_nat n) in * by lia.
  replace (Z.to_nat (Z.of_nat idx + 32)) with (idx + 32)%nat in * by lia.
  assert (Hl1 : length part1 = 8%nat)
    by (subst part1; apply length_take_drop; lia).
  subst cid part1 lo sfb hi part2.
  split; [done |]. split; [done |]. split; [congruence |].
  split; [congruence |]. split; [by rewrite Hi3 |].
  split; [congruence |]. split; [done |].
  split.
  { apply Uint16_take_drop in Hzl as (b0 & b1 & Hb0 & Hb1 & ->).
    apply Uint16_take_drop in Hzh as (b2 & b3 & Hb2 & Hb3 & ->).
    exists b0, b1, b2, b3.
    replace (idx + 14 + 1)%nat with (idx + 15)%nat in Hb1 by lia.
    replace (idx + 19 + 1)%nat with (idx + 20)%nat in Hb3 by lia.
    do 4 (split; [done |]). rewrite Hc3, Hcap.
    apply capabilities_halves; apply le16_range. }
  split; [by rewrite Hcs3 |]. split; [by rewrite Hsf3 |].
  split.
  { rewrite Hc3, Hl3.
    destruct (negb (Z.land (CapabilitiesFlags r2) clientPluginAuth =? 0));
      [| done].
    destruct Hpa as [Hpa Hne]. split; [| done].
    apply index_Some_elems in Hpa as [_ Hpa]; [| done].
    by replace (Z.to_nat (Z.of_nat idx + 21)) with (idx + 21)%nat in Hpa
      by lia. }
  split; [by rewrite Hapd3, Hapd, copy_make8 |].
  split; [done |].
  split; [apply length_take_drop; lia |].
  split; [done |]. split; [lia |]. split; [done | congruence].
Qed.

(** The header step reads the receiver nowhere. *)
Lemma decodeHeader_frame conn s s2 :
  fst (decodeHeader conn s) = fst (decodeHeader conn s2).
Proof.
  unfold decodeHeader.
  destruct (Read conn (make 1024)) as [d [e |]]; [done |].
  cbn [Uint32]. destruct s as [r0 p0], s2 as [r2 p2].
  cbv beta iota delta [bind checked assign seek ret throw r position].
  repeat case_match; simplify_eq; first [done | congruence].
Qed.

Lemma declaredPayload_eq conn s data payload hdr s1 :
  decodeHeader conn s = (Val (data, payload, hdr), s1) ->
  declaredPayload conn = elems payload.
Proof.
  intros H. unfold declaredPayload.
  pose proof (decodeHeader_frame conn s freshFrame) as Hf.
  rewrite H in Hf. cbn [fst] in Hf.
  destruct (decodeHeader conn freshFrame) as [[[[d p] h] | |] s2];
    cbn [fst] in Hf; by simplify_eq.
Qed.

Lemma declaredPayload_none conn s e s1 :
  decodeHeader conn s = (Err e, s1) -> declaredPayload conn = [].
Proof.
  intros H. unfold declaredPayload.
  pose proof (decodeHeader_frame conn s freshFrame) as Hf.
  rewrite H in Hf. cbn [fst] in Hf.
  destruct (decodeHeader conn freshFrame) as [[[[d p] h] | |] s2];
    cbn [fst] in Hf; by simplify_eq.
Qed.

(** ** A failed [Decode], error by error *)

Lemma Decode_err conn s e s' :
  Decode conn s = (Err e, s') ->
  (decodeHeader conn s = (Err e, s') /\ s' = s /\
   (conn = ConnFail e \/ e = "Header sanity check failed!"%string))
  \/
  exists payload hdr,
    decodeHeader conn s
    = (Val (buffer conn, payload, hdr),
       mkFrame (set_header (Some hdr) (r s)) 0) /\
    payload = Slice (s_arr (buffer conn)) 4 (Length hdr) 1020 /\
    0 <= Length hdr <= 1020 /\
    let r0 := set_header (Some hdr) (r s) in
    let i := IndexByte (elems payload) x00 in
    (exists v txt,
        index payload 0 = Some v /\ v <> x0a /\
        s' = mkFrame (set_ProtocolVersion v r0) 0 /\
        sub payload (IndexByte (elems (buffer conn)) x00 + 1) (Length hdr)
        = Some txt /\
        if Contains (string_of_list_byte txt) accessDeniedText
        then e = string_of_list_byte txt
        else if Byte.eqb v x09
             then e = "Version 9 is not yet supported!"%string
             else e = "Only version 10 is supported. Unknown procotcol version!"%string)
    \/
    (exists sv cid id part1,
        index payload 0 = Some x0a /\
        sub payload 1 i = Some sv /\
        sub payload (i + 1) (i + 5) = Some cid /\ Uint32 cid = Some id /\
        sub payload (i + 5) (i + 13) = Some part1 /\
        let r1 := set_AuthPluginData (copy (elems (make 8)) part1)
                    (set_ConnectionId id
                       (set_ServerVersion sv (set_ProtocolVersion x0a r0))) in
        (exists f,
            index payload (i + 13) = Some f /\ f <> x00 /\
            e = "Unable to decode filler value"%string /\
            s' = mkFrame (set_Filler f r1) (i + 13))
        \/
        (exists cap cs sf,
            index payload (i + 13) = Some x00 /\
            index payload (i + 21) = Some x00 /\
            e = "Wrong auth plugin data len"%string /\
            s' = mkFrame (set_AuthPluginDataLen x00
                            (set_CapabilitiesFlags cap
                               (set_StatusFlags sf
                                  (set_CharacterSet cs (set_Filler x00 r1)))))
                   (i + 21))).
Proof.
  intros H. unfold Decode in H.
  apply bind_err in H as [H | ([[data payload] hdr] & s0 & Hh & H)].
  { left. split; [done |]. by apply decodeHeader_err in H. }
  right. pose proof Hh as Hh'.
  apply decodeHeader_val in Hh' as ([rx ->] & -> & Hpl & HL & Hseq & ->).
  exists payload, hdr. do 3 (split; [done |]).
  apply bind_err in H as [H | ([] & s1 & Hv & H)].
  { left. apply decodeProtocolVersion_err in H.
    destruct H as (v & txt & ? & ? & ? & ? & ?). by exists v, txt. }
  right. apply decodeProtocolVersion_val in Hv as [Hv ->].
  apply bind_err in H as [H | ([] & s2 & Hf & H)].
  - apply decodeFields_err in H. cbn [r position] in H.
    destruct H as (sv & cid & id & part1 & Hsv & Hcid & Hid & Hp1 & H).
    exists sv, cid, id, part1. by do 5 (split; [done |]).
  - apply bind_err in H as [H | ([] & s3 & Ha & H)].
    + by apply decodeAuthPluginData_not_err in H.
    + by apply decodeAuthPluginName_not_err in H.
Qed.

Lemma decodeHeader_length conn s data payload hdr s1 :
  decodeHeader conn s = (Val (data, payload, hdr), s1) ->
  0 <= Length hdr /\ length (elems payload) = Z.to_nat (Length hdr).
Proof.
  intros ([rx ->] & -> & Hpl & HL & _)%decodeHeader_val.
  destruct (buffer_ConnData rx) as (arr & Hbuf & Harr).
  rewrite Hpl, Hbuf. unfold elems. cbn [s_arr s_off s_len].
  rewrite length_take, length_drop. lia.
Qed.

Lemma length_untilNul (l : list byte) :
  (length (untilNul l) <= length l)%nat.
Proof.
  unfold untilNul. destruct (find_byte x00 l); [| done].
  rewrite length_take. lia.
Qed.

Lemma bind_run {A B} (c : M A) (k : A -> M B) s a s1 :
  c s = (Val a, s1) -> bind c k s = k a s1.
Proof. unfold bind. by intros ->. Qed.

Lemma bind_panic {A B} (c : M A) (k : A -> M B) s s1 :
  c s = (Panic, s1) -> bind c k s = (Panic, s1).
Proof. unfold bind. by intros ->. Qed.

Lemma bind_throw {A B} (c : M A) (k : A -> M B) s e s1 :
  c s = (Err e, s1) -> bind c k s = (Err e, s1).
Proof. unfold bind. by intros ->. Qed.

Lemma find_byte_first c (l : list byte) i :
  l !! i = Some c -> (forall j, (j < i)%nat -> l !! j <> Some c) ->
  find_byte c l = Some i.
Proof.
  revert i. induction l as [| x l IH]; intros i Hi Hfirst; [done |].
  cbn [find_byte]. destruct i as [| i].
  - cbn in Hi. injection Hi as ->. by rewrite (Byte.byte_dec_lb eq_refl).
  - destruct (Byte.eqb x c) eqn:E.
    + apply byte_eqb_true in E as ->. by destruct (Hfirst O ltac:(lia)).
    + rewrite (IH i); [done | done |].
      intros j Hj. apply (Hfirst (S j)). lia.
Qed.

Lemma find_byte_absent c (l : list byte) : c ∉ l -> find_byte c l = None.
Proof.
  intros Hc. destruct (find_byte c l) as [i |] eqn:E; [| done].
  apply find_byte_Some in E as [E _]. apply list_elem_of_lookup_2 in E. done.
Qed.

Lemma untilNul_no_nul (l : list byte) : x00 ∉ untilNul l.
Proof.
  unfold untilNul. destruct (find_byte x00 l) as [i |] eqn:E.
  - apply find_byte_Some in E as [_ E]. intros Hin.
    apply list_elem_of_lookup in Hin as [j Hj].
    apply lookup_take_Some in Hj as [Hj Hlt]. by apply (E j).
  - by apply find_byte_None.
Qed.

(** * The decoded record *)

(** C6. The capability bitmask is rebuilt from its two 16-bit halves: for all
    16-bit [lo] and [hi] the combination computed at line 138 is
    [lo | hi << 16]; and in every successful decode the two halves are the
    little-endian values of the payload bytes at offsets 14-15 and 19-20
    after the server version's terminator -- two places that are not
    adjacent -- and [CapabilitiesFlags] is their combination. *)
Theorem capabilityFlags_reconstruction :
  (forall lo hi : Z,
      0 <= lo < 2 ^ 16 -> 0 <= hi < 2 ^ 16 ->
      capabilities lo hi = Z.lor lo (Z.shiftl hi 16)) /\
  (forall conn s s',
      Decode conn s = (Val tt, s') ->
      let P := declaredPayload conn in
      exists (idx : nat) (b0 b1 b2 b3 : byte) (lo hi : Z),
        find_byte x00 P = Some idx /\
        P !! (idx + 14)%nat = Some b0 /\ P !! (idx + 15)%nat = Some b1 /\
        P !! (idx + 19)%nat = Some b2 /\ P !! (idx + 20)%nat = Some b3 /\
        Uint16 [b0; b1] = Some lo /\ Uint16 [b2; b3] = Some hi /\
        0 <= lo < 2 ^ 16 /\ 0 <= hi < 2 ^ 16 /\
        CapabilitiesFlags (r s') = capabilities lo hi /\
        CapabilitiesFlags (r s') = Z.lor lo (Z.shiftl hi 16)).
Proof.
  split; [apply capabilities_halves |].
  intros conn s s' H.
  destruct (Decode_val _ _ _ H)
    as (payload & hdr & idx & Hh & _ & _ & _ & _ & Hf & _ & _ & _ & _ & _
        & (b0 & b1 & b2 & b3 & H0 & H1 & H2 & H3 & Hc) & _).
  cbv zeta. rewrite (declaredPayload_eq _ _ _ _ _ _ Hh).
  exists idx, b0, b1, b2, b3, (le16 b0 b1), (le16 b2 b3).
  pose proof (le16_range b0 b1). pose proof (le16_range b2 b3).
  do 5 (split; [done |]).
  split; [apply Uint16_le16 |]. split; [apply Uint16_le16 |].
  do 2 (split; [done |]).
  split; [| done]. by rewrite capabilities_halves.
Qed.

Lemma capabilityFlags_reconstruction_witness :
  (0 <= 0xffff < 2 ^ 16 /\ 0 <= 0 < 2 ^ 16 /\
   capabilities 0xffff 0 = Z.lor 0xffff (Z.shiftl 0 16)) /\
  (Decode (ConnData sampleHandshake) freshFrame
   = (Val tt, snd (Decode (ConnData sampleHandshake) freshFrame)) /\
   CapabilitiesFlags (r (snd (Decode (ConnData sampleHandshake) freshFrame)))
   = Z.lor 0xffff (Z.shiftl 0xdfff 16)).
Proof.
  destruct capabilityFlags_reconstruction as [Hpure Hdec].
  split.
  - split; [lia |]. split; [lia |]. apply Hpure; lia.
  - assert (Hrun : Decode (ConnData sampleHandshake) freshFrame
                   = (Val tt, snd (Decode (ConnData sampleHandshake) freshFrame)))
      by (vm_compute; reflexivity).
    split; [exact Hrun |].
    destruct (Hdec _ _ _ Hrun)
      as (idx & b0 & b1 & b2 & b3 & lo & hi & _ & _ & _ & _ & _ & _ & _ & _
          & _ & _ & _).
    vm_compute. reflexivity.
Defined.

(** C7. In a successful decode [AuthPluginData] starts with the 8 bytes of
    part 1; when SECURE_CONNECTION is set, exactly
    max(13, AuthPluginDataLen - 8) bytes -- the larger of the two numbers,
    [Z.max] -- taken from the cursor after the reserved bytes are appended
    to them and the cursor advances by that amount; when it is not set,
    [AuthPluginData] is part 1 alone. *)
Theorem authPluginData_parts conn s s' :
  Decode conn s = (Val tt, s') ->
  let P := declaredPayload conn in
  exists idx : nat,
    find_byte x00 P = Some idx /\
    let part1 := take 8 (drop (idx + 5) P) in
    let cur := Z.of_nat idx + 32 in
    length part1 = 8%nat /\
    if CapabilityFlag.Has (CapabilitiesFlags (r s')) clientSecureConn
    then
      let n := Z.max 13 (u8 (AuthPluginDataLen (r s')) - 8) in
      let part2 := take (Z.to_nat n) (drop (Z.to_nat cur) P) in
      Z.of_nat (length part2) = n /\
      AuthPluginData (r s') = part1 ++ part2 /\
      position s' = cur + n
    else
      AuthPluginData (r s') = part1 /\ position s' = cur.
Proof.
  intros H.
  destruct (Decode_val _ _ _ H)
    as (payload & hdr & idx & Hh & _ & _ & _ & _ & Hf & _ & _ & _ & _ & _
        & _ & _ & _ & _ & Hd & Hl1 & Hl2 & Hpos & _).
  cbv zeta in *. rewrite (declaredPayload_eq _ _ _ _ _ _ Hh).
  rewrite <- Max_max.
  exists idx. split; [done |]. split; [done |].
  unfold CapabilityFlag.Has.
  replace (Z.to_nat (Z.of_nat idx + 32)) with (idx + 32)%nat by lia.
  destruct (negb (Z.land (CapabilitiesFlags (r s')) clientSecureConn =? 0)).
  - pose proof (Max_13_pos (u8 (AuthPluginDataLen (r s')) - 8)).
    split; [lia | done].
  - cbn [Z.to_nat take] in Hd. rewrite app_nil_r in Hd. split; [done | lia].
Qed.

Lemma authPluginData_parts_witness :
  let conn := ConnData sampleLongAuth in
  let s' := snd (Decode conn freshFrame) in
  let P := declaredPayload conn in
  (Decode conn freshFrame = (Val tt, s') /\
   AuthPluginDataLen (r s') = x1e /\
   exists idx : nat,
     find_byte x00 P = Some idx /\
     length (take 8 (drop (idx + 5) P)) = 8%nat /\
     Z.of_nat (length (take 22 (drop (idx + 32) P))) = 22 /\
     AuthPluginData (r s')
     = take 8 (drop (idx + 5) P) ++ take 22 (drop (idx + 32) P) /\
     position s' = Z.of_nat idx + 32 + 22) /\
  let conn0 := ConnData sampleLegacy in
  let t' := snd (Decode conn0 freshFrame) in
  let P0 := declaredPayload conn0 in
  Decode conn0 freshFrame = (Val tt, t') /\
  AuthPluginDataLen (r t') = x00 /\
  exists idx : nat,
    find_byte x00 P0 = Some idx /\
    AuthPluginData (r t')
    = take 8 (drop (idx + 5) P0) ++ take 13 (drop (idx + 32) P0) /\
    position t' = Z.of_nat idx + 32 + 13.
Proof.
  intros conn s' P. split.
  - assert (Hrun : Decode conn freshFrame = (Val tt, s'))
      by (vm_compute; reflexivity).
    split; [exact Hrun |]. split; [vm_compute; reflexivity |].
    destruct (authPluginData_parts conn freshFrame s' Hrun)
      as (idx & Hf & Hl & Hrest).
    exists idx. split; [exact Hf |]. split; [exact Hl |].
    cbv zeta in Hrest.
    change (CapabilityFlag.Has (CapabilitiesFlags (r s')) clientSecureConn)
      with true in Hrest.
    change (Z.max 13 (u8 (AuthPluginDataLen (r s')) - 8)) with 22 in Hrest.
    destruct Hrest as (Hn & Hd & Hp).
    replace (Z.to_nat (Z.of_nat idx + 32)) with (idx + 32)%nat in Hn, Hd
      by lia.
    split; [exact Hn |]. split; [exact Hd | exact Hp].
  - intros conn0 t' P0.
    assert (Hrun : Decode conn0 freshFrame = (Val tt, t'))
      by (vm_compute; reflexivity).
    split; [exact Hrun |]. split; [vm_compute; reflexivity |].
    destruct (authPluginData_parts conn0 freshFrame t' Hrun)
      as (idx & Hf & Hl & Hrest).
    exists idx. split; [exact Hf |].
    cbv zeta in Hrest.
    change (CapabilityFlag.Has (CapabilitiesFlags (r t')) clientSecureConn)
      with true in Hrest.
    change (Z.max 13 (u8 (AuthPluginDataLen (r t')) - 8)) with 13 in Hrest.
    destruct Hrest as (_ & Hd & Hp).
    replace (Z.to_nat (Z.of_nat idx + 32)) with (idx + 32)%nat in Hd by lia.
    split; [exact Hd | exact Hp].
Defined.

(** C9. When the receiver is fresh (as in [scanHostPort]) and the decoded
    capability flags lack PLUGIN_AUTH, [AuthPluginDataLen] is never read from
    the payload and stays 0; if SECURE_CONNECTION is set, part 2 is then
    [Max 13 (0 - 8) = 13] bytes. *)
Theorem authPluginDataLen_without_plugin_auth conn s s' :
  AuthPluginDataLen (r s) = x00 ->
  Decode conn s = (Val tt, s') ->
  CapabilityFlag.Has (CapabilitiesFlags (r s')) clientPluginAuth = false ->
  AuthPluginDataLen (r s') = x00 /\
  Max 13 (u8 (AuthPluginDataLen (r s')) - 8) = 13 /\
  (CapabilityFlag.Has (CapabilitiesFlags (r s')) clientSecureConn = true ->
   let P := declaredPayload conn in
   exists idx : nat,
     find_byte x00 P = Some idx /\
     length (take 13 (drop (idx + 32) P)) = 13%nat /\
     AuthPluginData (r s')
     = take 8 (drop (idx + 5) P) ++ take 13 (drop (idx + 32) P) /\
     position s' = Z.of_nat idx + 32 + 13).
Proof.
  intros Hfresh H Hpa.
  destruct (Decode_val _ _ _ H)
    as (payload & hdr & idx & Hh & _ & _ & _ & _ & Hf & _ & _ & _ & _ & _
        & _ & _ & _ & Hlen & Hd & Hl1 & Hl2 & Hpos & _).
  cbv zeta in *. rewrite (declaredPayload_eq _ _ _ _ _ _ Hh).
  unfold CapabilityFlag.Has in *. rewrite Hpa in Hlen.
  rewrite Hlen, Hfresh. split; [done |]. split; [done |].
  intros Hsec. rewrite Hsec, Hlen, Hfresh in *.
  change (Max 13 (u8 x00 - 8)) with 13 in *.
  exists idx. by repeat split.
Qed.

Lemma authPluginDataLen_without_plugin_auth_witness :
  let conn := ConnData sampleLegacy in
  let s' := snd (Decode conn freshFrame) in
  AuthPluginDataLen (r freshFrame) = x00 /\
  Decode conn freshFrame = (Val tt, s') /\
  CapabilityFlag.Has (CapabilitiesFlags (r s')) clientPluginAuth = false /\
  CapabilityFlag.Has (CapabilitiesFlags (r s')) clientSecureConn = true /\
  AuthPluginDataLen (r s') = x00 /\
  length (AuthPluginData (r s')) = 21%nat.
Proof.
  intros conn s'.
  assert (Hrun : Decode conn freshFrame = (Val tt, s'))
    by (vm_compute; reflexivity).
  assert (Hpa : CapabilityFlag.Has (CapabilitiesFlags (r s')) clientPluginAuth
                = false) by (vm_compute; reflexivity).
  assert (Hsec : CapabilityFlag.Has (CapabilitiesFlags (r s')) clientSecureConn
                 = true) by (vm_compute; reflexivity).
  destruct (authPluginDataLen_without_plugin_auth conn freshFrame s'
              eq_refl Hrun Hpa) as (Hlen & _ & Hdata).
  destruct (Hdata Hsec) as (idx & _ & Hl2 & Hd & _).
  do 4 (split; [done |]). split; [exact Hlen |].
  vm_compute. reflexivity.
Defined.

(** * Short payloads, the cursor and errors *)

(** C1, as stated, fails: a header that declares an empty payload leaves no
    byte for the protocol version, and a payload cut after the server version
    leaves none for the connection id; in both cases [Decode] panics and
    returns no error at all, and in the second one the connection id and
    part 1 were first taken from the buffer behind the payload. *)
Lemma short_payload_panics :
  declaredPayload (ConnData emptyPayload) = [] /\
  fst (Decode (ConnData emptyPayload) freshFrame) = Panic /\
  ~ (exists e, fst (Decode (ConnData emptyPayload) freshFrame) = Err e) /\
  declaredPayload (ConnData truncatedHandshake) = [x0a; x35; x00] /\
  fst (Decode (ConnData truncatedHandshake) freshFrame) = Panic /\
  ~ (exists e, fst (Decode (ConnData truncatedHandshake) freshFrame) = Err e) /\
  length (AuthPluginData
            (r (snd (Decode (ConnData truncatedHandshake) freshFrame))))
  = 8%nat.
Proof.
  split; [vm_compute; reflexivity |].
  split; [vm_compute; reflexivity |].
  split; [intros [e He]; vm_compute in He; discriminate |].
  split; [vm_compute; reflexivity |].
  split; [vm_compute; reflexivity |].
  split; [intros [e He]; vm_compute in He; discriminate |].
  vm_compute; reflexivity.
Qed.

(** C1, amended. [Decode] checks no remaining length and has no ShortBuffer
    error: an error it returns is the read error, the header sanity error,
    the access-denied text, one of the two protocol-version errors, the filler
    error or the auth-plugin-data-length error. A payload with no byte for
    the protocol version makes it panic. And when it returns nil, the payload
    held every byte it read: the server version's terminator, the 32 bytes of
    fixed fields and reserved bytes after it, and part 2. *)
Theorem no_length_checks :
  (forall conn s e s',
      Decode conn s = (Err e, s') ->
      conn = ConnFail e \/
      e = "Header sanity check failed!"%string \/
      Contains e accessDeniedText = true \/
      e = "Version 9 is not yet supported!"%string \/
      e = "Only version 10 is supported. Unknown procotcol version!"%string \/
      e = "Unable to decode filler value"%string \/
      e = "Wrong auth plugin data len"%string) /\
  (forall conn s data payload hdr s1,
      decodeHeader conn s = (Val (data, payload, hdr), s1) ->
      Length hdr = 0 ->
      fst (Decode conn s) = Panic) /\
  (forall conn s s',
      Decode conn s = (Val tt, s') ->
      let P := declaredPayload conn in
      exists idx : nat,
        find_byte x00 P = Some idx /\
        Z.of_nat idx + 32
        + (if CapabilityFlag.Has (CapabilitiesFlags (r s')) clientSecureConn
           then Max 13 (u8 (AuthPluginDataLen (r s')) - 8) else 0)
        <= Z.of_nat (length P)).
Proof.
  split; [| split].
  - intros conn s e s' H.
    apply Decode_err in H
      as [(_ & _ & [-> | ->]) | (payload & hdr & _ & _ & _ & H)];
      [by left | by right; left |].
    cbv zeta in H.
    destruct H as [(v & txt & _ & _ & _ & _ & H)
                  | (sv & cid & id & part1 & _ & _ & _ & _ & _ & H)].
    + destruct (Contains (string_of_list_byte txt) accessDeniedText) eqn:Hc.
      * subst e. right; right; by left.
      * destruct (Byte.eqb v x09); subst e.
        -- right; right; right; by left.
        -- right; right; right; right; by left.
    + destruct H as [(f & _ & _ & -> & _) | (cap & cs & sf & _ & _ & -> & _)].
      * right; right; right; right; right; by left.
      * right; right; right; right; right; by right.
  - intros conn s data payload hdr s1 Hh HL.
    pose proof Hh as Hh'.
    apply decodeHeader_val in Hh' as (_ & _ & Hpl & _).
    unfold Decode, bind at 1. rewrite Hh.
    unfold decodeProtocolVersion, bind at 1.
    replace (index payload 0) with (@None byte); [done |].
    rewrite Hpl, HL. unfold index. by rewrite bool_decide_eq_false_2 by (cbn; lia).
  - intros conn s s' H.
    destruct (Decode_val _ _ _ H)
      as (payload & hdr & idx & Hh & _ & HL & Hlen & _ & Hf & _ & _ & _ & _
          & _ & _ & _ & _ & _ & _ & _ & _ & Hpos & Hle & _).
    cbv zeta in *. rewrite (declaredPayload_eq _ _ _ _ _ _ Hh).
    exists idx. split; [done |]. unfold CapabilityFlag.Has. lia.
Qed.

Lemma no_length_checks_witness :
  (Decode (ConnData badFiller) freshFrame
   = (Err "Unable to decode filler value",
      snd (Decode (ConnData badFiller) freshFrame)) /\
   (ConnData badFiller = ConnFail "Unable to decode filler value" \/
    "Unable to decode filler value"%string
    = "Header sanity check failed!"%string \/
    Contains "Unable to decode filler value" accessDeniedText = true \/
    "Unable to decode filler value"%string
    = "Version 9 is not yet supported!"%string \/
    "Unable to decode filler value"%string
    = "Only version 10 is supported. Unknown procotcol version!"%string \/
    "Unable to decode filler value"%string
    = "Unable to decode filler value"%string \/
    "Unable to decode filler value"%string
    = "Wrong auth plugin data len"%string)) /\
  (decodeHeader (ConnData emptyPayload) freshFrame
   = (Val (buffer (ConnData emptyPayload),
           Slice (s_arr (buffer (ConnData emptyPayload))) 4 0 1020,
           mkPacketHeader 0 x00),
      mkFrame (set_header (Some (mkPacketHeader 0 x00)) zeroPacket) 0) /\
   Length (mkPacketHeader 0 x00) = 0 /\
   fst (Decode (ConnData emptyPayload) freshFrame) = Panic) /\
  (Decode (ConnData sampleHandshake) freshFrame
   = (Val tt, snd (Decode (ConnData sampleHandshake) freshFrame)) /\
   exists idx : nat,
     find_byte x00 (declaredPayload (ConnData sampleHandshake)) = Some idx /\
     Z.of_nat idx + 32 + 13
     <= Z.of_nat (length (declaredPayload (ConnData sampleHandshake)))).
Proof.
  destruct no_length_checks as (Herr & Hempty & Hval).
  split; [| split].
  - assert (Hrun : Decode (ConnData badFiller) freshFrame
                   = (Err "Unable to decode filler value",
                      snd (Decode (ConnData badFiller) freshFrame)))
      by (vm_compute; reflexivity).
    split; [exact Hrun | exact (Herr _ _ _ _ Hrun)].
  - assert (Hrun : decodeHeader (ConnData emptyPayload) freshFrame
                   = (Val (buffer (ConnData emptyPayload),
                           Slice (s_arr (buffer (ConnData emptyPayload)))
                             4 0 1020,
                           mkPacketHeader 0 x00),
                      mkFrame (set_header (Some (mkPacketHeader 0 x00))
                                 zeroPacket) 0))
      by (vm_compute; reflexivity).
    split; [exact Hrun |]. split; [reflexivity |].
    exact (Hempty _ _ _ _ _ _ Hrun eq_refl).
  - assert (Hrun : Decode (ConnData sampleHandshake) freshFrame
                   = (Val tt, snd (Decode (ConnData sampleHandshake) freshFrame)))
      by (vm_compute; reflexivity).
    split; [exact Hrun |].
    destruct (Hval _ _ _ Hrun) as (idx & Hf & Hle).
    exists idx. split; [exact Hf | exact Hle].
Defined.

(** C4, as stated, fails: on the payload cut after the server version the
    cursor stands at 15 when [Decode] panics, twelve bytes behind the end of
    the three-byte payload. *)
Lemma cursor_exceeds_payload_on_panic :
  let out := Decode (ConnData truncatedHandshake) freshFrame in
  fst out = Panic /\
  header (r (snd out)) = Some (mkPacketHeader 3 x00) /\
  position (snd out) = 15 /\
  ~ position (snd out) <= 3.
Proof.
  cbv zeta. split; [vm_compute; reflexivity |].
  split; [vm_compute; reflexivity |].
  split; [vm_compute; reflexivity |].
  vm_compute. intros H. apply H. reflexivity.
Qed.

(** C4, amended. Whenever [Decode] returns -- nil or an error -- the cursor is
    inside the payload: either nothing was sliced (read or header error,
    cursor 0), or the header was stored, the payload has [header.Length]
    bytes and the cursor is at most that; on success the auth plugin name,
    and its terminator when there is one, also lie inside the payload. *)
Theorem cursor_within_payload_on_return conn rcv o s' :
  Decode conn (mkFrame rcv 0) = (o, s') ->
  o <> Panic ->
  let P := declaredPayload conn in
  (position s' = 0 /\ P = []) \/
  exists hdr,
    header (r s') = Some hdr /\
    Z.of_nat (length P) = Length hdr /\
    0 <= position s' <= Length hdr /\
    (o = Val tt ->
     position s' + Z.of_nat (length (AuthPluginName (r s'))) <= Length hdr /\
     forall i, find_byte x00 (drop (Z.to_nat (position s')) P) = Some i ->
               position s' + Z.of_nat i + 1 <= Length hdr).
Proof.
  intros H Hnp. cbv zeta. destruct o as [[] | e |]; [| | done].
  - right.
    destruct (Decode_val _ _ _ H)
      as (payload & hdr & idx & Hh & _ & HL & Hlen & _ & Hf & _ & _ & _ & _
          & _ & _ & _ & _ & _ & _ & _ & Hl2 & Hpos & Hle & Hname & Hhdr).
    cbv zeta in *. rewrite (declaredPayload_eq _ _ _ _ _ _ Hh).
    exists hdr. split; [done |]. split; [lia |].
    assert (0 <= position s').
    { rewrite Hpos. destruct (negb _); [| lia].
      pose proof (Max_13_pos (u8 (AuthPluginDataLen (r s')) - 8)). lia. }
    split; [lia |]. intros _. split.
    + rewrite Hname.
      pose proof (length_untilNul
                    (drop (Z.to_nat (position s')) (elems payload))) as Hu.
      rewrite length_drop in Hu. lia.
    + intros i Hi%find_byte_lt. rewrite length_drop in Hi. lia.
  - apply Decode_err in H
      as [(Hh & -> & _) | (payload & hdr & Hh & Hpl & HL & H)].
    { left. split; [done | by eapply declaredPayload_none]. }
    right. exists hdr. cbv zeta in H.
    rewrite (declaredPayload_eq _ _ _ _ _ _ Hh).
    destruct (decodeHeader_length _ _ _ _ _ _ Hh) as [HL0 Hlen].
    assert (Hsl : s_len payload = Length hdr) by (by subst payload).
    assert (Hso : 0 <= s_off payload) by (subst payload; cbn; lia).
    destruct H as [(v & txt & _ & _ & -> & _)
                  | (sv & cid & id & part1 & _ & Hsv & _ & _ & _ & H)].
    { cbn. split; [done |]. split; [lia |]. split; [lia | done]. }
    apply sub_Some in Hsv as (_ & Hi & _).
    destruct H as [(f & Hf & _ & _ & ->) | (cap & cs & sf & _ & Hf & _ & ->)];
      apply index_Some in Hf as [Hf _]; cbn [r position];
      (split; [done |]); (split; [lia |]); (split; [lia | done]).
Qed.

Lemma cursor_within_payload_on_return_witness :
  let conn := ConnData sampleLegacy in
  let s' := snd (Decode conn (mkFrame zeroPacket 0)) in
  Decode conn (mkFrame zeroPacket 0) = (Val tt, s') /\
  @Val unit tt <> Panic /\
  header (r s') = Some (mkPacketHeader 72 x00) /\
  Z.of_nat (length (declaredPayload conn)) = 72 /\
  position s' = 51 /\
  position s' + Z.of_nat (length (AuthPluginName (r s'))) <= 72.
Proof.
  intros conn s'.
  assert (Hrun : Decode conn (mkFrame zeroPacket 0) = (Val tt, s'))
    by (vm_compute; reflexivity).
  assert (Hnp : @Val unit tt <> Panic) by discriminate.
  split; [exact Hrun |]. split; [exact Hnp |].
  destruct (cursor_within_payload_on_return conn zeroPacket (Val tt) s'
              Hrun Hnp) as [[Hz _] | (hdr & Hhdr & Hlen & Hpos & Hname)].
  - vm_compute in Hz. discriminate Hz.
  - assert (Hh : hdr = mkPacketHeader 72 x00)
      by (vm_compute in Hhdr; congruence).
    subst hdr. split; [exact Hhdr |]. split; [exact Hlen |].
    split; [vm_compute; reflexivity |].
    exact (proj1 (Hname eq_refl)).
Defined.

(** C5, as stated, fails: after the filler error the receiver holds the
    protocol version, the server version, the connection id, part 1 of the
    auth-plugin-data and the filler that were parsed before the check. *)
Lemma partial_record_after_error :
  let out := Decode (ConnData badFiller) freshFrame in
  fst out = Err "Unable to decode filler value" /\
  ProtocolVersion (r (snd out)) = x0a /\
  ServerVersion (r (snd out)) = list_byte_of_string "5" /\
  ConnectionId (r (snd out)) = 25 /\
  AuthPluginData (r (snd out)) = list_byte_of_string "abcdefgh" /\
  Filler (r (snd out)) = x01 /\
  r (snd out) <> zeroPacket.
Proof.
  cbv zeta. do 6 (split; [vm_compute; reflexivity |]).
  vm_compute. discriminate.
Qed.

(** * The auth plugin name *)

(** C8. Once the steps up to the auth-plugin-data have succeeded with the
    cursor inside the payload, [Decode] succeeds, and the field
    [AuthPluginName] of the receiver it leaves is the rest of the payload up
    to its first NUL byte (the NUL excluded), or the whole rest when it holds
    no NUL byte; no other field and not the cursor change in this step. *)
Theorem authPluginName_until_nul conn s data payload hdr s1 s2 :
  decodeHeader conn s = (Val (data, payload, hdr), s1) ->
  (decodeProtocolVersion data payload hdr;;
   decodeFields payload;;
   decodeAuthPluginData payload) s1 = (Val tt, s2) ->
  position s2 <= s_len payload ->
  let rest := drop (Z.to_nat (position s2)) (elems payload) in
  exists name,
    Decode conn s
    = (Val tt, mkFrame (set_AuthPluginName name (r s2)) (position s2)) /\
    AuthPluginName (r (snd (Decode conn s))) = name /\
    r (snd (Decode conn s))
    = mkPacket (ProtocolVersion (r s2)) (ServerVersion (r s2))
        (ConnectionId (r s2)) (AuthPluginData (r s2)) (Filler (r s2))
        (CapabilitiesFlags (r s2)) (CharacterSet (r s2)) (StatusFlags (r s2))
        (AuthPluginDataLen (r s2)) name (header (r s2)) /\
    position (snd (Decode conn s)) = position s2 /\
    (x00 ∉ name) /\
    (forall i : nat,
        rest !! i = Some x00 ->
        (forall j, (j < i)%nat -> rest !! j <> Some x00) ->
        name = take i rest) /\
    (x00 ∉ rest -> name = rest).
Proof.
  intros Hh Hpre Hle. cbv zeta.
  pose proof Hh as Hh'.
  apply decodeHeader_val in Hh' as (_ & _ & Hpl & HL & _ & _).
  assert (Ho : 0 <= s_off payload) by (subst payload; cbn; lia).
  assert (Hlc : s_len payload <= s_cap payload) by (subst payload; cbn; lia).
  apply bind_val in Hpre as ([] & sa & Hv & Hpre).
  apply bind_val in Hpre as ([] & sb & Hf & Ha).
  assert (Hpos : 0 <= position s2).
  { apply decodeFields_val in Hf. cbv zeta in Hf.
    destruct Hf as (cid & part1 & lo & sfb & hi & zl & zh & _ & Hcid & Hrest).
    apply sub_Some in Hcid as (Hi & _).
    assert (Hpb : position sb = IndexByte (elems payload) x00 + 21)
      by (repeat match type of Hrest with
                 | _ /\ _ => destruct Hrest as [_ Hrest]
                 end; exact Hrest).
    apply decodeAuthPluginData_val in Ha. cbv zeta in Ha.
    destruct (negb (Z.land (CapabilitiesFlags (r sb)) clientSecureConn =? 0)).
    - destruct Ha as (part2 & _ & ->). cbn [position].
      pose proof (Max_13_pos (u8 (AuthPluginDataLen (r sb)) - 8)). lia.
    - subst s2. cbn [position]. lia. }
  exists (untilNul (drop (Z.to_nat (position s2)) (elems payload))).
  assert (Hrun : Decode conn s
                 = (Val tt,
                    mkFrame (set_AuthPluginName
                               (untilNul (drop (Z.to_nat (position s2))
                                            (elems payload)))
                               (r s2))
                            (position s2))).
  { unfold Decode. rewrite (bind_run _ _ _ _ _ Hh).
    rewrite (bind_run _ _ _ _ _ Hv), (bind_run _ _ _ _ _ Hf),
      (bind_run _ _ _ _ _ Ha).
    by apply decodeAuthPluginName_run. }
  split; [exact Hrun |].
  split; [by rewrite Hrun |].
  split; [rewrite Hrun; cbn [snd r]; by destruct (r s2) |].
  split; [by rewrite Hrun |].
  split; [apply untilNul_no_nul |]. split.
  - intros i Hi Hfirst. unfold untilNul.
    by rewrite (find_byte_first _ _ _ Hi Hfirst).
  - intros Hno. unfold untilNul. by rewrite (find_byte_absent _ _ Hno).
Qed.

Lemma authPluginName_until_nul_witness :
  let conn := ConnData sampleLegacy in
  let data := buffer conn in
  let payload := Slice (s_arr data) 4 72 1020 in
  let hdr := mkPacketHeader 72 x00 in
  let s1 := mkFrame (set_header (Some hdr) zeroPacket) 0 in
  let s2 := snd ((decodeProtocolVersion data payload hdr;;
                  decodeFields payload;;
                  decodeAuthPluginData payload) s1) in
  decodeHeader conn freshFrame = (Val (data, payload, hdr), s1) /\
  (decodeProtocolVersion data payload hdr;;
   decodeFields payload;;
   decodeAuthPluginData payload) s1 = (Val tt, s2) /\
  position s2 <= s_len payload /\
  AuthPluginName (r s2) = [] /\
  fst (Decode conn freshFrame) = Val tt /\
  AuthPluginName (r (snd (Decode conn freshFrame)))
  = list_byte_of_string "mysql_native_password".
Proof.
  intros conn data payload hdr s1 s2.
  assert (Hh : decodeHeader conn freshFrame = (Val (data, payload, hdr), s1))
    by (vm_compute; reflexivity).
  assert (Hpre : (decodeProtocolVersion data payload hdr;;
                  decodeFields payload;;
                  decodeAuthPluginData payload) s1 = (Val tt, s2))
    by (vm_compute; reflexivity).
  assert (Hle : position s2 <= s_len payload)
    by (vm_compute; discriminate).
  do 3 (split; [assumption |]).
  split; [vm_compute; reflexivity |].
  destruct (authPluginName_until_nul conn freshFrame data payload hdr s1 s2
              Hh Hpre Hle) as (name & Hrun & Hname & _ & _ & _ & _ & Hall).
  assert (Hno : x00 ∉ drop (Z.to_nat (position s2)) (elems payload))
    by (apply find_byte_None; vm_compute; reflexivity).
  split; [by rewrite Hrun |].
  rewrite Hname, (Hall Hno). vm_compute. reflexivity.
Defined.

(** * The capability flag set *)

(** C2: the code does not do this. [String] never reads its receiver: its
    loop ends by its own test after 32 turns and yields one line for each of
    the 25 named bits whatever the value, so for the value 0, which has no
    bit set, it yields 25 lines. *)
Theorem String_ignores_receiver :
  exists names : list string,
    CapabilityFlag.String_loop 33 1 [] = Some names /\
    CapabilityFlag.String_loop 64 1 [] = Some names /\
    length names = 25%nat /\
    CapabilityFlag.String 0 = Some (Join names newline) /\
    (forall i : nat, (i < 25)%nat ->
                     CapabilityFlag.Has 0 (Z.shiftl 1 (Z.of_nat i)) = false) /\
    forall v : Z, CapabilityFlag.String v = CapabilityFlag.String 0.
Proof.
  eexists. split; [vm_compute; reflexivity |].
  split; [vm_compute; reflexivity |].
  split; [reflexivity |]. split; [vm_compute; reflexivity |].
  split.
  - intros i _. unfold CapabilityFlag.Has. by rewrite Z.land_0_l.
  - intros v. unfold CapabilityFlag.String. reflexivity.
Qed.

(** * The error classifier *)

(** C3: the code does not do this. The classifier looks for the first NUL
    byte in the whole buffer, header included, and uses its index plus one as
    an offset into the payload. On [version9Probe] the first NUL byte after
    the header is byte 49 of the payload and only the letter z follows it,
    which calls for the version-9 error; the code finds the NUL byte of the
    header at index 1, takes the payload from offset 2 and returns that text
    as the access-denied error. On [version9Only] the offset 2 lies behind the
    payload of one byte and [Decode] panics. *)
Theorem classifier_scans_from_header :
  let P := declaredPayload (ConnData version9Probe) in
  P !! 0%nat = Some x09 /\
  find_byte x00 P = Some 49%nat /\
  Contains (string_of_list_byte (drop 50 P)) accessDeniedText = false /\
  IndexByte (elems (buffer (ConnData version9Probe))) x00 = 1 /\
  fst (Decode (ConnData version9Probe) freshFrame)
  = Err (string_of_list_byte (drop 2 P)) /\
  fst (Decode (ConnData version9Probe) freshFrame)
  <> Err "Version 9 is not yet supported!" /\
  declaredPayload (ConnData version9Only) = [x09] /\
  fst (Decode (ConnData version9Only) freshFrame) = Panic.
Proof.
  cbv zeta. do 5 (split; [vm_compute; reflexivity |]).
  split; [vm_compute; discriminate |].
  split; vm_compute; reflexivity.
Qed.

(** Whatever the payload, the offset at which the classifier cuts it is
    fixed by the header: a header that passes the sanity check has a zero
    third byte, so the first NUL byte of the buffer is one of its first
    three bytes. *)
Lemma header_third_byte_zero d0 d1 d2 L :
  Uint32 [d0; d1; d2; x00] = Some L -> L < 1024 -> d2 = x00.
Proof.
  cbn [Uint32]. intros [= <-] HL. apply u8_zero.
  destruct (Z.eq_dec (u8 d2) 0) as [| Hne]; [done | exfalso].
  pose proof (u8_range d2) as Hr.
  set (k := Z.log2 (u8 d2)).
  assert (Hk : 0 <= k < 8).
  { split; [apply Z.log2_nonneg |]. apply Z.log2_lt_pow2; lia. }
  assert (Hbit : Z.testbit (u8 d2) k = true) by (apply Z.bit_log2; lia).
  match type of HL with wrap 32 ?x < _ => set (X := x) in * end.
  assert (HX : Z.testbit (wrap 32 X) (k + 16) = true).
  { unfold wrap. rewrite Z.mod_pow2_bits_low by lia. unfold X.
    rewrite !Z.lor_spec. unfold wrap at 2.
    rewrite Z.mod_pow2_bits_low by lia.
    rewrite Z.shiftl_spec by lia.
    replace (k + 16 - 16) with k by lia. rewrite Hbit.
    by rewrite orb_true_r. }
  assert (H0 : 0 <= wrap 32 X) by (apply Z.mod_pos_bound; lia).
  destruct (Z.eq_dec (wrap 32 X) 0) as [Hz | Hnz].
  - rewrite Hz, Z.bits_0 in HX. discriminate.
  - rewrite Z.bits_above_log2 in HX; [discriminate | lia |].
    assert (Z.log2 (wrap 32 X) < 10) by (apply Z.log2_lt_pow2; lia). lia.
Qed.

Lemma find_byte_le c (l : list byte) (k : nat) :
  l !! k = Some c -> exists i, find_byte c l = Some i /\ (i <= k)%nat.
Proof.
  revert k. induction l as [| x l IH]; intros k Hk; [done |].
  cbn [find_byte]. destruct (Byte.eqb x c) eqn:E.
  - exists 0%nat. split; [done | lia].
  - destruct k as [| k].
    + cbn in Hk. injection Hk as ->.
      by rewrite (Byte.byte_dec_lb eq_refl) in E.
    + destruct (IH k Hk) as (i & -> & Hi). exists (S i). split; [done | lia].
Qed.

Lemma classifier_offset_in_header conn s data payload hdr s1 :
  decodeHeader conn s = (Val (data, payload, hdr), s1) ->
  1 <= IndexByte (elems data) x00 + 1 <= 3.
Proof.
  intros Hh. pose proof Hh as ([rx ->] & -> & _)%decodeHeader_val.
  destruct (buffer_ConnData rx) as (arr & Hbuf & Harr).
  assert (HR : Read (ConnData rx) (make 1024) = (Slice arr 0 1024 1024, None)).
  { unfold buffer in Hbuf.
    destruct (Read (ConnData rx) (make 1024)) as [d o] eqn:HR.
    assert (o = None) as -> by (cbn in HR; congruence).
    cbn [fst] in Hbuf. by subst d. }
  destruct (decodeHeader_run rx arr s HR Harr)
    as (d0 & d1 & d2 & q & L & _ & _ & H2 & _ & HL & _ & Hrun).
  cbv zeta in Hrun. rewrite Hrun in Hh.
  destruct (1024 <=? L) eqn:Hc; [discriminate |]. apply Z.leb_gt in Hc.
  rewrite (header_third_byte_zero _ _ _ _ HL Hc) in H2.
  rewrite Hbuf. unfold elems. cbn [s_arr s_off s_len].
  rewrite drop_0, take_ge by lia.
  destruct (find_byte_le _ _ _ H2) as (i & Hi & Hle).
  rewrite (IndexByte_Some _ _ _ Hi). lia.
Qed.

(** * The sequence id *)

Section SequenceId.

Variables arr arr' : list byte.
Hypothesis agree : forall i : nat, i <> 3%nat -> arr' !! i = arr !! i.

Lemma drop_agree (k : nat) : (4 <= k)%nat -> drop k arr' = drop k arr.
Proof.
  intros Hk. apply list_eq. intros i. rewrite !lookup_drop.
  apply agree. lia.
Qed.

Lemma index_agree o l c i :
  4 <= o -> index (Slice arr' o l c) i = index (Slice arr o l c) i.
Proof.
  intros Ho. unfold index. cbn [s_arr s_off s_len].
  case_bool_decide; [| done]. apply agree. lia.
Qed.

Lemma index_agree_header l c i :
  i <> 3 -> index (Slice arr' 0 l c) i = index (Slice arr 0 l c) i.
Proof.
  intros Hi. unfold index. cbn [s_arr s_off s_len].
  case_bool_decide; [| done]. apply agree. lia.
Qed.

Lemma sub_agree o l c lo hi :
  4 <= o -> sub (Slice arr' o l c) lo hi = sub (Slice arr o l c) lo hi.
Proof.
  intros Ho. unfold sub, reslice. cbn [s_arr s_off s_len s_cap].
  case_bool_decide; [| done]. cbn. unfold elems. cbn [s_arr s_off s_len].
  by rewrite drop_agree by lia.
Qed.

Lemma elems_agree o l c :
  4 <= o -> elems (Slice arr' o l c) = elems (Slice arr o l c).
Proof.
  intros Ho. unfold elems. cbn [s_arr s_off s_len].
  by rewrite drop_agree by lia.
Qed.

End SequenceId.

Ltac lockstep_red :=
  cbv beta iota delta [bind checked assign cursor seek advance ret receiver
                         throw window r position];
  cbn [ProtocolVersion ServerVersion ConnectionId AuthPluginData Filler
         CapabilitiesFlags CharacterSet StatusFlags AuthPluginDataLen
         AuthPluginName header
         set_ProtocolVersion set_ServerVersion set_ConnectionId
         set_AuthPluginData set_Filler set_CapabilitiesFlags set_CharacterSet
         set_StatusFlags set_AuthPluginDataLen set_AuthPluginName set_header].

(** The steps after the protocol version read the payload and never the
    stored header. *)
Lemma tail_agree payload payload' s s' :
  (forall i, index payload' i = index payload i) ->
  (forall lo hi, sub payload' lo hi = sub payload lo hi) ->
  elems payload' = elems payload ->
  s_len payload' = s_len payload ->
  position s' = position s ->
  eraseSequenceId (r s') = eraseSequenceId (r s) ->
  agree_runs
    ((decodeFields payload;; decodeAuthPluginData payload;;
      decodeAuthPluginName payload) s)
    ((decodeFields payload';; decodeAuthPluginData payload';;
      decodeAuthPluginName payload') s').
Proof.
  intros Hidx Hsub Hel Hlen Hp Hr.
  destruct s as [[v sv id apd f caps cs sf l nm h] p],
           s' as [[v' sv' id' apd' f' caps' cs' sf' l' nm' h'] p'].
  cbn [position r] in Hp, Hr. unfold eraseSequenceId in Hr.
  cbn [header set_header ProtocolVersion ServerVersion ConnectionId
         AuthPluginData Filler CapabilitiesFlags CharacterSet
         StatusFlags AuthPluginDataLen AuthPluginName] in Hr.
  injection Hr as -> -> -> -> -> -> -> -> -> -> Hh. subst p'.
  unfold agree_runs, decodeFields, decodeAuthPluginData, decodeAuthPluginName,
    sub_from.
  rewrite Hel, Hlen.
  repeat (lockstep_red; rewrite ?Hidx, ?Hsub;
          lazymatch goal with
          | |- fst ?x = _ /\ _ =>
              let t := head_scrutinee x in
              lazymatch t with
              | x => fail
              | _ => destruct t eqn:?
              end
          end).
  all: lockstep_red; cbn [fst snd r position]; unfold eraseSequenceId.
  all: lockstep_red.
  all: by rewrite Hh.
Qed.

Lemma decodeProtocolVersion_v10 data payload hdr s :
  index payload 0 = Some x0a ->
  decodeProtocolVersion data payload hdr s
  = (Val tt, mkFrame (set_ProtocolVersion x0a (r s)) (position s + 1)).
Proof.
  intros H. unfold decodeProtocolVersion.
  cbv beta iota delta [bind checked assign cursor seek advance].
  by rewrite H.
Qed.

Lemma decodeProtocolVersion_short data payload hdr s :
  index payload 0 = None ->
  decodeProtocolVersion data payload hdr s = (Panic, s).
Proof.
  intros H. unfold decodeProtocolVersion.
  cbv beta iota delta [bind checked]. by rewrite H.
Qed.

Lemma Read_agree rx rx' :
  length rx' = length rx ->
  (forall i : nat, i <> 3%nat -> rx' !! i = rx !! i) ->
  exists arr arr',
    Read (ConnData rx) (make 1024) = (Slice arr 0 1024 1024, None) /\
    Read (ConnData rx') (make 1024) = (Slice arr' 0 1024 1024, None) /\
    (forall i : nat, i <> 3%nat -> arr' !! i = arr !! i) /\
    (forall b, rx !! 4%nat = Some b -> arr !! 4%nat = Some b).
Proof.
  intros Hlen Hag. eexists _, _. split; [reflexivity |].
  split; [reflexivity |]. cbn [make s_arr s_off s_len]. rewrite Hlen.
  assert (Hn : exists n, n = Nat.min (length rx) (Z.to_nat 1024) /\
                         (n <= length rx)%nat /\
                         (n = length rx \/ n = 1024%nat))
    by (eexists; split; [reflexivity | lia]).
  destruct Hn as (n & <- & Hn1 & Hn2).
  change (Z.to_nat 0) with 0%nat. rewrite !take_0. cbn [app Nat.add].
  split.
  - intros i Hi. destruct (decide (i < n)%nat) as [Hlt | Hge].
    + rewrite !lookup_app_l by (rewrite length_take; lia).
      rewrite !lookup_take_lt by done. by apply Hag.
    + rewrite !lookup_app_r by (rewrite length_take; lia).
      rewrite !length_take. by rewrite Hlen.
  - intros b Hb. pose proof (lookup_lt_Some _ _ _ Hb).
    rewrite lookup_app_l by (rewrite length_take; lia).
    rewrite lookup_take_lt by lia. done.
Qed.

(** C10. Two buffers that differ in byte 3 -- the sequence id -- at most,
    with protocol version 10 in payload byte 0, are decoded alike: the same
    outcome (nil, the same error, or a panic), the same cursor, the same
    value in every decoded field and the same header length; the stored
    sequence id is all that can differ. *)
Theorem sequence_id_never_read rx rx' s :
  length rx' = length rx ->
  (forall i : nat, i <> 3%nat -> rx' !! i = rx !! i) ->
  rx !! 4%nat = Some x0a ->
  let out := Decode (ConnData rx) s in
  let out' := Decode (ConnData rx') s in
  fst out = fst out' /\
  position (snd out) = position (snd out') /\
  ProtocolVersion (r (snd out)) = ProtocolVersion (r (snd out')) /\
  ServerVersion (r (snd out)) = ServerVersion (r (snd out')) /\
  ConnectionId (r (snd out)) = ConnectionId (r (snd out')) /\
  AuthPluginData (r (snd out)) = AuthPluginData (r (snd out')) /\
  Filler (r (snd out)) = Filler (r (snd out')) /\
  CapabilitiesFlags (r (snd out)) = CapabilitiesFlags (r (snd out')) /\
  CharacterSet (r (snd out)) = CharacterSet (r (snd out')) /\
  StatusFlags (r (snd out)) = StatusFlags (r (snd out')) /\
  AuthPluginDataLen (r (snd out)) = AuthPluginDataLen (r (snd out')) /\
  AuthPluginName (r (snd out)) = AuthPluginName (r (snd out')) /\
  Length <$> header (r (snd out)) = Length <$> header (r (snd out')).
Proof.
  intros Hlen Hag Hv. cbv zeta.
  cut (agree_runs (Decode (ConnData rx) s) (Decode (ConnData rx') s)).
  { intros (Ho & Hp & Hr). split; [done |]. split; [done |].
    destruct (r (snd (Decode (ConnData rx) s))) as [? ? ? ? ? ? ? ? ? ? h],
             (r (snd (Decode (ConnData rx') s))) as [? ? ? ? ? ? ? ? ? ? h'].
    unfold eraseSequenceId in Hr. cbn in Hr |- *.
    injection Hr as -> -> -> -> -> -> -> -> -> -> Hh.
    do 10 (split; [done |]).
    destruct h as [[] |], h' as [[] |]; cbn in *; by simplify_eq. }
  destruct (Read_agree rx rx' Hlen Hag) as (arr & arr' & HR & HR' & Hagree & H4).
  specialize (H4 _ Hv).
  assert (Harr : length arr = 1024%nat).
  { destruct (buffer_ConnData rx) as (a & Hb & Ha).
    unfold buffer in Hb. rewrite HR in Hb. cbn [fst] in Hb. by simplify_eq. }
  assert (Harr' : length arr' = 1024%nat).
  { destruct (buffer_ConnData rx') as (a & Hb & Ha).
    unfold buffer in Hb. rewrite HR' in Hb. cbn [fst] in Hb. by simplify_eq. }
  destruct (decodeHeader_run rx arr s HR Harr)
    as (d0 & d1 & d2 & q & L & H0 & H1 & H2 & H3 & HL & HL0 & Hrun).
  destruct (decodeHeader_run rx' arr' s HR' Harr')
    as (d0' & d1' & d2' & q' & L' & H0' & H1' & H2' & H3' & HL' & _ & Hrun').
  rewrite Hagree in H0', H1', H2' by lia. simplify_eq.
  cbv zeta in Hrun, Hrun'. unfold agree_runs, Decode.
  destruct (1024 <=? L).
  { by rewrite (bind_throw _ _ _ _ _ Hrun), (bind_throw _ _ _ _ _ Hrun'). }
  case_bool_decide.
  2: { by rewrite (bind_panic _ _ _ _ Hrun), (bind_panic _ _ _ _ Hrun'). }
  rewrite (bind_run _ _ _ _ _ Hrun), (bind_run _ _ _ _ _ Hrun').
  set (hdr := mkPacketHeader L q). set (hdr' := mkPacketHeader L q').
  set (payload := Slice arr 4 L 1020). set (payload' := Slice arr' 4 L 1020).
  assert (Hidx : forall i, index payload' i = index payload i)
    by (intros i; by apply index_agree).
  assert (Hsub : forall lo hi, sub payload' lo hi = sub payload lo hi)
    by (intros lo hi; by apply sub_agree).
  assert (Hel : elems payload' = elems payload) by (by apply elems_agree).
  destruct (index payload 0) as [v |] eqn:Hv0.
  - assert (v = x0a) as ->.
    { pose proof Hv0 as [_ Hv1]%index_Some.
      change (arr !! 4%nat = Some v) in Hv1. congruence. }
    rewrite (bind_run _ _ _ _ _ (decodeProtocolVersion_v10 _ payload _ _ Hv0)).
    assert (Hv0' : index payload' 0 = Some x0a) by (by rewrite Hidx).
    rewrite (bind_run _ _ _ _ _ (decodeProtocolVersion_v10 _ payload' _ _ Hv0')).
    by apply tail_agree.
  - rewrite (bind_panic _ _ _ _ (decodeProtocolVersion_short _ payload _ _ Hv0)).
    assert (Hv0' : index payload' 0 = None) by (by rewrite Hidx).
    rewrite (bind_panic _ _ _ _ (decodeProtocolVersion_short _ payload' _ _ Hv0')).
    by cbn.
Qed.

Lemma sequence_id_never_read_witness :
  let out := Decode (ConnData sampleHandshake) freshFrame in
  let out' := Decode (ConnData sampleResequenced) freshFrame in
  length sampleResequenced = length sampleHandshake /\
  (forall i : nat, i <> 3%nat -> sampleResequenced !! i = sampleHandshake !! i) /\
  sampleHandshake !! 4%nat = Some x0a /\
  fst out = fst out' /\
  AuthPluginName (r (snd out)) = AuthPluginName (r (snd out')) /\
  SequenceId <$> header (r (snd out)) = Some x00 /\
  SequenceId <$> header (r (snd out')) = Some x07.
Proof.
  intros out out'.
  assert (Hlen : length sampleResequenced = length sampleHandshake)
    by apply length_insert.
  assert (Hag : forall i : nat,
             i <> 3%nat -> sampleResequenced !! i = sampleHandshake !! i)
    by (intros i Hi; apply list_lookup_insert_ne; congruence).
  assert (Hv : sampleHandshake !! 4%nat = Some x0a) by reflexivity.
  do 3 (split; [assumption |]).
  destruct (sequence_id_never_read sampleHandshake sampleResequenced
              freshFrame Hlen Hag Hv)
    as (Ho & _ & _ & _ & _ & _ & _ & _ & _ & _ & _ & Hname & _).
  split; [exact Ho |]. split; [exact Hname |].
  split; vm_compute; reflexivity.
Defined.

(** * Forward execution

    The blocks of [Decode] run on a payload that is known to hold the bytes
    they read. *)

Lemma sub_within s lo hi :
  0 <= s_off s -> s_len s <= s_cap s -> 0 <= lo -> lo <= hi -> hi <= s_len s ->
  sub s lo hi
  = Some (take (Z.to_nat (hi - lo)) (drop (Z.to_nat lo) (elems s))).
Proof.
  intros. rewrite sub_is_Some by lia. by rewrite within_elems by lia.
Qed.

Lemma index_within s i :
  0 <= s_off s -> 0 <= i < s_len s -> index s i = elems s !! Z.to_nat i.
Proof.
  intros Ho Hi. unfold index. rewrite bool_decide_eq_true_2 by done.
  by apply index_elems.
Qed.

Lemma Uint32_is_Some (l : list byte) :
  (4 <= length l)%nat -> exists z, Uint32 l = Some z.
Proof.
  destruct l as [| a [| b [| c [| d l]]]]; cbn [length]; try lia. eauto.
Qed.

Lemma Uint16_is_Some (l : list byte) :
  (2 <= length l)%nat -> exists z, Uint16 l = Some z.
Proof.
  destruct l as [| a [| b l]]; cbn [length]; try lia. eauto.
Qed.

Lemma take2_drop (P : list byte) (a : nat) b0 b1 :
  P !! a = Some b0 -> P !! (a + 1)%nat = Some b1 ->
  take 2 (drop a P) = [b0; b1].
Proof.
  intros H0 H1. rewrite <- (take_drop a P) in H0, H1.
  pose proof (lookup_lt_Some _ _ _ H1) as Hl. rewrite take_drop in Hl.
  rewrite lookup_app_r in H0, H1 by (rewrite length_take; lia).
  rewrite length_take in H0, H1.
  replace (a - a `min` length P)%nat with 0%nat in H0 by lia.
  replace (a + 1 - a `min` length P)%nat with 1%nat in H1 by lia.
  destruct (drop a P) as [| x [| y l]]; cbn in *; by simplify_eq.
Qed.

Ltac fwd_red :=
  cbv beta iota delta [bind checked assign cursor seek advance ret receiver
                         throw window r position].

Lemma decodeFields_ok payload s (idx : nat) b0 b1 b2 b3 alen :
  0 <= s_off payload -> s_len payload <= s_cap payload ->
  position s = 1 ->
  let P := elems payload in
  let caps := capabilities (le16 b0 b1) (le16 b2 b3) in
  find_byte x00 P = Some idx -> (1 <= idx)%nat ->
  Z.of_nat idx + 21 <= s_len payload ->
  P !! (idx + 13)%nat = Some x00 ->
  P !! (idx + 14)%nat = Some b0 -> P !! (idx + 15)%nat = Some b1 ->
  P !! (idx + 19)%nat = Some b2 -> P !! (idx + 20)%nat = Some b3 ->
  (if CapabilityFlag.Has caps clientPluginAuth
   then P !! (idx + 21)%nat = Some alen /\ alen <> x00
   else alen = AuthPluginDataLen (r s)) ->
  fst (decodeFields payload s) = Val tt /\
  CapabilitiesFlags (r (snd (decodeFields payload s))) = caps /\
  AuthPluginDataLen (r (snd (decodeFields payload s))) = alen /\
  position (snd (decodeFields payload s)) = Z.of_nat idx + 21.
Proof.
  intros Ho Hc Hp P caps Hfind Hidx Hlen Hfil H0 H1 H2 H3 Hpa.
  destruct s as [r0 p0]. cbn [position r] in Hp, Hpa. subst p0.
  assert (HP : (length P <= Z.to_nat (s_len payload))%nat)
    by apply length_elems_le.
  assert (HPl : (idx + 21 <= length P)%nat).
  { pose proof (lookup_lt_Some _ _ _ H3). lia. }
  unfold decodeFields. fold P. rewrite (IndexByte_Some _ _ _ Hfind).
  fwd_red. rewrite sub_within by lia. fwd_red.
  rewrite sub_within by lia.
  match goal with |- context [Uint32 ?l] =>
    destruct (Uint32_is_Some l) as [z Hz];
      [rewrite length_take, length_drop; fold P; lia | rewrite Hz] end.
  fwd_red. rewrite sub_within by lia. fwd_red.
  rewrite index_within by lia. fold P.
  replace (Z.to_nat (Z.of_nat idx + 1 + 4 + 8)) with (idx + 13)%nat by lia.
  rewrite Hfil. change (negb (Byte.eqb x00 x00)) with false. fwd_red.
  rewrite sub_within by lia. fwd_red.
  rewrite index_within by lia. fold P.
  destruct (lookup_lt_is_Some_2 P (Z.to_nat (Z.of_nat idx + 1 + 4 + 8 + 1 + 2)))
    as [cs Hcs]; [lia |]. rewrite Hcs. fwd_red.
  rewrite sub_within by lia.
  match goal with |- context [Uint16 ?l] =>
    destruct (Uint16_is_Some l) as [sf Hsf];
      [rewrite length_take, length_drop; fold P; lia | rewrite Hsf] end.
  fwd_red. rewrite sub_within by lia. fwd_red. fold P.
  replace (Z.to_nat (Z.of_nat idx + 1 + 4 + 8 + 1 + 2 - (Z.of_nat idx + 1 + 4 + 8 + 1)))
    with 2%nat by lia.
  replace (Z.to_nat (Z.of_nat idx + 1 + 4 + 8 + 1)) with (idx + 14)%nat by lia.
  rewrite (take2_drop P (idx + 14) b0 b1)
    by (done || by replace (idx + 14 + 1)%nat with (idx + 15)%nat by lia).
  rewrite Uint16_le16.
  replace (Z.to_nat (Z.of_nat idx + 1 + 4 + 8 + 1 + 2 + 1 + 2 + 2
                     - (Z.of_nat idx + 1 + 4 + 8 + 1 + 2 + 1 + 2)))
    with 2%nat by lia.
  replace (Z.to_nat (Z.of_nat idx + 1 + 4 + 8 + 1 + 2 + 1 + 2))
    with (idx + 19)%nat by lia.
  rewrite (take2_drop P (idx + 19) b2 b3)
    by (done || by replace (idx + 19 + 1)%nat with (idx + 20)%nat by lia).
  rewrite Uint16_le16. fwd_red. fold caps.
  change (negb (Z.land caps clientPluginAuth =? 0))
    with (CapabilityFlag.Has caps clientPluginAuth) in *.
  destruct (CapabilityFlag.Has caps clientPluginAuth).
  - destruct Hpa as (Hl & Hne).
    pose proof (lookup_lt_Some _ _ _ Hl).
    rewrite index_within by lia. fold P.
    replace (Z.to_nat (Z.of_nat idx + 1 + 4 + 8 + 1 + 2 + 1 + 2 + 2))
      with (idx + 21)%nat by lia.
    rewrite Hl. apply byte_eqb_false in Hne. rewrite Hne.
    cbn. repeat split; lia.
  - cbn. subst alen. repeat split; lia.
Qed.

Lemma decodeFields_filler payload s (idx : nat) f :
  0 <= s_off payload -> s_len payload <= s_cap payload ->
  position s = 1 ->
  let P := elems payload in
  find_byte x00 P = Some idx -> (1 <= idx)%nat ->
  P !! (idx + 13)%nat = Some f -> f <> x00 ->
  fst (decodeFields payload s) = Err "Unable to decode filler value".
Proof.
  intros Ho Hc Hp P Hfind Hidx Hfil Hne.
  destruct s as [r0 p0]. cbn [position] in Hp. subst p0.
  assert (HP : (length P <= Z.to_nat (s_len payload))%nat)
    by apply length_elems_le.
  pose proof (lookup_lt_Some _ _ _ Hfil) as HPl.
  unfold decodeFields. fold P. rewrite (IndexByte_Some _ _ _ Hfind).
  fwd_red. rewrite sub_within by lia. fwd_red.
  rewrite sub_within by lia.
  match goal with |- context [Uint32 ?l] =>
    destruct (Uint32_is_Some l) as [z Hz];
      [rewrite length_take, length_drop; fold P; lia | rewrite Hz] end.
  fwd_red. rewrite sub_within by lia. fwd_red.
  rewrite index_within by lia. fold P.
  replace (Z.to_nat (Z.of_nat idx + 1 + 4 + 8)) with (idx + 13)%nat by lia.
  rewrite Hfil. apply byte_eqb_false in Hne. by rewrite Hne.
Qed.

Lemma decodeFields_authlen payload s (idx : nat) b0 b1 b2 b3 :
  0 <= s_off payload -> s_len payload <= s_cap payload ->
  position s = 1 ->
  let P := elems payload in
  find_byte x00 P = Some idx -> (1 <= idx)%nat ->
  P !! (idx + 13)%nat = Some x00 ->
  P !! (idx + 14)%nat = Some b0 -> P !! (idx + 15)%nat = Some b1 ->
  P !! (idx + 19)%nat = Some b2 -> P !! (idx + 20)%nat = Some b3 ->
  CapabilityFlag.Has (capabilities (le16 b0 b1) (le16 b2 b3)) clientPluginAuth
  = true ->
  P !! (idx + 21)%nat = Some x00 ->
  fst (decodeFields payload s) = Err "Wrong auth plugin data len".
Proof.
  intros Ho Hc Hp P Hfind Hidx Hfil H0 H1 H2 H3 Hpa Hl.
  destruct s as [r0 p0]. cbn [position] in Hp. subst p0.
  assert (HP : (length P <= Z.to_nat (s_len payload))%nat)
    by apply length_elems_le.
  pose proof (lookup_lt_Some _ _ _ Hl) as HPl.
  unfold decodeFields. fold P. rewrite (IndexByte_Some _ _ _ Hfind).
  fwd_red. rewrite sub_within by lia. fwd_red.
  rewrite sub_within by lia.
  match goal with |- context [Uint32 ?l] =>
    destruct (Uint32_is_Some l) as [z Hz];
      [rewrite length_take, length_drop; fold P; lia | rewrite Hz] end.
  fwd_red. rewrite sub_within by lia. fwd_red.
  rewrite index_within by lia. fold P.
  replace (Z.to_nat (Z.of_nat idx + 1 + 4 + 8)) with (idx + 13)%nat by lia.
  rewrite Hfil. change (negb (Byte.eqb x00 x00)) with false. fwd_red.
  rewrite sub_within by lia. fwd_red.
  rewrite index_within by lia. fold P.
  destruct (lookup_lt_is_Some_2 P (Z.to_nat (Z.of_nat idx + 1 + 4 + 8 + 1 + 2)))
    as [cs Hcs]; [lia |]. rewrite Hcs. fwd_red.
  rewrite sub_within by lia.
  match goal with |- context [Uint16 ?l] =>
    destruct (Uint16_is_Some l) as [sf Hsf];
      [rewrite length_take, length_drop; fold P; lia | rewrite Hsf] end.
  fwd_red. rewrite sub_within by lia. fwd_red. fold P.
  replace (Z.to_nat (Z.of_nat idx + 1 + 4 + 8 + 1 + 2 - (Z.of_nat idx + 1 + 4 + 8 + 1)))
    with 2%nat by lia.
  replace (Z.to_nat (Z.of_nat idx + 1 + 4 + 8 + 1)) with (idx + 14)%nat by lia.
  rewrite (take2_drop P (idx + 14) b0 b1)
    by (done || by replace (idx + 14 + 1)%nat with (idx + 15)%nat by lia).
  rewrite Uint16_le16.
  replace (Z.to_nat (Z.of_nat idx + 1 + 4 + 8 + 1 + 2 + 1 + 2 + 2
                     - (Z.of_nat idx + 1 + 4 + 8 + 1 + 2 + 1 + 2)))
    with 2%nat by lia.
  replace (Z.to_nat (Z.of_nat idx + 1 + 4 + 8 + 1 + 2 + 1 + 2))
    with (idx + 19)%nat by lia.
  rewrite (take2_drop P (idx + 19) b2 b3)
    by (done || by replace (idx + 19 + 1)%nat with (idx + 20)%nat by lia).
  rewrite Uint16_le16. fwd_red.
  change (negb (Z.land (capabilities (le16 b0 b1) (le16 b2 b3))
                  clientPluginAuth =? 0))
    with (CapabilityFlag.Has (capabilities (le16 b0 b1) (le16 b2 b3))
            clientPluginAuth) in *.
  rewrite Hpa.
  rewrite index_within by lia. fold P.
  replace (Z.to_nat (Z.of_nat idx + 1 + 4 + 8 + 1 + 2 + 1 + 2 + 2))
    with (idx + 21)%nat by lia.
  by rewrite Hl.
Qed.

Lemma decodeAuthPluginData_ok payload s :
  0 <= s_off payload -> s_len payload <= s_cap payload ->
  0 <= position s ->
  position s + 11
  + (if CapabilityFlag.Has (CapabilitiesFlags (r s)) clientSecureConn
     then Max 13 (u8 (AuthPluginDataLen (r s)) - 8) else 0) <= s_len payload ->
  fst (decodeAuthPluginData payload s) = Val tt.
Proof.
  intros Ho Hc Hp Hle. destruct s as [r0 p0]. cbn [position r] in *.
  unfold decodeAuthPluginData. fwd_red.
  change (negb (Z.land (CapabilitiesFlags r0) clientSecureConn =? 0))
    with (CapabilityFlag.Has (CapabilitiesFlags r0) clientSecureConn).
  destruct (CapabilityFlag.Has (CapabilitiesFlags r0) clientSecureConn);
    [| done].
  pose proof (Max_13_pos (u8 (AuthPluginDataLen r0) - 8)).
  by rewrite sub_within by lia.
Qed.

Lemma fst_val {A} (x : outcome A * frame) a :
  fst x = Val a -> x = (Val a, snd x).
Proof. destruct x as [o s]. cbn. by intros ->. Qed.

Lemma declaredPayload_slice conn (P0 : byte) :
  declaredPayload conn !! 0%nat = Some P0 ->
  forall s, exists payload hdr,
    decodeHeader conn s
    = (Val (buffer conn, payload, hdr),
       mkFrame (set_header (Some hdr) (r s)) 0) /\
    payload = Slice (s_arr (buffer conn)) 4 (Length hdr) 1020 /\
    0 <= Length hdr <= 1020 /\
    declaredPayload conn = elems payload /\
    length (elems payload) = Z.to_nat (Length hdr).
Proof.
  intros HP s. unfold declaredPayload in HP.
  destruct (decodeHeader conn freshFrame) as [[[[d p] h] | e |] s0] eqn:Hh0;
    [| done | done].
  pose proof (decodeHeader_frame conn s freshFrame) as Hfr.
  rewrite Hh0 in Hfr. cbn [fst] in Hfr.
  apply fst_val in Hfr.
  pose proof Hfr as (_ & -> & Hpl & HL & _ & Hs)%decodeHeader_val.
  exists p, h. rewrite Hs in Hfr. split; [done |]. split; [done |].
  split; [done |]. split; [by eapply declaredPayload_eq |].
  by eapply decodeHeader_length.
Qed.

Lemma Decode_accepts conn s (idx : nat) b0 b1 b2 b3 alen :
  let P := declaredPayload conn in
  let caps := capabilities (le16 b0 b1) (le16 b2 b3) in
  P !! 0%nat = Some x0a ->
  find_byte x00 P = Some idx ->
  P !! (idx + 13)%nat = Some x00 ->
  P !! (idx + 14)%nat = Some b0 -> P !! (idx + 15)%nat = Some b1 ->
  P !! (idx + 19)%nat = Some b2 -> P !! (idx + 20)%nat = Some b3 ->
  (if CapabilityFlag.Has caps clientPluginAuth
   then P !! (idx + 21)%nat = Some alen /\ alen <> x00
   else alen = AuthPluginDataLen (r s)) ->
  Z.of_nat idx + 32
  + (if CapabilityFlag.Has caps clientSecureConn
     then Max 13 (u8 alen - 8) else 0) <= Z.of_nat (length P) ->
  fst (Decode conn s) = Val tt.
Proof.
  intros P caps HP0 Hfind Hfil H0 H1 H2 H3 Hpa Hle.
  destruct (declaredPayload_slice conn _ HP0 s)
    as (payload & hdr & Hh & Hpl & HL & HP & Hlen).
  subst P. rewrite HP in *.
  assert (Ho : 0 <= s_off payload) by (subst payload; cbn; lia).
  assert (Hsl : s_len payload = Length hdr) by (by subst payload).
  assert (Hc : s_len payload <= s_cap payload) by (subst payload; cbn; lia).
  assert (Hn : 0 <= (if CapabilityFlag.Has caps clientSecureConn
                     then Max 13 (u8 alen - 8) else 0)).
  { destruct (CapabilityFlag.Has caps clientSecureConn); [| lia].
    pose proof (Max_13_pos (u8 alen - 8)). lia. }
  assert (Hidx : (1 <= idx)%nat).
  { destruct idx; [| lia]. apply find_byte_Some in Hfind as [Hf _].
    congruence. }
  assert (Hv : index payload 0 = Some x0a).
  { rewrite index_within by lia. done. }
  unfold Decode. rewrite (bind_run _ _ _ _ _ Hh). cbv beta iota.
  rewrite (bind_run _ _ _ _ _ (decodeProtocolVersion_v10 _ payload _ _ Hv)).
  cbn [r position].
  set (s1 := mkFrame _ (0 + 1)).
  destruct (decodeFields_ok payload s1 idx b0 b1 b2 b3 alen)
    as (Hf & Hcaps & Hal & Hpos); try done; [lia |].
  apply fst_val in Hf. rewrite (bind_run _ _ _ _ _ Hf).
  set (s2 := snd (decodeFields payload s1)) in *.
  pose proof (decodeAuthPluginData_ok payload s2 Ho Hc) as Ha.
  pose proof (Max_13_pos (u8 alen - 8)) as HM.
  rewrite Hcaps, Hal, Hpos in Ha.
  pose proof (decodeAuthPluginData_val payload s2) as Ha'.
  cbv zeta in Ha'. rewrite Hpos in Ha'.
  change (negb (Z.land (CapabilitiesFlags (r s2)) clientSecureConn =? 0))
    with (CapabilityFlag.Has (CapabilitiesFlags (r s2)) clientSecureConn)
    in Ha'.
  rewrite Hcaps, Hal in Ha'. subst caps.
  destruct (CapabilityFlag.Has _ clientSecureConn).
  - specialize (Ha ltac:(lia) ltac:(lia)).
    apply fst_val in Ha. rewrite (bind_run _ _ _ _ _ Ha).
    destruct (Ha' _ Ha) as (part2 & _ & Hs3).
    rewrite decodeAuthPluginName_run; [done | done | done |].
    rewrite Hs3. cbn [position]. lia.
  - specialize (Ha ltac:(lia) ltac:(lia)).
    apply fst_val in Ha. rewrite (bind_run _ _ _ _ _ Ha).
    rewrite decodeAuthPluginName_run; [done | done | done |].
    rewrite (Ha' _ Ha). cbn [position]. lia.
Qed.

(** What a successful decode says about the payload. *)
Lemma Decode_nil_inv conn s :
  fst (Decode conn s) = Val tt ->
  exists (idx : nat) (b0 b1 b2 b3 alen : byte),
    let P := declaredPayload conn in
    let caps := capabilities (le16 b0 b1) (le16 b2 b3) in
    P !! 0%nat = Some x0a /\
    find_byte x00 P = Some idx /\
    P !! (idx + 13)%nat = Some x00 /\
    P !! (idx + 14)%nat = Some b0 /\ P !! (idx + 15)%nat = Some b1 /\
    P !! (idx + 19)%nat = Some b2 /\ P !! (idx + 20)%nat = Some b3 /\
    (if CapabilityFlag.Has caps clientPluginAuth
     then P !! (idx + 21)%nat = Some alen /\ alen <> x00
     else alen = AuthPluginDataLen (r s)) /\
    Z.of_nat idx + 32
    + (if CapabilityFlag.Has caps clientSecureConn
       then Max 13 (u8 alen - 8) else 0) <= Z.of_nat (length P).
Proof.
  intros H. apply fst_val in H.
  destruct (Decode_val _ _ _ H)
    as (payload & hdr & idx & Hh & _ & HL & Hlen & HP0 & Hf & _ & _ & _ & _
        & Hfil & (b0 & b1 & b2 & b3 & H0 & H1 & H2 & H3 & Hc) & _ & _
        & Hpa & _ & _ & _ & Hpos & Hle & _).
  cbv zeta in *. set (s' := snd (Decode conn s)) in *.
  exists idx, b0, b1, b2, b3, (AuthPluginDataLen (r s')).
  rewrite (declaredPayload_eq _ _ _ _ _ _ Hh).
  pose proof (le16_range b0 b1). pose proof (le16_range b2 b3).
  rewrite capabilities_halves by done. rewrite <- Hc.
  unfold CapabilityFlag.Has. do 8 (split; [done |]). lia.
Qed.

(** * When [Decode] returns nil *)

(** X1. [Decode] returns nil exactly when the declared payload starts with
    protocol version 10, holds a NUL byte (the first one, at [idx], ends the
    server version), has a zero filler byte at [idx + 13], has a non-zero
    auth-plugin-data length at [idx + 21] if the capability halves at
    [idx + 14] and [idx + 19] carry PLUGIN_AUTH, and is long enough for the
    32 bytes after [idx] and, with SECURE_CONNECTION, for part 2 of the
    auth-plugin-data. Every other payload ends in an error or a panic. *)
Theorem Decode_returns_nil_iff conn s :
  fst (Decode conn s) = Val tt <->
  exists (idx : nat) (b0 b1 b2 b3 alen : byte),
    let P := declaredPayload conn in
    let caps := capabilities (le16 b0 b1) (le16 b2 b3) in
    P !! 0%nat = Some x0a /\
    find_byte x00 P = Some idx /\
    P !! (idx + 13)%nat = Some x00 /\
    P !! (idx + 14)%nat = Some b0 /\ P !! (idx + 15)%nat = Some b1 /\
    P !! (idx + 19)%nat = Some b2 /\ P !! (idx + 20)%nat = Some b3 /\
    (if CapabilityFlag.Has caps clientPluginAuth
     then P !! (idx + 21)%nat = Some alen /\ alen <> x00
     else alen = AuthPluginDataLen (r s)) /\
    Z.of_nat idx + 32
    + (if CapabilityFlag.Has caps clientSecureConn
       then Max 13 (u8 alen - 8) else 0) <= Z.of_nat (length P).
Proof.
  split; [apply Decode_nil_inv |].
  - intros (idx & b0 & b1 & b2 & b3 & alen & HP0 & Hf & Hfil & H0 & H1 & H2
            & H3 & Hpa & Hle).
    by eapply Decode_accepts.
Qed.

(** Inversion of the two field errors, with the bytes that decide them. *)
Lemma decodeFields_authlen_inv payload s s1 :
  0 <= s_off payload ->
  decodeFields payload s = (Err "Wrong auth plugin data len", s1) ->
  let P := elems payload in
  exists (idx : nat) b0 b1 b2 b3,
    find_byte x00 P = Some idx /\
    P !! (idx + 13)%nat = Some x00 /\
    P !! (idx + 14)%nat = Some b0 /\ P !! (idx + 15)%nat = Some b1 /\
    P !! (idx + 19)%nat = Some b2 /\ P !! (idx + 20)%nat = Some b3 /\
    CapabilityFlag.Has (capabilities (le16 b0 b1) (le16 b2 b3))
      clientPluginAuth = true /\
    P !! (idx + 21)%nat = Some x00.
Proof.
  intros Ho H. cbv zeta.
  unfold decodeFields in H. destruct s as [r0 p0]. exec H.
  repeat match goal with
         | Hc : negb (Byte.eqb _ x00) = false |- _ =>
             apply negb_false_iff, byte_eqb_true in Hc as ->
         | Hc : Byte.eqb _ x00 = true |- _ => apply byte_eqb_true in Hc as ->
         end.
  destruct (IndexByte_cases (elems payload) x00)
    as [[Hi Hfind] | (idx & Hi & Hfind)]; rewrite Hi in *.
  { match goal with
    | Hs : sub payload _ (-1) = Some _ |- _ =>
        apply sub_Some in Hs; lia
    end. }
  assert (Hbound : Z.of_nat idx + 21 < s_len payload).
  { match goal with
    | Hl : index payload (Z.of_nat idx + 1 + 4 + 8 + 1 + 2 + 1 + 2 + 2)
           = Some _ |- _ => apply index_Some in Hl as [Hl _]; lia
    end. }
  repeat match goal with
         | Hs : sub payload _ _ = Some _ |- _ =>
             apply sub_elems in Hs; [| done | lia]
         | Hx : index payload _ = Some _ |- _ =>
             apply index_Some_elems in Hx as [? Hx]; [| done]
         end.
  subst.
  repeat match goal with
         | Hu : Uint16 (take (Z.to_nat ?n) (drop (Z.to_nat ?a) _)) = Some _
           |- _ =>
             replace (Z.to_nat n) with 2%nat in Hu by lia;
             apply Uint16_take_drop in Hu as (? & ? & ? & ? & ?)
         end.
  subst.
  repeat match goal with
         | Hx : elems payload !! ?k = Some _ |- _ =>
             lazymatch k with
             | (Z.to_nat (Z.of_nat idx + 1 + 4 + 8)) =>
                 replace k with (idx + 13)%nat in Hx by lia
             | (Z.to_nat (Z.of_nat idx + 1 + 4 + 8 + 1)) =>
                 replace k with (idx + 14)%nat in Hx by lia
             | (Z.to_nat (Z.of_nat idx + 1 + 4 + 8 + 1) + 1)%nat =>
                 replace k with (idx + 15)%nat in Hx by lia
             | (Z.to_nat (Z.of_nat idx + 1 + 4 + 8 + 1 + 2 + 1 + 2)) =>
                 replace k with (idx + 19)%nat in Hx by lia
             | (Z.to_nat (Z.of_nat idx + 1 + 4 + 8 + 1 + 2 + 1 + 2) + 1)%nat =>
                 replace k with (idx + 20)%nat in Hx by lia
             | (Z.to_nat (Z.of_nat idx + 1 + 4 + 8 + 1 + 2 + 1 + 2 + 2)) =>
                 replace k with (idx + 21)%nat in Hx by lia
             end
         end.
  eexists idx, _, _, _, _. split; [done |]. split; [eassumption |].
  do 4 (split; [eassumption |]). split; [| eassumption].
  unfold CapabilityFlag.Has. eassumption.
Qed.

Lemma fst_err {A} (x : outcome A * frame) e :
  fst x = Err e -> x = (Err e, snd x).
Proof. destruct x as [o s]. cbn. by intros ->. Qed.

Lemma Decode_err_blocks conn s e s' :
  Decode conn s = (Err e, s') ->
  decodeHeader conn s = (Err e, s') \/
  exists data payload hdr s0,
    decodeHeader conn s = (Val (data, payload, hdr), s0) /\
    (decodeProtocolVersion data payload hdr s0 = (Err e, s') \/
     exists s1,
       decodeProtocolVersion data payload hdr s0 = (Val tt, s1) /\
       decodeFields payload s1 = (Err e, s')).
Proof.
  intros H. unfold Decode in H.
  apply bind_err in H as [H | ([[data payload] hdr] & s0 & Hh & H)];
    [by left | right].
  exists data, payload, hdr, s0. split; [done |].
  apply bind_err in H as [H | ([] & s1 & Hv & H)]; [by left | right].
  exists s1. split; [done |].
  apply bind_err in H as [H | ([] & s2 & Hf & H)]; [done |].
  apply bind_err in H as [H | ([] & s3 & Ha & H)].
  - by apply decodeAuthPluginData_not_err in H.
  - by apply decodeAuthPluginName_not_err in H.
Qed.

(** An error of the field steps: the header and the version were accepted. *)
Lemma Decode_field_error rx s e :
  fst (Decode (ConnData rx) s) = Err e ->
  e = "Unable to decode filler value"%string \/
  e = "Wrong auth plugin data len"%string ->
  exists payload hdr s1,
    decodeHeader (ConnData rx) s
    = (Val (buffer (ConnData rx), payload, hdr),
       mkFrame (set_header (Some hdr) (r s)) 0) /\
    0 <= s_off payload /\ s_len payload <= s_cap payload /\
    elems payload !! 0%nat = Some x0a /\
    position s1 = 1 /\
    decodeFields payload s1 = (Err e, snd (Decode (ConnData rx) s)).
Proof.
  intros H He. apply fst_err in H.
  apply Decode_err_blocks in H
    as [H | (data & payload & hdr & s0 & Hh & H)].
  { apply decodeHeader_err in H as (_ & [H | ->]); [done |].
    destruct He as [He | He]; discriminate He. }
  pose proof Hh as (_ & -> & Hpl & HL & _ & ->)%decodeHeader_val.
  destruct H as [H | (s1 & Hv & H)].
  { apply decodeProtocolVersion_err in H
      as (v & txt & _ & _ & _ & _ & H).
    destruct (Contains (string_of_list_byte txt) accessDeniedText) eqn:Hc.
    - rewrite <- H in Hc. destruct He as [-> | ->]; vm_compute in Hc; done.
    - destruct (Byte.eqb v x09); subst e; destruct He as [He | He];
        discriminate He. }
  apply decodeProtocolVersion_val in Hv as [Hv ->].
  exists payload, hdr. eexists. split; [done |].
  assert (Ho : 0 <= s_off payload) by (subst payload; cbn; lia).
  split; [done |]. split; [subst payload; cbn; lia |].
  apply index_Some_elems in Hv as [_ Hv]; [| done].
  split; [done |]. split; [| exact H]. done.
Qed.

(** * The two errors of the field steps *)

(** X2. After a read that succeeds, [Decode] returns the error
    "Unable to decode filler value" exactly when the payload starts with
    version 10, holds a NUL byte, and the byte 13 places after the first one
    exists in the payload and is not zero. The four bytes of the connection
    id and the eight bytes of part 1 before it are read without a length
    check. *)
Theorem filler_error_iff rx s :
  fst (Decode (ConnData rx) s) = Err "Unable to decode filler value" <->
  exists (idx : nat) (f : byte),
    let P := declaredPayload (ConnData rx) in
    P !! 0%nat = Some x0a /\
    find_byte x00 P = Some idx /\
    P !! (idx + 13)%nat = Some f /\ f <> x00.
Proof.
  split.
  - intros H.
    destruct (Decode_field_error _ _ _ H ltac:(by left))
      as (payload & hdr & s1 & Hh & Ho & Hc & HP0 & Hp & Hf).
    cbv zeta. rewrite (declaredPayload_eq _ _ _ _ _ _ Hh).
    apply decodeFields_err in Hf. cbv zeta in Hf.
    destruct Hf as (sv & cid & id & part1 & Hsv & _ & _ & _ & Hf).
    destruct (IndexByte_cases (elems payload) x00)
      as [[Hi Hfind] | (idx & Hi & Hfind)]; rewrite Hi in *;
      [apply sub_Some in Hsv; lia |].
    destruct Hf as [(f & Hfb & Hne & _) | (? & ? & ? & _ & _ & He & _)];
      [| discriminate He].
    apply index_Some_elems in Hfb as [_ Hfb]; [| done].
    replace (Z.to_nat (Z.of_nat idx + 13)) with (idx + 13)%nat in Hfb by lia.
    by exists idx, f.
  - intros (idx & f & HP0 & Hfind & Hfil & Hne). cbv zeta in *.
    destruct (declaredPayload_slice _ _ HP0 s)
      as (payload & hdr & Hh & Hpl & HL & HP & Hlen).
    rewrite HP in *.
    assert (Ho : 0 <= s_off payload) by (subst payload; cbn; lia).
    assert (Hsl : s_len payload = Length hdr) by (by subst payload).
    assert (Hc : s_len payload <= s_cap payload) by (subst payload; cbn; lia).
    pose proof (lookup_lt_Some _ _ _ Hfil).
    assert (Hidx : (1 <= idx)%nat).
    { destruct idx; [| lia]. apply find_byte_Some in Hfind as [Hf _].
      congruence. }
    assert (Hv : index payload 0 = Some x0a)
      by (rewrite index_within by lia; done).
    unfold Decode. rewrite (bind_run _ _ _ _ _ Hh). cbv beta iota.
    rewrite (bind_run _ _ _ _ _ (decodeProtocolVersion_v10 _ payload _ _ Hv)).
    cbn [r position].
    set (s1 := mkFrame _ (0 + 1)).
    pose proof (decodeFields_filler payload s1 idx f Ho Hc eq_refl Hfind Hidx
                  Hfil Hne) as Hf.
    apply fst_err in Hf. by rewrite (bind_throw _ _ _ _ _ Hf).
Qed.

(** X3. After a read that succeeds, [Decode] returns the error
    "Wrong auth plugin data len" exactly when the payload starts with version
    10, the filler byte is zero, the capability halves carry PLUGIN_AUTH and
    the length byte at [idx + 21] is present and zero. *)
Theorem authPluginDataLen_error_iff rx s :
  fst (Decode (ConnData rx) s) = Err "Wrong auth plugin data len" <->
  exists (idx : nat) (b0 b1 b2 b3 : byte),
    let P := declaredPayload (ConnData rx) in
    P !! 0%nat = Some x0a /\
    find_byte x00 P = Some idx /\
    P !! (idx + 13)%nat = Some x00 /\
    P !! (idx + 14)%nat = Some b0 /\ P !! (idx + 15)%nat = Some b1 /\
    P !! (idx + 19)%nat = Some b2 /\ P !! (idx + 20)%nat = Some b3 /\
    CapabilityFlag.Has (capabilities (le16 b0 b1) (le16 b2 b3))
      clientPluginAuth = true /\
    P !! (idx + 21)%nat = Some x00.
Proof.
  split.
  - intros H.
    destruct (Decode_field_error _ _ _ H ltac:(by right))
      as (payload & hdr & s1 & Hh & Ho & Hc & HP0 & Hp & Hf).
    cbv zeta. rewrite (declaredPayload_eq _ _ _ _ _ _ Hh).
    apply decodeFields_authlen_inv in Hf; [| done]. cbv zeta in Hf.
    destruct Hf as (idx & b0 & b1 & b2 & b3 & Hf).
    exists idx, b0, b1, b2, b3. by split.
  - intros (idx & b0 & b1 & b2 & b3 & HP0 & Hfind & Hfil & H0 & H1 & H2 & H3
            & Hpa & Hl). cbv zeta in *.
    destruct (declaredPayload_slice _ _ HP0 s)
      as (payload & hdr & Hh & Hpl & HL & HP & Hlen).
    rewrite HP in *.
    assert (Ho : 0 <= s_off payload) by (subst payload; cbn; lia).
    assert (Hsl : s_len payload = Length hdr) by (by subst payload).
    assert (Hc : s_len payload <= s_cap payload) by (subst payload; cbn; lia).
    pose proof (lookup_lt_Some _ _ _ Hfil).
    assert (Hidx : (1 <= idx)%nat).
    { destruct idx; [| lia]. apply find_byte_Some in Hfind as [Hf _].
      congruence. }
    assert (Hv : index payload 0 = Some x0a)
      by (rewrite index_within by lia; done).
    unfold Decode. rewrite (bind_run _ _ _ _ _ Hh). cbv beta iota.
    rewrite (bind_run _ _ _ _ _ (decodeProtocolVersion_v10 _ payload _ _ Hv)).
    cbn [r position].
    set (s1 := mkFrame _ (0 + 1)).
    pose proof (decodeFields_authlen payload s1 idx b0 b1 b2 b3 Ho Hc eq_refl
                  Hfind Hidx Hfil H0 H1 H2 H3 Hpa Hl) as Hf.
    apply fst_err in Hf. by rewrite (bind_throw _ _ _ _ _ Hf).
Qed.

Lemma lor_shiftl_add a b k :
  0 <= k -> 0 <= a < 2 ^ k -> Z.lor a (Z.shiftl b k) = a + b * 2 ^ k.
Proof.
  intros Hk Ha. rewrite Z.shiftl_mul_pow2 by done.
  rewrite <- Z.lxor_lor, <- Z.add_nocarry_lxor; [done | |].
  all: apply Z.bits_inj'; intros n Hn; rewrite Z.land_spec, Z.bits_0.
  all: destruct (Z.lt_ge_cases n k).
  all: try (rewrite Z.mul_pow2_bits_low by lia; apply andb_false_r).
  all: destruct (Z.eq_dec a 0) as [-> | Hne]; [by rewrite Z.bits_0 |].
  all: rewrite (Z.bits_above_log2 a n); [done | lia |].
  all: assert (Z.log2 a < k) by (apply Z.log2_lt_pow2; lia); lia.
Qed.

Lemma Uint32_le24 d0 d1 d2 :
  Uint32 [d0; d1; d2; x00] = Some (u8 d0 + 256 * u8 d1 + 65536 * u8 d2).
Proof.
  cbn [Uint32]. f_equal.
  pose proof (u8_range d0). pose proof (u8_range d1). pose proof (u8_range d2).
  change (u8 x00) with 0. rewrite Z.shiftl_0_l.
  change (wrap 32 0) with 0. rewrite Z.lor_0_r.
  rewrite !(Z.shiftl_mul_pow2 _ _) by lia.
  rewrite (wrap_small 32 (u8 d1 * 2 ^ 8)) by lia.
  rewrite (wrap_small 32 (u8 d2 * 2 ^ 16)) by lia.
  rewrite <- !Z.shiftl_mul_pow2 by lia.
  rewrite (lor_shiftl_add (u8 d0) (u8 d1) 8) by lia.
  rewrite (lor_shiftl_add _ (u8 d2) 16) by lia.
  rewrite wrap_small by lia. lia.
Qed.

Lemma Read_padded rx :
  Read (ConnData rx) (make 1024) = (Slice (padded rx) 0 1024 1024, None).
Proof.
  unfold Read, make, padded. cbn [s_arr s_off s_len s_cap].
  f_equal. f_equal.
  change (Z.to_nat 0) with 0%nat. change (Z.to_nat 1024) with 1024%nat.
  rewrite take_0, app_nil_l, Nat.add_0_l.
  rewrite take_app. f_equal.
  - destruct (Nat.min_spec (length rx) 1024) as [[Hlt ->] | [Hge ->]];
      [| done].
    by rewrite !take_ge by lia.
  - rewrite drop_replicate, take_replicate. f_equal. lia.
Qed.

Lemma length_padded rx : length (padded rx) = 1024%nat.
Proof.
  unfold padded. rewrite length_take, length_app, length_replicate. lia.
Qed.

Lemma buffer_padded rx : buffer (ConnData rx) = Slice (padded rx) 0 1024 1024.
Proof. unfold buffer. by rewrite Read_padded. Qed.

(** The header step as a function of the bytes received. *)
Lemma decodeHeader_padded rx s :
  let L := headerLength rx in
  let hdr := mkPacketHeader L (headerSequenceId rx) in
  0 <= L < 2 ^ 24 /\
  decodeHeader (ConnData rx) s
  = if 1024 <=? L then (Err "Header sanity check failed!"%string, s)
    else if bool_decide (L <= 1020)
         then (Val (buffer (ConnData rx), Slice (padded rx) 4 L 1020, hdr),
               mkFrame (set_header (Some hdr) (r s)) 0)
         else (Panic, mkFrame (set_header (Some hdr) (r s)) (position s)).
Proof.
  destruct (decodeHeader_run rx (padded rx) s (Read_padded rx)
              (length_padded rx))
    as (d0 & d1 & d2 & q & L & H0 & H1 & H2 & H3 & HL & _ & Hrun).
  cbv zeta in *. rewrite Uint32_le24 in HL. injection HL as HL.
  unfold headerLength, headerSequenceId. rewrite buffer_padded.
  destruct (padded rx) as [| e0 [| e1 [| e2 l]]]; try done.
  cbn in H0, H1, H2.
  injection H0 as ->. injection H1 as ->. injection H2 as ->.
  subst L. rewrite H3. cbn [default].
  split; [| done].
  pose proof (u8_range d0). pose proof (u8_range d1). pose proof (u8_range d2).
  lia.
Qed.

(** * The header *)

(** X4. After a read that succeeds, [Decode] returns the error
    "Header sanity check failed!" exactly when the first three bytes of the
    buffer, read as a little-endian number, are 1024 or more. *)
Theorem header_sanity_error_iff rx s :
  fst (Decode (ConnData rx) s) = Err "Header sanity check failed!"
  <-> 1024 <= headerLength rx.
Proof.
  destruct (decodeHeader_padded rx s) as [HL Hrun]. cbv zeta in Hrun.
  assert (Hfwd : 1024 <= headerLength rx ->
                 Decode (ConnData rx) s
                 = (Err "Header sanity check failed!"%string, s)).
  { intros Hge. unfold Decode. apply bind_throw. rewrite Hrun.
    by rewrite (proj2 (Z.leb_le _ _) Hge). }
  split.
  - intros H. apply fst_err in H.
    apply Decode_err_blocks in H
      as [H | (data & payload & hdr & s0 & Hh & H)].
    + rewrite Hrun in H. destruct (1024 <=? headerLength rx) eqn:Hc;
        [by apply Z.leb_le |].
      by case_bool_decide.
    + exfalso. destruct H as [H | (s1 & Hv & H)].
      * apply decodeProtocolVersion_err in H
          as (v & txt & _ & _ & _ & _ & H).
        destruct (Contains (string_of_list_byte txt) accessDeniedText) eqn:Hc.
        -- rewrite <- H in Hc. vm_compute in Hc. done.
        -- by destruct (Byte.eqb v x09).
      * apply decodeFields_err in H. cbv zeta in H.
        destruct H as (? & ? & ? & ? & _ & _ & _ & _ & H).
        destruct H as [(? & _ & _ & He & _) | (? & ? & ? & _ & _ & He & _)];
          discriminate He.
  - intros Hge. by rewrite (Hfwd Hge).
Qed.

(** X5. The sanity check lets the lengths 1021, 1022 and 1023 pass, but the
    buffer has only 1020 bytes after the header: [data[4 : Length+4]] is out
    of range and [Decode] panics, after it has stored the header in the
    receiver. *)
Theorem header_length_above_1020_panics rx s :
  1021 <= headerLength rx <= 1023 ->
  Decode (ConnData rx) s
  = (Panic,
     mkFrame (set_header (Some (mkPacketHeader (headerLength rx)
                                               (headerSequenceId rx))) (r s))
             (position s)).
Proof.
  intros HL. destruct (decodeHeader_padded rx s) as [_ Hrun].
  cbv zeta in Hrun. unfold Decode. apply bind_panic. rewrite Hrun.
  rewrite (proj2 (Z.leb_gt _ _)) by lia.
  by rewrite bool_decide_eq_false_2 by lia.
Qed.

Lemma header_length_above_1020_panics_witness :
  headerLength longHeader = 1021 /\
  Decode (ConnData longHeader) freshFrame
  = (Panic,
     mkFrame (set_header (Some (mkPacketHeader 1021 x00)) zeroPacket) 0).
Proof.
  assert (E : headerLength longHeader = 1021) by (vm_compute; reflexivity).
  assert (HL : 1021 <= headerLength longHeader <= 1023) by (rewrite E; lia).
  split; [exact E |].
  exact (header_length_above_1020_panics longHeader freshFrame HL).
Defined.

Lemma declaredPayload_padded rx :
  headerLength rx <= 1020 ->
  declaredPayload (ConnData rx)
  = take (Z.to_nat (headerLength rx)) (drop 4 (rx ++ replicate 1024 x00)).
Proof.
  intros HL. destruct (decodeHeader_padded rx freshFrame) as [H0 Hrun].
  cbv zeta in Hrun.
  rewrite (proj2 (Z.leb_gt _ _)) in Hrun by lia.
  rewrite bool_decide_eq_true_2 in Hrun by lia.
  rewrite (declaredPayload_eq _ _ _ _ _ _ Hrun).
  unfold elems. cbn [s_arr s_off s_len]. unfold padded.
  change (Z.to_nat 4) with 4%nat.
  pose proof (take_drop_commute (rx ++ replicate 1024 x00) 1020 4) as Hc.
  change (4 + 1020)%nat with 1024%nat in Hc.
  rewrite <- Hc, take_take. f_equal. lia.
Qed.

(** X6. [Decode] ignores the byte count of [conn.Read]: the payload always
    has the declared length, and where the read delivered fewer bytes the
    payload is filled up with the zero bytes of the fresh buffer. *)
Theorem declaredPayload_zero_padded rx (i : nat) :
  headerLength rx <= 1020 ->
  (i < Z.to_nat (headerLength rx))%nat ->
  length (declaredPayload (ConnData rx)) = Z.to_nat (headerLength rx) /\
  declaredPayload (ConnData rx) !! i = Some (default x00 (rx !! (4 + i)%nat)).
Proof.
  intros HL Hi. destruct (decodeHeader_padded rx freshFrame) as [H0 _].
  cbv zeta in H0. rewrite (declaredPayload_padded rx HL).
  split.
  - rewrite length_take, length_drop, length_app, length_replicate. lia.
  - rewrite lookup_take_lt, lookup_drop by done.
    destruct (rx !! (4 + i)%nat) as [b |] eqn:Hb; cbn [default].
    + by rewrite lookup_app_l_Some with (x := b).
    + apply lookup_ge_None in Hb.
      rewrite lookup_app_r by done. apply lookup_replicate_2. lia.
Qed.

Lemma declaredPayload_zero_padded_witness :
  headerLength shortRead = 5 /\
  shortRead !! 7%nat = None /\
  length (declaredPayload (ConnData shortRead)) = 5%nat /\
  declaredPayload (ConnData shortRead) !! 3%nat = Some x00.
Proof.
  assert (E : headerLength shortRead = 5) by (vm_compute; reflexivity).
  assert (HL : headerLength shortRead <= 1020) by (rewrite E; lia).
  assert (Hi : (3 < Z.to_nat (headerLength shortRead))%nat)
    by (rewrite E; lia).
  split; [exact E |]. split; [reflexivity |].
  destruct (declaredPayload_zero_padded shortRead 3 HL Hi) as [Hlen Hb].
  split; [by rewrite Hlen, E | exact Hb].
Defined.

(** X7. [Decode] reads once, into a buffer of 1024 zero bytes: bytes past the
    first 1024 are never seen, and a read that ends early cannot be told
    from one that delivers zero bytes in its place. *)
Theorem single_read_zero_padded rx (k : nat) s :
  Decode (ConnData (take 1024 rx ++ replicate k x00)) s
  = Decode (ConnData rx) s.
Proof.
  unfold Decode, decodeHeader. rewrite !Read_padded.
  replace (padded (take 1024 rx ++ replicate k x00)) with (padded rx);
    [done |].
  unfold padded. apply list_eq. intros i.
  rewrite !lookup_take. case_decide; [| done].
  destruct (decide (i < length rx)%nat) as [Hr | Hr].
  - rewrite lookup_app_l by done.
    rewrite <- app_assoc, lookup_app_l by (rewrite length_take; lia).
    rewrite lookup_take. by case_decide; [| lia].
  - rewrite lookup_app_r by lia.
    rewrite lookup_replicate_2 by lia.
    assert (Hlen : length (take 1024 rx) = length rx)
      by (rewrite length_take; lia).
    rewrite <- app_assoc, lookup_app_r by lia.
    rewrite Hlen.
    destruct (decide (i - length rx < k)%nat).
    + rewrite lookup_app_l by (rewrite length_replicate; lia).
      by rewrite lookup_replicate_2 by lia.
    + rewrite lookup_app_r by (rewrite length_replicate; lia).
      rewrite length_replicate. by rewrite lookup_replicate_2 by lia.
Qed.

Lemma elems_buffer rx : elems (buffer (ConnData rx)) = padded rx.
Proof.
  rewrite buffer_padded. unfold elems. cbn [s_arr s_off s_len].
  rewrite drop_0, take_ge; [done |]. rewrite length_padded. lia.
Qed.

(** * Protocol versions other than 10 *)

(** X8. When the payload starts with a version byte other than 10, [Decode]
    never returns nil and the outcome is fixed by the text from the
    classifier's offset to the end of the payload: that text is the error if
    it holds the access-denied phrase, else the error is the version-9 message
    for version 9 and the unknown-version message for any other version. The
    offset is one more than the index of the first NUL byte of the whole
    buffer, so it is 1, 2 or 3; a payload shorter than the offset panics. *)
Theorem other_version_outcome rx s v :
  let P := declaredPayload (ConnData rx) in
  let off := IndexByte (padded rx) x00 + 1 in
  let txt := string_of_list_byte (drop (Z.to_nat off) P) in
  P !! 0%nat = Some v -> v <> x0a ->
  1 <= off <= 3 /\
  fst (Decode (ConnData rx) s)
  = if bool_decide (off <= Z.of_nat (length P))
    then Err (if Contains txt accessDeniedText then txt
              else if Byte.eqb v x09
                   then "Version 9 is not yet supported!"%string
                   else "Only version 10 is supported. Unknown procotcol version!"%string)
    else Panic.
Proof.
  intros P off txt HP0 Hne.
  destruct (declaredPayload_slice _ _ HP0 s)
    as (payload & hdr & Hh & Hpl & HL & HP & Hlen).
  pose proof (classifier_offset_in_header _ _ _ _ _ _ Hh) as Hoff.
  rewrite elems_buffer in Hoff. fold off in Hoff. split; [done |].
  assert (Ho : 0 <= s_off payload) by (subst payload; cbn; lia).
  assert (Hsl : s_len payload = Length hdr) by (by subst payload).
  assert (Hc : s_len payload <= s_cap payload) by (subst payload; cbn; lia).
  assert (Hcap : s_cap payload = 1020) by (by subst payload).
  pose proof (lookup_lt_Some _ _ _ HP0) as Hlt.
  subst P txt. rewrite HP in *.
  assert (Hv : index payload 0 = Some v)
    by (rewrite index_within by lia; done).
  unfold Decode. rewrite (bind_run _ _ _ _ _ Hh). cbv beta iota.
  unfold decodeProtocolVersion. fwd_red. rewrite Hv. cbv beta iota.
  rewrite (proj2 (byte_eqb_false _ _) Hne). cbn [negb].
  rewrite elems_buffer. fold off.
  case_bool_decide as Hle.
  - rewrite sub_within by lia.
    rewrite take_ge by (rewrite length_drop; lia).
    destruct (Contains _ accessDeniedText); [done |].
    by destruct (Byte.eqb v x09).
  - unfold sub, reslice. rewrite bool_decide_eq_false_2 by lia. done.
Qed.

Lemma other_version_outcome_witness :
  declaredPayload (ConnData version9Probe) !! 0%nat = Some x09 /\
  x09 <> x0a /\
  IndexByte (padded version9Probe) x00 + 1 = 2 /\
  fst (Decode (ConnData version9Probe) freshFrame)
  = Err (string_of_list_byte
           (drop 2 (declaredPayload (ConnData version9Probe)))).
Proof.
  assert (H0 : declaredPayload (ConnData version9Probe) !! 0%nat = Some x09)
    by (vm_compute; reflexivity).
  assert (Hne : x09 <> x0a) by discriminate.
  split; [exact H0 |]. split; [exact Hne |].
  split; [vm_compute; reflexivity |].
  destruct (other_version_outcome version9Probe freshFrame x09 H0 Hne)
    as [_ H].
  rewrite H. vm_compute. reflexivity.
Defined.

Lemma find_byte_app c (l k : list byte) :
  c ∉ l -> find_byte c (l ++ c :: k) = Some (length l).
Proof.
  induction l as [| x l IH]; intros Hc; cbn [find_byte app length].
  - by rewrite (Byte.byte_dec_lb eq_refl).
  - apply not_elem_of_cons in Hc as [Hne Hc].
    rewrite (proj2 (byte_eqb_false x c)) by done.
    by rewrite IH.
Qed.

Lemma handshakePayload_layout sv cid p1 c0 c1 cs s0 s1 c2 c3 alen reserved
    rest :
  x00 ∉ sv -> length cid = 4%nat -> length p1 = 8%nat ->
  length reserved = 10%nat ->
  let P := handshakePayload sv cid p1 c0 c1 cs s0 s1 c2 c3 alen reserved rest in
  let idx := S (length sv) in
  P !! 0%nat = Some x0a /\
  find_byte x00 P = Some idx /\
  take (idx - 1) (drop 1 P) = sv /\
  take 4 (drop (idx + 1) P) = cid /\
  take 8 (drop (idx + 5) P) = p1 /\
  P !! (idx + 13)%nat = Some x00 /\
  P !! (idx + 14)%nat = Some c0 /\ P !! (idx + 15)%nat = Some c1 /\
  P !! (idx + 16)%nat = Some cs /\
  take 2 (drop (idx + 17) P) = [s0; s1] /\
  P !! (idx + 19)%nat = Some c2 /\ P !! (idx + 20)%nat = Some c3 /\
  P !! (idx + 21)%nat = Some alen /\
  drop (idx + 32) P = rest /\
  length P = (idx + 32 + length rest)%nat.
Proof.
  intros Hsv Hcid Hp1 Hres P idx.
  destruct cid as [| i0 [| i1 [| i2 [| i3 [| ? ?]]]]]; try discriminate Hcid.
  destruct p1 as [| a0 [| a1 [| a2 [| a3 [| a4 [| a5 [| a6 [| a7 [| ? ?]]]]]]]]];
    try discriminate Hp1.
  destruct reserved
    as [| r0 [| r1 [| r2 [| r3 [| r4 [| r5 [| r6 [| r7 [| r8 [| r9 [| ? ?]]]]]]]]]]];
    try discriminate Hres.
  set (R := [i0; i1; i2; i3; a0; a1; a2; a3; a4; a5; a6; a7; x00; c0; c1; cs;
             s0; s1; c2; c3; alen; r0; r1; r2; r3; r4; r5; r6; r7; r8; r9]
            ++ rest).
  assert (HP : P = (x0a :: sv) ++ x00 :: R) by done.
  assert (HR : forall j k, j = (idx + 1 + k)%nat -> drop j P = drop k R).
  { intros j k ->. rewrite HP.
    replace (idx + 1 + k)%nat with (length (x0a :: sv) + S k)%nat
      by (cbn [length]; lia).
    by rewrite drop_app_add. }
  assert (Hl : forall j k, j = (idx + 1 + k)%nat -> P !! j = R !! k).
  { intros j k Hj.
    by rewrite <- (Nat.add_0_r j), <- lookup_drop, (HR j k Hj), lookup_drop,
      Nat.add_0_r. }
  split; [done |].
  split.
  { rewrite HP. cbn [app find_byte].
    change (Byte.eqb x0a x00) with false. cbv iota.
    by rewrite find_byte_app. }
  split.
  { rewrite HP. cbn [app drop]. rewrite drop_0.
    replace (idx - 1)%nat with (length sv) by lia.
    by rewrite take_app_length. }
  split; [by rewrite (HR _ 0%nat) by lia |].
  split; [by rewrite (HR _ 4%nat) by lia |].
  split; [by rewrite (Hl _ 12%nat) by lia |].
  split; [by rewrite (Hl _ 13%nat) by lia |].
  split; [by rewrite (Hl _ 14%nat) by lia |].
  split; [by rewrite (Hl _ 15%nat) by lia |].
  split; [by rewrite (HR _ 16%nat) by lia |].
  split; [by rewrite (Hl _ 18%nat) by lia |].
  split; [by rewrite (Hl _ 19%nat) by lia |].
  split; [by rewrite (Hl _ 20%nat) by lia |].
  split; [by rewrite (HR _ 31%nat) by lia |].
  rewrite HP, length_app. cbn [length]. unfold R.
  rewrite length_app. cbn [length]. lia.
Qed.

(** * Decoding a well-formed payload *)

(** X9. A payload laid out as [handshakePayload] -- version 10, a server
    version without NUL bytes and its terminator, four bytes of connection
    id, eight of part 1, a zero filler, the lower capability half, the
    character set, the status flags, the upper capability half, the length
    byte (not zero when PLUGIN_AUTH is set), ten reserved bytes of any value,
    and a rest that is long enough for part 2 when SECURE_CONNECTION is set
    -- is decoded without error, and every field of the receiver gets the
    value the payload was built from. *)
Theorem Decode_handshakePayload conn s sv cid p1 c0 c1 cs s0 s1 c2 c3 alen
    reserved rest :
  let caps := capabilities (le16 c0 c1) (le16 c2 c3) in
  let len := if CapabilityFlag.Has caps clientPluginAuth
             then alen else AuthPluginDataLen (r s) in
  let n := if CapabilityFlag.Has caps clientSecureConn
           then Z.to_nat (Max 13 (u8 len - 8)) else 0%nat in
  declaredPayload conn
  = handshakePayload sv cid p1 c0 c1 cs s0 s1 c2 c3 alen reserved rest ->
  x00 ∉ sv -> length cid = 4%nat -> length p1 = 8%nat ->
  length reserved = 10%nat ->
  (CapabilityFlag.Has caps clientPluginAuth = true -> alen <> x00) ->
  (n <= length rest)%nat ->
  let s' := snd (Decode conn s) in
  fst (Decode conn s) = Val tt /\
  ProtocolVersion (r s') = x0a /\
  ServerVersion (r s') = sv /\
  Uint32 cid = Some (ConnectionId (r s')) /\
  AuthPluginData (r s') = p1 ++ take n rest /\
  Filler (r s') = x00 /\
  CapabilitiesFlags (r s') = caps /\
  CharacterSet (r s') = cs /\
  StatusFlags (r s') = le16 s0 s1 /\
  AuthPluginDataLen (r s') = len /\
  AuthPluginName (r s') = untilNul (drop n rest) /\
  position s' = Z.of_nat (length sv) + 33 + Z.of_nat n.
Proof.
  intros caps len n HP Hsv Hcid Hp1 Hres Hne Hn s'.
  destruct (handshakePayload_layout sv cid p1 c0 c1 cs s0 s1 c2 c3 alen
              reserved rest Hsv Hcid Hp1 Hres)
    as (L0 & Lf & Lsv & Lcid & Lp1 & Lfil & Lc0 & Lc1 & Lcs & Lsf & Lc2 & Lc3
        & Lal & Lrest & Llen).
  cbv zeta in *. rewrite <- HP in *. clear HP.
  set (P := declaredPayload conn) in *.
  set (idx := S (length sv)) in *.
  pose proof (Max_13_pos (u8 len - 8)) as HM.
  assert (Hacc : fst (Decode conn s) = Val tt).
  { apply (Decode_accepts conn s idx c0 c1 c2 c3 len); try done.
    - fold caps. subst len.
      destruct (CapabilityFlag.Has caps clientPluginAuth) eqn:Hpa; [| done].
      split; [done | by apply Hne].
    - fold caps P. rewrite Llen. subst n.
      destruct (CapabilityFlag.Has caps clientSecureConn); lia. }
  split; [done |].
  apply fst_val in Hacc. fold s' in Hacc.
  destruct (Decode_val _ _ _ Hacc)
    as (payload & hdr & idx' & Hh & _ & HL & Hlen & HP0 & Hf & Hpv & Hsrv
        & Hid & Hfl & _ & (b0 & b1 & b2 & b3 & H0 & H1 & H2 & H3 & Hc) & Hchs
        & Hsf & Hpa & Hapd & _ & _ & Hpos & _ & Hname & _).
  cbv zeta in *.
  rewrite <- (declaredPayload_eq _ _ _ _ _ _ Hh) in *. fold P in Hf, Hsrv,
    Hid, H0, H1, H2, H3, Hchs, Hsf, Hpa, Hapd, Hname.
  assert (idx' = idx) as -> by congruence.
  assert (Hcaps : CapabilitiesFlags (r s') = caps).
  { rewrite Hc. subst caps.
    rewrite capabilities_halves by apply le16_range. congruence. }
  assert (Hal : AuthPluginDataLen (r s') = len).
  { rewrite Hcaps in Hpa. subst len.
    change (negb (Z.land caps clientPluginAuth =? 0))
      with (CapabilityFlag.Has caps clientPluginAuth) in Hpa.
    destruct (CapabilityFlag.Has caps clientPluginAuth); [| done].
    destruct Hpa as [Hpa _]. congruence. }
  rewrite Hcaps, Hal in Hapd, Hpos.
  change (negb (Z.land caps clientSecureConn =? 0))
    with (CapabilityFlag.Has caps clientSecureConn) in Hapd, Hpos.
  assert (Hnn : Z.to_nat (if CapabilityFlag.Has caps clientSecureConn
                          then Max 13 (u8 len - 8) else 0) = n).
  { subst n. by destruct (CapabilityFlag.Has caps clientSecureConn). }
  assert (Hnz : (if CapabilityFlag.Has caps clientSecureConn
                 then Max 13 (u8 len - 8) else 0) = Z.of_nat n).
  { subst n. destruct (CapabilityFlag.Has caps clientSecureConn); lia. }
  split; [done |]. split; [congruence |].
  split; [by rewrite <- Lcid |].
  split; [by rewrite Hapd, Hnn, Lp1, Lrest |].
  split; [done |]. split; [done |]. split; [congruence |].
  split.
  { rewrite Lsf in Hsf. rewrite Uint16_le16 in Hsf. congruence. }
  split; [done |].
  split.
  - rewrite Hname, Hpos, Hnz.
    replace (Z.to_nat (Z.of_nat idx + 32 + Z.of_nat n))
      with (idx + 32 + n)%nat by lia.
    by rewrite <- drop_drop, Lrest.
  - rewrite Hpos, Hnz. lia.
Qed.

Lemma Decode_handshakePayload_witness :
  let rcv := r (snd (Decode (ConnData sampleHandshake) freshFrame)) in
  fst (Decode (ConnData sampleHandshake) freshFrame) = Val tt /\
  ServerVersion rcv = list_byte_of_string "8.0.32" /\
  Uint32 [x19; x00; x00; x00] = Some (ConnectionId rcv) /\
  CharacterSet rcv = xff /\
  AuthPluginDataLen rcv = x15 /\
  AuthPluginData rcv = list_byte_of_string "abcdefghijklmnopqrst" ++ [x00] /\
  AuthPluginName rcv = list_byte_of_string "caching_sha2_password".
Proof.
  intros rcv.
  destruct (Decode_handshakePayload (ConnData sampleHandshake) freshFrame
              (list_byte_of_string "8.0.32") [x19; x00; x00; x00]
              (list_byte_of_string "abcdefgh") xff xff xff x02 x00 xff xdf x15
              (replicate 10 x00)
              (list_byte_of_string "ijklmnopqrst" ++ [x00] ++
               list_byte_of_string "caching_sha2_password" ++ [x00]))
    as (Hok & _ & Hsv & Hid & Hapd & _ & _ & Hcs & _ & Hlen & Hname & _).
  - vm_compute. reflexivity.
  - apply find_byte_None. reflexivity.
  - reflexivity.
  - reflexivity.
  - reflexivity.
  - intros _. discriminate.
  - vm_compute. lia.
  - split; [exact Hok |]. split; [exact Hsv |]. split; [exact Hid |].
    split; [exact Hcs |]. split; [exact Hlen |].
    split; [exact Hapd | exact Hname].
Defined.

(** A successful decode is a function of the payload, the stored header and
    the receiver it started from. *)
Lemma Decode_val_determined conn conn' s s0 s1 s2 :
  Decode conn s = (Val tt, s1) -> Decode conn' s0 = (Val tt, s2) ->
  declaredPayload conn = declaredPayload conn' ->
  header (r s1) = header (r s2) ->
  AuthPluginDataLen (r s) = AuthPluginDataLen (r s0) ->
  s1 = s2.
Proof.
  intros H1 H2 HP Hhdr Hprev.
  destruct (Decode_val _ _ _ H1)
    as (payload & hdr & idx & Hh & _ & _ & _ & _ & Hf & Hpv & Hsrv
        & Hid & Hfl & _ & (b0 & b1 & b2 & b3 & B0 & B1 & B2 & B3 & Hc) & Hchs
        & Hsf & Hpa & Hapd & _ & _ & Hpos & _ & Hname & _).
  destruct (Decode_val _ _ _ H2)
    as (payload' & hdr' & idx' & Hh' & _ & _ & _ & _ & Hf' & Hpv' & Hsrv'
        & Hid' & Hfl' & _ & (b0' & b1' & b2' & b3' & B0' & B1' & B2' & B3'
        & Hc') & Hchs' & Hsf' & Hpa' & Hapd' & _ & _ & Hpos' & _ & Hname'
        & _).
  cbv zeta in *.
  rewrite <- (declaredPayload_eq _ _ _ _ _ _ Hh) in *.
  rewrite <- (declaredPayload_eq _ _ _ _ _ _ Hh') in *.
  rewrite <- HP in *.
  assert (idx' = idx) as -> by congruence.
  assert (Ecaps : CapabilitiesFlags (r s1) = CapabilitiesFlags (r s2))
    by congruence.
  assert (Elen : AuthPluginDataLen (r s1) = AuthPluginDataLen (r s2)).
  { rewrite <- Ecaps in Hpa'.
    destruct (negb (Z.land (CapabilitiesFlags (r s1)) clientPluginAuth =? 0)).
    - destruct Hpa as [Hpa _], Hpa' as [Hpa' _]. congruence.
    - congruence. }
  rewrite <- Ecaps, <- Elen in Hapd', Hpos'.
  assert (Epos : position s1 = position s2) by congruence.
  rewrite <- Epos in Hname'.
  destruct s1 as [[v1 sv1 id1 d1 f1 c1 cs1 sf1 l1 n1 h1] p1],
           s2 as [[v2 sv2 id2 d2 f2 c2 cs2 sf2 l2 n2 h2] p2].
  cbn [r position ProtocolVersion ServerVersion ConnectionId AuthPluginData
         Filler CapabilitiesFlags CharacterSet StatusFlags AuthPluginDataLen
         AuthPluginName header] in *.
  f_equal; [f_equal |]; congruence.
Qed.

Lemma declaredPayload_nonempty rx b :
  declaredPayload (ConnData rx) !! 0%nat = Some b -> headerLength rx <= 1020.
Proof.
  intros H. destruct (decodeHeader_padded rx freshFrame) as [_ Hrun].
  cbv zeta in Hrun. unfold declaredPayload in H. rewrite Hrun in H.
  destruct (1024 <=? headerLength rx); [done |].
  by case_bool_decide.
Qed.

Lemma padded_app_header rx t :
  (4 <= length rx)%nat ->
  headerLength (rx ++ t) = headerLength rx /\
  headerSequenceId (rx ++ t) = headerSequenceId rx.
Proof.
  intros Hl. destruct rx as [| a [| b [| c [| d rx]]]];
    cbn [length] in Hl; try lia.
  done.
Qed.

(** * What a successful decode depends on *)

(** X10. When [Decode] returns nil and the read delivered the whole packet,
    whatever the same read delivered after the packet changes nothing: the
    outcome, the cursor and the receiver are the same. *)
Theorem trailing_bytes_ignored rx t s :
  fst (Decode (ConnData rx) s) = Val tt ->
  headerLength rx + 4 <= Z.of_nat (length rx) ->
  Decode (ConnData (rx ++ t)) s = Decode (ConnData rx) s.
Proof.
  intros Hok Hlen.
  pose proof (Decode_nil_inv _ _ Hok)
    as (idx & b0 & b1 & b2 & b3 & alen & Hex).
  cbv zeta in Hex. pose proof Hex as (HP0 & _).
  pose proof (declaredPayload_nonempty _ _ HP0) as HL.
  destruct (decodeHeader_padded rx s) as [HL0 Hrun]. cbv zeta in Hrun.
  destruct (padded_app_header rx t ltac:(lia)) as [EL Eq].
  assert (EP : declaredPayload (ConnData (rx ++ t))
               = declaredPayload (ConnData rx)).
  { rewrite (declaredPayload_padded rx HL).
    rewrite (declaredPayload_padded (rx ++ t)) by (by rewrite EL).
    rewrite EL, <- !app_assoc.
    rewrite !(drop_app_le rx) by lia.
    by rewrite !take_app_le by (rewrite length_drop; lia). }
  assert (Hok' : fst (Decode (ConnData (rx ++ t)) s) = Val tt).
  { rewrite <- EP in Hex.
    destruct Hex as (E0 & Ef & Efil & E1 & E2 & E3 & E4 & Epa & Ele).
    by apply (Decode_accepts _ s idx b0 b1 b2 b3 alen). }
  apply fst_val in Hok, Hok'.
  rewrite Hok. rewrite Hok' at 1. f_equal.
  apply (Decode_val_determined _ _ _ _ _ _ Hok' Hok EP); [| done].
  destruct (Decode_val _ _ _ Hok) as (p & h & i & Hh & Hrest).
  destruct (Decode_val _ _ _ Hok') as (p' & h' & i' & Hh' & Hrest').
  cbv zeta in Hrest, Hrest'.
  assert (Hhd : header (r (snd (Decode (ConnData rx) s))) = Some h)
    by (by repeat match type of Hrest with _ /\ _ =>
             destruct Hrest as [_ Hrest] end).
  assert (Hhd' : header (r (snd (Decode (ConnData (rx ++ t)) s))) = Some h')
    by (by repeat match type of Hrest' with _ /\ _ =>
             destruct Hrest' as [_ Hrest'] end).
  rewrite Hhd, Hhd'.
  destruct (decodeHeader_padded (rx ++ t) s) as [_ Hrun']. cbv zeta in Hrun'.
  rewrite EL, Eq in Hrun'.
  rewrite (proj2 (Z.leb_gt _ _)) in Hrun, Hrun' by lia.
  rewrite bool_decide_eq_true_2 in Hrun, Hrun' by lia.
  congruence.
Qed.

Lemma trailing_bytes_ignored_witness :
  fst (Decode (ConnData sampleHandshake) freshFrame) = Val tt /\
  headerLength sampleHandshake + 4 = Z.of_nat (length sampleHandshake) /\
  Decode (ConnData (sampleHandshake ++ [x01; x02; x03])) freshFrame
  = Decode (ConnData sampleHandshake) freshFrame.
Proof.
  assert (Hok : fst (Decode (ConnData sampleHandshake) freshFrame) = Val tt)
    by (vm_compute; reflexivity).
  assert (E : headerLength sampleHandshake + 4
              = Z.of_nat (length sampleHandshake))
    by (vm_compute; reflexivity).
  split; [exact Hok |]. split; [exact E |].
  apply (trailing_bytes_ignored sampleHandshake [x01; x02; x03] freshFrame Hok).
  rewrite E. lia.
Defined.

(** X11. A successful decode overwrites the receiver: started from two
    receivers and cursors that agree on [AuthPluginDataLen] only, [Decode]
    returns nil on both with the same record and the same cursor. (Without
    PLUGIN_AUTH the old [AuthPluginDataLen] is kept and decides the length of
    part 2, which is why it has to agree.) *)
Theorem success_overwrites_receiver conn s s0 :
  AuthPluginDataLen (r s0) = AuthPluginDataLen (r s) ->
  fst (Decode conn s) = Val tt ->
  Decode conn s0 = Decode conn s.
Proof.
  intros Hprev Hok.
  assert (Hok0 : fst (Decode conn s0) = Val tt).
  { destruct (Decode_nil_inv _ _ Hok)
      as (idx & b0 & b1 & b2 & b3 & alen & E0 & Ef & Efil & E1 & E2 & E3 & E4
          & Epa & Ele).
    cbv zeta in *. rewrite <- Hprev in Epa.
    by apply (Decode_accepts _ s0 idx b0 b1 b2 b3 alen). }
  apply fst_val in Hok, Hok0. rewrite Hok. rewrite Hok0 at 1. f_equal.
  apply (Decode_val_determined _ _ _ _ _ _ Hok0 Hok eq_refl); [| done].
  destruct (Decode_val _ _ _ Hok) as (p & h & i & Hh & Hrest).
  destruct (Decode_val _ _ _ Hok0) as (p' & h' & i' & Hh' & Hrest').
  cbv zeta in Hrest, Hrest'.
  assert (Hhd : header (r (snd (Decode conn s))) = Some h)
    by (by repeat match type of Hrest with _ /\ _ =>
             destruct Hrest as [_ Hrest] end).
  assert (Hhd' : header (r (snd (Decode conn s0))) = Some h')
    by (by repeat match type of Hrest' with _ /\ _ =>
             destruct Hrest' as [_ Hrest'] end).
  rewrite Hhd, Hhd'.
  pose proof (decodeHeader_frame conn s s0) as Hfr.
  rewrite Hh, Hh' in Hfr. cbn [fst] in Hfr. congruence.
Qed.

Lemma success_overwrites_receiver_witness :
  AuthPluginDataLen (r usedFrame) = AuthPluginDataLen (r freshFrame) /\
  fst (Decode (ConnData sampleLegacy) freshFrame) = Val tt /\
  Decode (ConnData sampleLegacy) usedFrame
  = Decode (ConnData sampleLegacy) freshFrame.
Proof.
  assert (Hprev : AuthPluginDataLen (r usedFrame)
                  = AuthPluginDataLen (r freshFrame)) by reflexivity.
  assert (Hok : fst (Decode (ConnData sampleLegacy) freshFrame) = Val tt)
    by (vm_compute; reflexivity).
  split; [exact Hprev |]. split; [exact Hok |].
  exact (success_overwrites_receiver (ConnData sampleLegacy) freshFrame
           usedFrame Hprev Hok).
Defined.

Lemma Uint32_range l v : Uint32 l = Some v -> 0 <= v < 2 ^ 32.
Proof.
  destruct l as [| a [| b [| c [| d l]]]]; try discriminate.
  cbn [Uint32]. intros [= <-]. apply Z.mod_pos_bound. lia.
Qed.

Lemma Uint16_range l v : Uint16 l = Some v -> 0 <= v < 2 ^ 16.
Proof.
  destruct l as [| a [| b l]]; try discriminate.
  cbn [Uint16]. intros [= <-]. apply Z.mod_pos_bound. lia.
Qed.

(** X12. The record of a successful decode: the protocol version is 10 and
    the filler 0, neither the server version nor the plugin name holds a NUL
    byte, the integers are within their Go types, the auth-plugin-data
    length is not zero under PLUGIN_AUTH, and the auth-plugin-data has 8
    bytes, or 8 + Max 13 (AuthPluginDataLen - 8) -- between 21 and 255 --
    under SECURE_CONNECTION. *)
Theorem decoded_record_invariants conn s s' :
  Decode conn s = (Val tt, s') ->
  let p := r s' in
  ProtocolVersion p = x0a /\ Filler p = x00 /\
  (x00 ∉ ServerVersion p) /\ (x00 ∉ AuthPluginName p) /\
  0 <= ConnectionId p < 2 ^ 32 /\
  0 <= StatusFlags p < 2 ^ 16 /\
  0 <= CapabilitiesFlags p < 2 ^ 32 /\
  (CapabilityFlag.Has (CapabilitiesFlags p) clientPluginAuth = true ->
   AuthPluginDataLen p <> x00) /\
  (if CapabilityFlag.Has (CapabilitiesFlags p) clientSecureConn
   then 21 <= Z.of_nat (length (AuthPluginData p)) <= 255 /\
        Z.of_nat (length (AuthPluginData p))
        = 8 + Max 13 (u8 (AuthPluginDataLen p) - 8)
   else length (AuthPluginData p) = 8%nat).
Proof.
  intros H.
  destruct (Decode_val _ _ _ H)
    as (payload & hdr & idx & Hh & _ & _ & _ & _ & Hf & Hpv & Hsrv
        & Hid & Hfl & _ & (b0 & b1 & b2 & b3 & B0 & B1 & B2 & B3 & Hc) & _
        & Hsf & Hpa & Hapd & Hl1 & Hl2 & _ & _ & Hname & _).
  cbv zeta in *.
  split; [done |]. split; [done |].
  split.
  { rewrite Hsrv. intros Hin.
    apply list_elem_of_lookup_1 in Hin as [j Hj].
    apply find_byte_Some in Hf as [_ Hf].
    pose proof (lookup_lt_Some _ _ _ Hj) as Hlt. rewrite length_take in Hlt.
    rewrite lookup_take_lt, lookup_drop in Hj by lia.
    apply (Hf (1 + j)%nat); [lia | done]. }
  split; [rewrite Hname; apply untilNul_no_nul |].
  split; [by eapply Uint32_range |].
  split; [by eapply Uint16_range |].
  split.
  { rewrite Hc. pose proof (le16_range b0 b1). pose proof (le16_range b2 b3).
    pose proof (shiftl_bound (le16 b2 b3) 16 16).
    apply lor_bound; lia. }
  split.
  { unfold CapabilityFlag.Has. intros Hp. rewrite Hp in Hpa. by destruct Hpa. }
  unfold CapabilityFlag.Has. rewrite Hapd, length_app, Hl1, Hl2.
  destruct (negb (Z.land (CapabilitiesFlags (r s')) clientSecureConn =? 0));
    [| done].
  pose proof (u8_range (AuthPluginDataLen (r s'))).
  unfold Max. destruct (13 >? u8 (AuthPluginDataLen (r s')) - 8) eqn:E; lia.
Qed.

Lemma decoded_record_invariants_witness :
  let s' := snd (Decode (ConnData sampleHandshake) freshFrame) in
  Decode (ConnData sampleHandshake) freshFrame = (Val tt, s') /\
  (x00 ∉ ServerVersion (r s')) /\
  0 <= ConnectionId (r s') < 2 ^ 32 /\
  AuthPluginDataLen (r s') <> x00 /\
  Z.of_nat (length (AuthPluginData (r s'))) = 8 + 13.
Proof.
  intros s'.
  assert (Hrun : Decode (ConnData sampleHandshake) freshFrame = (Val tt, s'))
    by (vm_compute; reflexivity).
  split; [exact Hrun |].
  destruct (decoded_record_invariants _ _ _ Hrun)
    as (_ & _ & Hsv & _ & Hid & _ & _ & Hpa & Hapd).
  split; [exact Hsv |]. split; [exact Hid |].
  split; [apply Hpa; vm_compute; reflexivity |].
  change (CapabilityFlag.Has (CapabilitiesFlags (r s')) clientSecureConn)
    with true in Hapd.
  change (Max 13 (u8 (AuthPluginDataLen (r s')) - 8)) with 13 in Hapd.
  exact (proj2 Hapd).
Defined.

(** * Capability flags *)

Lemma land_bit_nonzero (x k : Z) :
  0 <= k -> negb (Z.land x (Z.shiftl 1 k) =? 0) = Z.testbit x k.
Proof.
  intros Hk. rewrite Z.shiftl_1_l.
  destruct (Z.testbit x k) eqn:Hb.
  - apply negb_true_iff, Z.eqb_neq. intros H0.
    assert (Hx : Z.testbit (Z.land x (2 ^ k)) k = false)
      by (rewrite H0; apply Z.bits_0).
    rewrite Z.land_spec, Hb, Z.pow2_bits_true in Hx by lia. done.
  - apply negb_false_iff, Z.eqb_eq. apply Z.bits_inj'. intros n Hn.
    rewrite Z.land_spec, Z.bits_0, Z.pow2_bits_eqb by lia.
    destruct (Z.eqb_spec k n) as [<- | Hne];
      [by rewrite Hb | apply andb_false_r].
Qed.

(** X13. For a flag of one bit, [1 << k], [Has] is the test of bit [k] of
    the receiver. *)
Theorem Has_single_bit (x k : Z) :
  0 <= k -> CapabilityFlag.Has x (Z.shiftl 1 k) = Z.testbit x k.
Proof. apply land_bit_nonzero. Qed.

(** X14. For a mask of several flags [Has] answers whether any of them is
    set, not whether all are. *)
Theorem Has_union (r a b : Z) :
  CapabilityFlag.Has r (Z.lor a b)
  = CapabilityFlag.Has r a || CapabilityFlag.Has r b.
Proof.
  unfold CapabilityFlag.Has. rewrite Z.land_lor_distr_r.
  destruct (Z.eqb_spec (Z.land r a) 0) as [Ha | Ha],
           (Z.eqb_spec (Z.land r b) 0) as [Hb | Hb]; cbn.
  - rewrite Ha, Hb. reflexivity.
  - apply negb_true_iff, Z.eqb_neq. rewrite Z.lor_eq_0_iff. tauto.
  - apply negb_true_iff, Z.eqb_neq. rewrite Z.lor_eq_0_iff. tauto.
  - apply negb_true_iff, Z.eqb_neq. rewrite Z.lor_eq_0_iff. tauto.
Qed.

Lemma Has_single_bit_witness :
  0 <= 2 /\ CapabilityFlag.Has 5 (Z.shiftl 1 2) = Z.testbit 5 2.
Proof.
  assert (Hk : 0 <= 2) by lia.
  split; [exact Hk | exact (Has_single_bit 5 2 Hk)].
Defined.

Lemma testbit_small a n k : 0 <= a < 2 ^ n -> n <= k -> Z.testbit a k = false.
Proof.
  intros Ha Hk. destruct (Z.eq_dec a 0) as [-> | Hne]; [apply Z.bits_0 |].
  apply Z.bits_above_log2; [lia |].
  assert (Z.log2 a < n) by (apply Z.log2_lt_pow2; lia). lia.
Qed.

(** X15. Flag [1 << k] of the combined capability flags is bit [k] of the
    lower half for [k < 16] and bit [k - 16] of the upper half from 16 on:
    SECURE_CONNECTION (bit 15) comes from the lower half, PLUGIN_AUTH (bit 19)
    from bit 3 of the upper half. *)
Theorem capabilities_flag_of_halves lo hi k :
  0 <= lo < 2 ^ 16 -> 0 <= hi < 2 ^ 16 -> 0 <= k ->
  CapabilityFlag.Has (capabilities lo hi) (Z.shiftl 1 k)
  = if k <? 16 then Z.testbit lo k else Z.testbit hi (k - 16).
Proof.
  intros Hlo Hhi Hk. unfold CapabilityFlag.Has.
  rewrite land_bit_nonzero by done. rewrite capabilities_halves by done.
  rewrite Z.lor_spec. destruct (Z.ltb_spec k 16) as [Hlt | Hge].
  - rewrite Z.shiftl_spec_low by lia. apply orb_false_r.
  - rewrite Z.shiftl_spec by lia. rewrite (testbit_small lo 16 k) by lia. done.
Qed.

Lemma capabilities_flag_of_halves_witness :
  CapabilityFlag.Has (capabilities 32768 8) clientPluginAuth = Z.testbit 8 3 /\
  CapabilityFlag.Has (capabilities 32768 8) clientSecureConn
  = Z.testbit 32768 15.
Proof.
  assert (Hlo : 0 <= 32768 < 2 ^ 16) by lia.
  assert (Hhi : 0 <= 8 < 2 ^ 16) by lia.
  split.
  - exact (capabilities_flag_of_halves 32768 8 19 Hlo Hhi ltac:(lia)).
  - exact (capabilities_flag_of_halves 32768 8 15 Hlo Hhi ltac:(lia)).
Defined.

(** X16. The keys of the [flags] table are exactly the 25 single-bit values
    [1 << 0] to [1 << 24]: of the 32 values that [String] tries, the seven
    from [1 << 25] on have no name. *)
Theorem flags_keys (v : Z) :
  is_Some (flags !! v) <-> exists k, 0 <= k < 25 /\ v = Z.shiftl 1 k.
Proof.
  split.
  - intros [name H]. unfold flags in H.
    apply elem_of_list_to_map_2 in H.
    repeat (apply elem_of_cons in H as [H | H];
            [injection H as -> _; eexists; split; [| reflexivity]; lia |]).
    by apply elem_of_nil in H.
  - intros (k & Hk & ->).
    assert (Hc : k = 0 \/ k = 1 \/ k = 2 \/ k = 3 \/ k = 4 \/ k = 5 \/ k = 6 \/
                 k = 7 \/ k = 8 \/ k = 9 \/ k = 10 \/ k = 11 \/ k = 12 \/
                 k = 13 \/ k = 14 \/ k = 15 \/ k = 16 \/ k = 17 \/ k = 18 \/
                 k = 19 \/ k = 20 \/ k = 21 \/ k = 22 \/ k = 23 \/ k = 24)
      by lia.
    repeat (destruct Hc as [-> | Hc]; [vm_compute; eauto |]).
    subst k. vm_compute. eauto.
Qed.

(** * The report *)

Lemma lineBreaks_app (a b : string) :
  lineBreaks (a ++ b) = (lineBreaks a + lineBreaks b)%nat.
Proof.
  induction a as [| c a IH]; simpl; [done |].
  rewrite IH. lia.
Qed.

Lemma digitChar_no_break d : Ascii.eqb (digitChar d) (ascii_of_nat 10) = false.
Proof.
  unfold digitChar. generalize (Z.to_nat d). intros n.
  do 17 (destruct n as [| n]; [reflexivity |]). reflexivity.
Qed.

Lemma lineBreaks_formatBase fuel base x acc :
  lineBreaks (formatBase fuel base x acc) = lineBreaks acc.
Proof.
  revert x acc. induction fuel as [| fuel IH]; intros x acc; [done |].
  cbn [formatBase]. cbv zeta.
  destruct (x / base =? 0).
  - cbn [lineBreaks]. by rewrite digitChar_no_break.
  - rewrite IH. cbn [lineBreaks]. by rewrite digitChar_no_break.
Qed.

Lemma lineBreaks_fmt_d x : lineBreaks (fmt_d x) = 0%nat.
Proof. unfold fmt_d. by rewrite lineBreaks_formatBase. Qed.

(** X17. The report of [GetPacketInfo] has a line break after each of its
    first seven fields and, apart from these, exactly the line breaks that
    the server version and the plugin name hold: the numbers never add one,
    and the two texts taken from the server are printed as they are. *)
Theorem GetPacketInfo_lines packet :
  lineBreaks (GetPacketInfo packet)
  = (7 + lineBreaks (string_of_list_byte (ServerVersion packet))
     + lineBreaks (string_of_list_byte (AuthPluginName packet)))%nat.
Proof.
  unfold GetPacketInfo. cbn [Join].
  rewrite !lineBreaks_app, !lineBreaks_fmt_d.
  change (lineBreaks newline) with 1%nat.
  change (lineBreaks "Protocol version: ") with 0%nat.
  change (lineBreaks "Server version: ") with 0%nat.
  change (lineBreaks "Connection ID: ") with 0%nat.
  change (lineBreaks "Auth Plugin Data Len: ") with 0%nat.
  change (lineBreaks "Authentication plugin name: ") with 0%nat.
  change (lineBreaks "Status flags: ") with 0%nat.
  change (lineBreaks "Capability flag: ") with 0%nat.
  change (lineBreaks "Character set: ") with 0%nat.
  lia.
Qed.

(** * The receiver after an error *)

(** Bring the offsets of the field steps to the form [idx + k]. *)
Ltac norm_to_nat idx :=
  repeat match goal with
    | |- context [Z.to_nat ?k] =>
        first [ replace (Z.to_nat k) with 1%nat by lia
              | replace (Z.to_nat k) with 2%nat by lia
              | replace (Z.to_nat k) with 4%nat by lia
              | replace (Z.to_nat k) with 8%nat by lia
              | replace (Z.to_nat k) with (idx - 1)%nat by lia
              | replace (Z.to_nat k) with (idx + 1)%nat by lia
              | replace (Z.to_nat k) with (idx + 5)%nat by lia
              | replace (Z.to_nat k) with (idx + 13)%nat by lia
              | replace (Z.to_nat k) with (idx + 14)%nat by lia
              | replace (Z.to_nat k) with (idx + 16)%nat by lia
              | replace (Z.to_nat k) with (idx + 17)%nat by lia
              | replace (Z.to_nat k) with (idx + 19)%nat by lia
              | replace (Z.to_nat k) with (idx + 21)%nat by lia ]
    | H : context [Z.to_nat ?k] |- _ =>
        first [ replace (Z.to_nat k) with 1%nat in H by lia
              | replace (Z.to_nat k) with 2%nat in H by lia
              | replace (Z.to_nat k) with 4%nat in H by lia
              | replace (Z.to_nat k) with 8%nat in H by lia
              | replace (Z.to_nat k) with (idx - 1)%nat in H by lia
              | replace (Z.to_nat k) with (idx + 1)%nat in H by lia
              | replace (Z.to_nat k) with (idx + 5)%nat in H by lia
              | replace (Z.to_nat k) with (idx + 13)%nat in H by lia
              | replace (Z.to_nat k) with (idx + 14)%nat in H by lia
              | replace (Z.to_nat k) with (idx + 16)%nat in H by lia
              | replace (Z.to_nat k) with (idx + 17)%nat in H by lia
              | replace (Z.to_nat k) with (idx + 19)%nat in H by lia
              | replace (Z.to_nat k) with (idx + 21)%nat in H by lia ]
    end.

(** An error of the field steps, with the receiver it leaves: every field
    written so far holds the bytes of the payload it was parsed from. *)
Lemma decodeFields_err_fields payload s e s1 :
  0 <= s_off payload -> position s = 1 ->
  decodeFields payload s = (Err e, s1) ->
  let P := elems payload in
  let old := r s in
  exists (idx : nat) id f,
    find_byte x00 P = Some idx /\
    Uint32 (take 4 (drop (idx + 1) P)) = Some id /\
    length (take 8 (drop (idx + 5) P)) = 8%nat /\
    P !! (idx + 13)%nat = Some f /\
    let sv := take (idx - 1) (drop 1 P) in
    let part1 := take 8 (drop (idx + 5) P) in
    (f <> x00 /\ e = "Unable to decode filler value"%string /\
     r s1 = mkPacket (ProtocolVersion old) sv id part1 f
              (CapabilitiesFlags old) (CharacterSet old) (StatusFlags old)
              (AuthPluginDataLen old) (AuthPluginName old) (header old))
    \/
    (exists b0 b1 cs t0 t1 b2 b3,
        f = x00 /\ e = "Wrong auth plugin data len"%string /\
        P !! (idx + 14)%nat = Some b0 /\ P !! (idx + 15)%nat = Some b1 /\
        P !! (idx + 16)%nat = Some cs /\
        P !! (idx + 17)%nat = Some t0 /\ P !! (idx + 18)%nat = Some t1 /\
        P !! (idx + 19)%nat = Some b2 /\ P !! (idx + 20)%nat = Some b3 /\
        P !! (idx + 21)%nat = Some x00 /\
        r s1 = mkPacket (ProtocolVersion old) sv id part1 x00
                 (capabilities (le16 b0 b1) (le16 b2 b3)) cs (le16 t0 t1)
                 x00 (AuthPluginName old) (header old)).
Proof.
  intros Ho Hp H. cbv zeta.
  unfold decodeFields in H.
  destruct s as [[v0 sv0 id0 d0 f0 c0 cs0 sf0 l0 n0 h0] p0].
  cbn [position] in Hp. subst p0. exec H.
  all: repeat match goal with
         | Hc : negb (Byte.eqb _ x00) = false |- _ =>
             apply negb_false_iff, byte_eqb_true in Hc as ->
         | Hc : negb (Byte.eqb _ x00) = true |- _ =>
             apply negb_true_iff, byte_eqb_false in Hc
         | Hc : Byte.eqb _ x00 = true |- _ => apply byte_eqb_true in Hc as ->
         end.
  all: match goal with
       | |- context [find_byte x00 (elems ?p)] =>
           destruct (IndexByte_cases (elems p) x00)
             as [[Hi Hfind] | (idx & Hi & Hfind)]; rewrite Hi in *;
           [match goal with
            | Hs : sub _ _ (-1) = Some _ |- _ => apply sub_Some in Hs; lia
            end |]
       end.
  all: match goal with
       | Hl : index ?p (Z.of_nat ?i + 1 + 4 + 8) = Some _ |- _ =>
           assert (Hbound : Z.of_nat i + 13 < s_len p)
             by (apply index_Some in Hl as [Hl _]; lia)
       end.
  all: try match goal with
       | Hl : index ?p (Z.of_nat ?i + 1 + 4 + 8 + 1 + 2 + 1 + 2 + 2) = Some _
         |- _ =>
           assert (Hbound' : Z.of_nat i + 21 < s_len p)
             by (apply index_Some in Hl as [Hl _]; lia)
       end.
  all: repeat match goal with
         | Hs : sub _ _ _ = Some _ |- _ =>
             apply sub_elems in Hs; [| done | lia]
         | Hx : index _ _ = Some _ |- _ =>
             apply index_Some_elems in Hx as [? Hx]; [| done]
         end.
  all: injection H as <- <-.
  all: subst.
  all: match goal with
       | Hf : find_byte _ _ = Some ?i |- _ => norm_to_nat i
       end.
  all: repeat match goal with
         | Hu : Uint16 (take 2 (drop _ _)) = Some _ |- _ =>
             apply Uint16_take_drop in Hu as (? & ? & ? & ? & ?)
         end.
  all: subst.
  all: match goal with
       | Hf : elems ?p !! (?i + 13)%nat = Some _ |- _ =>
           pose proof (lookup_lt_Some _ _ _ Hf) as Hlt;
           assert (Hl8 : length (take 8 (drop (i + 5) (elems p))) = 8%nat)
             by (apply length_take_drop; lia);
           eexists i, _, _; split; [done |]; split; [eassumption |];
           split; [done |]; split; [eassumption |]
       end.
  - left. split; [done |]. split; [done |].
    cbn [r ProtocolVersion ServerVersion ConnectionId AuthPluginData Filler
           CapabilitiesFlags CharacterSet StatusFlags AuthPluginDataLen
           AuthPluginName header set_ServerVersion set_ConnectionId
           set_AuthPluginData set_Filler].
    by rewrite copy_make8.
  - right.
    repeat match goal with
           | Hx : elems _ !! (?a + 1)%nat = Some _ |- _ =>
               first [ replace (a + 1)%nat with (idx + 15)%nat in Hx by lia
                     | replace (a + 1)%nat with (idx + 18)%nat in Hx by lia
                     | replace (a + 1)%nat with (idx + 20)%nat in Hx by lia ]
           end.
    eexists _, _, _, _, _, _, _. split; [done |]. split; [done |].
    do 8 (split; [eassumption |]).
    cbn [r ProtocolVersion ServerVersion ConnectionId AuthPluginData Filler
           CapabilitiesFlags CharacterSet StatusFlags AuthPluginDataLen
           AuthPluginName header set_ServerVersion set_ConnectionId
           set_AuthPluginData set_Filler set_CharacterSet set_StatusFlags
           set_CapabilitiesFlags set_AuthPluginDataLen].
    by rewrite copy_make8.
Qed.

(** C5, amended. An error is returned by the step that finds it and no later
    step runs, but [Decode] fills its receiver in place and rolls nothing
    back. After a read or header error the receiver is untouched. After the
    access-denied or protocol-version errors it holds the header read from
    the buffer and the version byte of the payload, and every other field is
    as before the call. After the filler error it holds the header, version
    10, the server version (the payload bytes before the first NUL byte), the
    connection id (the four bytes after it), part 1 of the auth-plugin-data
    (the next eight bytes) and the non-zero filler byte. After the
    auth-plugin-data-length error it holds in addition the zero filler, the
    character set, the status flags, the capability flags built from the two
    halves, and the length 0. The fields of the later steps are as before the
    call; the auth plugin name is never assigned. *)
Theorem error_keeps_assigned_fields conn s e s' :
  Decode conn s = (Err e, s') ->
  let P := declaredPayload conn in
  let old := r s in
  AuthPluginName (r s') = AuthPluginName old /\
  (((conn = ConnFail e \/ e = "Header sanity check failed!"%string) /\
    r s' = old)
   \/
   exists rx,
     conn = ConnData rx /\
     let hdr := mkPacketHeader (headerLength rx) (headerSequenceId rx) in
     ((exists v,
          P !! 0%nat = Some v /\ v <> x0a /\
          (Contains e accessDeniedText = true \/
           e = "Version 9 is not yet supported!"%string \/
           e = "Only version 10 is supported. Unknown procotcol version!"%string) /\
          r s' = mkPacket v (ServerVersion old) (ConnectionId old)
                   (AuthPluginData old) (Filler old) (CapabilitiesFlags old)
                   (CharacterSet old) (StatusFlags old)
                   (AuthPluginDataLen old) (AuthPluginName old) (Some hdr))
      \/
      exists (idx : nat) id f,
        P !! 0%nat = Some x0a /\
        find_byte x00 P = Some idx /\
        Uint32 (take 4 (drop (idx + 1) P)) = Some id /\
        length (take 8 (drop (idx + 5) P)) = 8%nat /\
        P !! (idx + 13)%nat = Some f /\
        let sv := take (idx - 1) (drop 1 P) in
        let part1 := take 8 (drop (idx + 5) P) in
        ((f <> x00 /\ e = "Unable to decode filler value"%string /\
          r s' = mkPacket x0a sv id part1 f (CapabilitiesFlags old)
                   (CharacterSet old) (StatusFlags old)
                   (AuthPluginDataLen old) (AuthPluginName old) (Some hdr))
         \/
         (exists b0 b1 cs t0 t1 b2 b3,
             f = x00 /\ e = "Wrong auth plugin data len"%string /\
             P !! (idx + 14)%nat = Some b0 /\ P !! (idx + 15)%nat = Some b1 /\
             P !! (idx + 16)%nat = Some cs /\
             P !! (idx + 17)%nat = Some t0 /\ P !! (idx + 18)%nat = Some t1 /\
             P !! (idx + 19)%nat = Some b2 /\ P !! (idx + 20)%nat = Some b3 /\
             P !! (idx + 21)%nat = Some x00 /\
             r s' = mkPacket x0a sv id part1 x00
                      (capabilities (le16 b0 b1) (le16 b2 b3)) cs
                      (le16 t0 t1) x00 (AuthPluginName old) (Some hdr))))).
Proof.
  intros H. cbv zeta.
  apply Decode_err_blocks in H
    as [H | (data & payload & hdr & s0 & Hh & H)].
  { apply decodeHeader_err in H as [-> Hc]. split; [done |]. by left. }
  pose proof Hh as ([rx ->] & -> & Hpl & HL & _ & ->)%decodeHeader_val.
  rewrite (declaredPayload_eq _ _ _ _ _ _ Hh).
  assert (Ho : 0 <= s_off payload) by (subst payload; cbn; lia).
  clear Hpl HL.
  assert (Hhdr : hdr = mkPacketHeader (headerLength rx) (headerSequenceId rx)).
  { destruct (decodeHeader_padded rx s) as [_ Hrun]. cbv zeta in Hrun.
    rewrite Hrun in Hh. destruct (1024 <=? headerLength rx); [done |].
    case_bool_decide; [| done]. by injection Hh as _ _ <-. }
  clear Hh. subst hdr.
  destruct (r s) as [v0 sv0 id0 d0 f0 c0 cs0 sf0 l0 n0 h0] eqn:Hold.
  destruct H as [H | (s1 & Hv & H)].
  - apply decodeProtocolVersion_err in H
      as (v & txt & Hv & Hne & -> & _ & He).
    apply index_Some_elems in Hv as [_ Hv]; [| done].
    cbn [r position set_header set_ProtocolVersion AuthPluginName
           ProtocolVersion ServerVersion ConnectionId AuthPluginData Filler
           CapabilitiesFlags CharacterSet StatusFlags AuthPluginDataLen
           header].
    split; [done |]. right. exists rx. split; [done |]. left. exists v.
    split; [done |]. split; [done |]. split; [| done].
    destruct (Contains (string_of_list_byte txt) accessDeniedText) eqn:Hct.
    + subst e. by left.
    + destruct (Byte.eqb v x09); subst e; [right; by left | right; by right].
  - apply decodeProtocolVersion_val in Hv as [Hv ->].
    apply index_Some_elems in Hv as [_ Hv]; [| done].
    apply decodeFields_err_fields in H; [| done | done].
    cbv zeta in H.
    cbn [r position set_header set_ProtocolVersion AuthPluginName
           ProtocolVersion ServerVersion ConnectionId AuthPluginData Filler
           CapabilitiesFlags CharacterSet StatusFlags AuthPluginDataLen
           header] in H.
    destruct H as (idx & id & f & Hf & Hid & Hl8 & Hfil & H).
    destruct H as [(Hne & -> & Hr)
                  | (b0 & b1 & cs & t0 & t1 & b2 & b3 & -> & -> & B0 & B1 & Bc
                     & T0 & T1 & B2 & B3 & Bl & Hr)].
    + split; [by rewrite Hr |]. right. exists rx. split; [done |]. right.
      exists idx, id, f. do 5 (split; [done |]). by left.
    + split; [by rewrite Hr |]. right. exists rx. split; [done |]. right.
      exists idx, id, x00. do 5 (split; [done |]). right.
      exists b0, b1, cs, t0, t1, b2, b3. by do 10 (split; [done |]).
Qed.

Lemma error_keeps_assigned_fields_witness :
  let conn := ConnData badFiller in
  let s' := snd (Decode conn freshFrame) in
  Decode conn freshFrame = (Err "Unable to decode filler value", s') /\
  r s' = mkPacket x0a (list_byte_of_string "5") 25
           (list_byte_of_string "abcdefgh") x01 0 x00 0 x00 []
           (Some (mkPacketHeader 16 x00)).
Proof.
  intros conn s'.
  assert (Hrun : Decode conn freshFrame
                 = (Err "Unable to decode filler value", s'))
    by (vm_compute; reflexivity).
  split; [exact Hrun |].
  destruct (error_keeps_assigned_fields conn freshFrame _ s' Hrun)
    as [_ [[[Hc | Hc] _] | (rx & Hrx & [(v & _ & _ & Hc & _) | H])]].
  - discriminate Hc.
  - discriminate Hc.
  - destruct Hc as [Hc | [Hc | Hc]]; [vm_compute in Hc |..]; discriminate Hc.
  - injection Hrx as <-.
    destruct H as (idx & id & f & _ & Hf & Hid & _ & Hfil & H).
    assert (idx = 2%nat) as -> by (vm_compute in Hf; congruence).
    assert (id = 25) as -> by (vm_compute in Hid; congruence).
    assert (f = x01) as -> by (vm_compute in Hfil; congruence).
    destruct H as [(_ & _ & Hr) | (b0 & b1 & cs & t0 & t1 & b2 & b3 & Hc & _)];
      [| discriminate Hc].
    rewrite Hr. vm_compute. reflexivity.
Defined.
